(** * finlex-downloader: the resumable paging-and-fetch pipeline

    A shallow embedding of [urls.py], [listing.py], [downloader.py],
    [state.py] and of the part of [cli.py] that configures the lister,
    followed by the properties of the specification stated over it.

    Representation of Python values.
    - A [str] is the Rocq [string] of its UTF-8 bytes.  Every character the
      code inspects by value (["/"], ["%"], [":"], the letters of the literal
      path prefixes, digits) is ASCII, so [startswith], [in], [split] and the
      regular expressions below act on the bytes exactly as on the characters.
      The one place where this is narrower than Python: [\d] is taken to be
      the ASCII digits [0-9]; Python's [\d] on [str] also accepts the other
      decimal digits of Unicode.
    - [bytes] are [string] as well.
    - [int] is [Z]; [Optional[T]] is [option T]; a [set[str]] is a
      [gset string]; a [dict] with string keys is a [gmap string _].
    - A call that can raise returns a [raised] value; the world a call reads
      and writes (files, the requests sent so far, the clock) is passed
      explicitly.  Logging is not modelled. *)

From Stdlib Require Import ZArith NArith List Bool Ascii Lia.
From stdpp Require Import base option list gmap sets strings pretty.

Local Open Scope Z_scope.

(** ** Python built-ins used by the code *)

Module Py.

(** The outcome of a call: a value, or an exception (its message). *)
Inductive raised (A : Type) : Type :=
| Returns (a : A)
| Raises (exc : string).
Arguments Returns {A} a.
Arguments Raises {A} exc.

(** [s.startswith(p)] *)
Fixpoint startswith (p s : string) : bool :=
  match p, s with
  | EmptyString, _ => true
  | String a p', String b s' => Ascii.eqb a b && startswith p' s'
  | String _ _, EmptyString => false
  end.

(** [sub in s] *)
Fixpoint contains (sub s : string) : bool :=
  startswith sub s ||
  match s with
  | EmptyString => false
  | String _ s' => contains sub s'
  end.

(** [s[n:]] *)
Fixpoint drop_str (n : nat) (s : string) : string :=
  match n, s with
  | O, _ => s
  | S n', String _ s' => drop_str n' s'
  | S _, EmptyString => EmptyString
  end.

(** [s.split(sep)] for a non-empty [sep]: [skip] counts the characters of an
    occurrence of [sep] still to be passed over, [cur] is the piece being
    collected. *)
Fixpoint split_go (sep s : string) (skip : nat) (cur : string) : list string :=
  match s with
  | EmptyString => [cur]
  | String c s' =>
      match skip with
      | S k => split_go sep s' k cur
      | O =>
          if startswith sep s
          then cur :: split_go sep s' (String.length sep - 1) EmptyString
          else split_go sep s' O (cur +:+ String c EmptyString)
      end
  end.

Definition split (sep s : string) : list string := split_go sep s O EmptyString.

(** [pieces[-1]] of a list that [split] returned (never empty). *)
Definition last_piece (pieces : list string) : string := List.last pieces EmptyString.

(** The longest prefix of [s] whose characters satisfy [f], and the rest:
    a greedy character-class repetition. *)
Fixpoint span (f : ascii -> bool) (s : string) : string * string :=
  match s with
  | EmptyString => (EmptyString, EmptyString)
  | String c s' =>
      if f c then let '(a, r) := span f s' in (String c a, r)
      else (EmptyString, s)
  end.

Definition byte_in (lo hi : N) (c : ascii) : bool :=
  (lo <=? N_of_ascii c)%N && (N_of_ascii c <=? hi)%N.

Definition is_ascii (c : ascii) : bool := (N_of_ascii c <? 128)%N.
Definition is_digit (c : ascii) : bool := byte_in 48 57 c.
Definition is_upper (c : ascii) : bool := byte_in 65 90 c.
Definition is_lower (c : ascii) : bool := byte_in 97 122 c.
Definition is_alpha (c : ascii) : bool := is_upper c || is_lower c.

Definition lower_char (c : ascii) : ascii :=
  if is_upper c then ascii_of_N (N_of_ascii c + 32) else c.

Fixpoint lower (s : string) : string :=
  match s with
  | EmptyString => EmptyString
  | String c s' => String (lower_char c) (lower s')
  end.

Fixpoint forallb_str (f : ascii -> bool) (s : string) : bool :=
  match s with
  | EmptyString => true
  | String c s' => f c && forallb_str f s'
  end.

Fixpoint filter_str (f : ascii -> bool) (s : string) : string :=
  match s with
  | EmptyString => EmptyString
  | String c s' => if f c then String c (filter_str f s') else filter_str f s'
  end.

(** [s.find(c)] as the text before the first [c] and the text from it on;
    [None] when [c] does not occur. *)
Fixpoint cut_at (c : ascii) (s : string) : option (string * string) :=
  match s with
  | EmptyString => None
  | String d s' =>
      if Ascii.eqb c d then Some (EmptyString, s)
      else match cut_at c s' with
           | Some (a, r) => Some (String d a, r)
           | None => None
           end
  end.

End Py.

(** ** urllib.parse: [unquote] and [urlparse]

    Library functions the resolver calls.  They are modelled after their
    documented behaviour (CPython 3.9 and later), on the byte representation
    of [str]. *)

Module Urllib.
Import Py.

Definition hexval (c : ascii) : option N :=
  let n := N_of_ascii c in
  if byte_in 48 57 c then Some (n - 48)%N
  else if byte_in 65 70 c then Some (n - 55)%N
  else if byte_in 97 102 c then Some (n - 87)%N
  else None.

(** [unquote_to_bytes]: every ["%"] followed by two hexadecimal digits becomes
    the byte they denote; any other ["%"] stays. *)
Fixpoint unquote_to_bytes (s : string) : string :=
  match s with
  | EmptyString => EmptyString
  | String c r =>
      if Ascii.eqb c "%" then
        match r with
        | String h (String l r') =>
            match hexval h, hexval l with
            | Some a, Some b => String (ascii_of_N (16 * a + b)) (unquote_to_bytes r')
            | _, _ => String c (unquote_to_bytes r)
            end
        | _ => String c (unquote_to_bytes r)
        end
      else String c (unquote_to_bytes r)
  end.

(** U+FFFD, the replacement character, in UTF-8. *)
Definition replacement : string :=
  String (ascii_of_N 239) (String (ascii_of_N 191) (String (ascii_of_N 189) EmptyString)).

(** [bytes.decode("utf-8", errors="replace")], read back as UTF-8: well-formed
    sequences are kept, every maximal ill-formed part becomes U+FFFD. *)
Fixpoint utf8_replace (s : string) : string :=
  match s with
  | EmptyString => EmptyString
  | String c0 r0 =>
      if is_ascii c0 then String c0 (utf8_replace r0)
      else if byte_in 194 223 c0 then
        match r0 with
        | String c1 r1 =>
            if byte_in 128 191 c1 then String c0 (String c1 (utf8_replace r1))
            else replacement +:+ utf8_replace r0
        | EmptyString => replacement
        end
      else if byte_in 224 239 c0 then
        let lo := if byte_in 224 224 c0 then 160%N else 128%N in
        let hi := if byte_in 237 237 c0 then 159%N else 191%N in
        match r0 with
        | String c1 r1 =>
            if byte_in lo hi c1 then
              match r1 with
              | String c2 r2 =>
                  if byte_in 128 191 c2
                  then String c0 (String c1 (String c2 (utf8_replace r2)))
                  else replacement +:+ utf8_replace r1
              | EmptyString => replacement
              end
            else replacement +:+ utf8_replace r0
        | EmptyString => replacement
        end
      else if byte_in 240 244 c0 then
        let lo := if byte_in 240 240 c0 then 144%N else 128%N in
        let hi := if byte_in 244 244 c0 then 143%N else 191%N in
        match r0 with
        | String c1 r1 =>
            if byte_in lo hi c1 then
              match r1 with
              | String c2 r2 =>
                  if byte_in 128 191 c2 then
                    match r2 with
                    | String c3 r3 =>
                        if byte_in 128 191 c3
                        then String c0 (String c1 (String c2 (String c3 (utf8_replace r3))))
                        else replacement +:+ utf8_replace r2
                    | EmptyString => replacement
                    end
                  else replacement +:+ utf8_replace r1
              | EmptyString => replacement
              end
            else replacement +:+ utf8_replace r0
        | EmptyString => replacement
        end
      else replacement +:+ utf8_replace r0
  end.

(** One maximal run of ASCII characters, percent-decoded. *)
Definition unquote_run (run : string) : string := utf8_replace (unquote_to_bytes run).

(** The runs of ASCII characters are decoded one by one; characters outside
    ASCII are copied.  [run] is the ASCII run read so far. *)
Fixpoint unquote_go (s run : string) : string :=
  match s with
  | EmptyString => unquote_run run
  | String c r =>
      if is_ascii c then unquote_go r (run +:+ String c EmptyString)
      else unquote_run run +:+ String c (unquote_go r EmptyString)
  end.

(** [urllib.parse.unquote(s)] *)
Definition unquote (s : string) : string :=
  if contains "%" s then unquote_go s EmptyString else s.

Definition is_scheme_char (c : ascii) : bool :=
  is_alpha c || is_digit c || Ascii.eqb c "+" || Ascii.eqb c "-" || Ascii.eqb c ".".

Definition uses_params : list string :=
  [""; "ftp"; "hdl"; "prospero"; "http"; "imap"; "https"; "shttp"; "rtsp";
   "rtspu"; "sip"; "sips"; "mms"; "sftp"; "tel"].

Definition is_c0_or_space (c : ascii) : bool := (N_of_ascii c <=? 32)%N.
Definition is_tab_or_newline (c : ascii) : bool :=
  Ascii.eqb c "009" || Ascii.eqb c "010" || Ascii.eqb c "013".

Fixpoint lstrip (f : ascii -> bool) (s : string) : string :=
  match s with
  | EmptyString => EmptyString
  | String c s' => if f c then lstrip f s' else s
  end.

(** The scheme of [url] (lower-cased) and what follows its colon. *)
Definition split_scheme (url : string) : string * string :=
  match cut_at ":" url with
  | Some (String c0 _ as pre, String _ rest) =>
      if is_alpha c0 && forallb_str is_scheme_char pre then (lower pre, rest)
      else (EmptyString, url)
  | _ => (EmptyString, url)
  end.

Definition is_netloc_end (c : ascii) : bool :=
  Ascii.eqb c "/" || Ascii.eqb c "?" || Ascii.eqb c "#".

Definition before (c : ascii) (s : string) : string :=
  match cut_at c s with
  | Some (a, _) => a
  | None => s
  end.

(** [_splitparams(url)[0]]: the path without the parameters of its last
    segment. *)
Fixpoint splitparams (url : string) : string :=
  match url with
  | EmptyString => EmptyString
  | String c r =>
      if contains "/" r then String c (splitparams r)
      else before ";" url
  end.

(** [urlparse(url).path].  It raises [ValueError] when the network location
    has a square bracket without its partner.  The further checks recent
    versions make on a bracketed or non-ASCII host are not modelled. *)
Definition urlparse_path (url : string) : raised string :=
  let url := lstrip is_c0_or_space url in
  let url := filter_str (fun c => negb (is_tab_or_newline c)) url in
  let '(scheme, url) := split_scheme url in
  let after_netloc :=
    if startswith "//" url then
      let '(netloc, rest) := span (fun c => negb (is_netloc_end c)) (drop_str 2 url) in
      if xorb (contains "[" netloc) (contains "]" netloc)
      then Raises "ValueError: Invalid IPv6 URL"
      else Returns rest
    else Returns url in
  match after_netloc with
  | Raises e => Raises e
  | Returns url =>
      let url := before "?" (before "#" url) in
      Returns (if bool_decide (scheme ∈ uses_params) then splitparams url else url)
  end.

End Urllib.

(** ** pathlib: pure POSIX paths

    [Path(a, b, ...)]: every argument is cut at its slashes, empty components
    and ["."] components are dropped, and an argument that starts with a
    slash starts the path anew.  Two paths are equal when their roots and
    components are (POSIX flavour: case matters). *)

Module Pathlib.
Import Py.

Record PurePath := { root : string; parts : list string }.

Definition parse_arg (s : string) : PurePath :=
  {| root := if startswith "//" s && negb (startswith "///" s) then "//"
             else if startswith "/" s then "/" else EmptyString;
     parts := List.filter (fun p => negb (String.eqb p EmptyString || String.eqb p "."))
                          (split "/" s) |}.

(** [a / b] *)
Definition joinpath (a b : PurePath) : PurePath :=
  if String.eqb (root b) EmptyString
  then {| root := root a; parts := parts a ++ parts b |}
  else b.

Definition Path (args : list string) : PurePath :=
  fold_left joinpath (List.map parse_arg args) {| root := EmptyString; parts := [] |}.

Fixpoint join_parts (l : list string) : string :=
  match l with
  | [] => EmptyString
  | [p] => p
  | p :: l' => p +:+ "/" +:+ join_parts l'
  end.

(** [str(p)] *)
Definition str (p : PurePath) : string :=
  match root p, parts p with
  | EmptyString, [] => "."
  | _, _ => root p +:+ join_parts (parts p)
  end.

(** [p.name] *)
Definition name (p : PurePath) : string := List.last (parts p) EmptyString.

(** [p.parent] *)
Definition parent (p : PurePath) : PurePath :=
  {| root := root p; parts := removelast (parts p) |}.

End Pathlib.

(** ** urls.py *)

Module Urls.
Import Py.

Record DocumentInfo := {
  category : string;
  document_type : string;
  year : string;
  number : string;
  lang_and_version : string;
  authority : option string;
}.

(** Truth value of an [Optional[str]]: [None] and the empty string are false. *)
Definition truthy (o : option string) : option string :=
  match o with
  | Some s => if String.eqb s EmptyString then None else Some s
  | None => None
  end.

(** [DocumentInfo.folder_path] *)
Definition folder_path (self : DocumentInfo) : Pathlib.PurePath :=
  match truthy (authority self) with
  | Some a =>
      Pathlib.Path [category self; document_type self; a; year self; number self;
                    lang_and_version self]
  | None =>
      Pathlib.Path [category self; document_type self; year self; number self;
                    lang_and_version self]
  end.

(** *** The two regular expressions

    Each is matched from the start of the string ([re.match]), piece by
    piece.  A repetition takes the longest run of its class; since each run
    is followed in the pattern by a character outside the class (or by the
    end), no shorter run could match, so nothing is lost by not retrying. *)

(** A literal: the rest of [s] after [p]. *)
Definition lit (p s : string) : option string :=
  if startswith p s then Some (drop_str (String.length p) s) else None.

(** [(a|b|...)]: the first alternative that is a prefix. *)
Fixpoint alt (alts : list string) (s : string) : option (string * string) :=
  match alts with
  | [] => None
  | a :: alts' =>
      match lit a s with
      | Some r => Some (a, r)
      | None => alt alts' s
      end
  end.

(** [[class]+] *)
Definition plus (f : ascii -> bool) (s : string) : option (string * string) :=
  let '(a, r) := span f s in
  if String.eqb a EmptyString then None else Some (a, r).

Definition not_slash (c : ascii) : bool := negb (Ascii.eqb c "/").

(** [$]: the end of the string, or just before a newline that ends it. *)
Definition at_end (s : string) : option unit :=
  if String.eqb s EmptyString || String.eqb s (String "010" EmptyString) then Some tt else None.

(** [STANDARD_PATTERN.match(path)] with its named groups. *)
Definition STANDARD_PATTERN (path : string) : option DocumentInfo :=
  r ← lit "/akn/fi/" path;
  '(cat, r) ← alt ["act"; "judgment"; "doc"] r;
  r ← lit "/" r;
  '(type, r) ← plus not_slash r;
  r ← lit "/" r;
  '(yr, r) ← plus is_digit r;
  r ← lit "/" r;
  '(num, r) ← plus not_slash r;
  r ← lit "/" r;
  '(lang, r) ← plus not_slash r;
  _ ← at_end r;
  Some {| category := cat; document_type := type; year := yr; number := num;
          lang_and_version := lang; authority := None |}.

(** [AUTHORITY_PATTERN.match(path)], already as the [DocumentInfo] that
    [parse_akn_uri] builds from its groups. *)
Definition AUTHORITY_PATTERN (path : string) : option DocumentInfo :=
  r ← lit "/akn/fi/doc/authority-regulation/" path;
  '(auth, r) ← plus not_slash r;
  r ← lit "/" r;
  '(yr, r) ← plus is_digit r;
  r ← lit "/" r;
  '(num, r) ← plus not_slash r;
  r ← lit "/" r;
  '(lang, r) ← plus not_slash r;
  _ ← at_end r;
  Some {| category := "doc"; document_type := "authority-regulation"; year := yr;
          number := num; lang_and_version := lang; authority := Some auth |}.

(** The second half of [parse_akn_uri]: the authority pattern first, then the
    standard one. *)
Definition match_path (path : string) : option DocumentInfo :=
  match AUTHORITY_PATTERN path with
  | Some info => Some info
  | None => STANDARD_PATTERN path
  end.

(** The first half of [parse_akn_uri]: the path to match. *)
Definition path_of_uri (uri : string) : raised string :=
  if startswith "http" uri then
    match Urllib.urlparse_path uri with
    | Raises e => Raises e
    | Returns p =>
        let path := Urllib.unquote p in
        Returns (if contains "/finlex/avoindata/v1" path
                 then last_piece (split "/finlex/avoindata/v1" path)
                 else path)
    end
  else Returns (Urllib.unquote uri).

Definition parse_akn_uri (uri : string) : raised (option DocumentInfo) :=
  match path_of_uri uri with
  | Raises e => Raises e
  | Returns path => Returns (match_path path)
  end.

Definition build_api_path (info : DocumentInfo) : string :=
  match truthy (authority info) with
  | Some a =>
      "/akn/fi/" +:+ category info +:+ "/" +:+ document_type info +:+ "/" +:+ a +:+ "/"
        +:+ year info +:+ "/" +:+ number info +:+ "/" +:+ lang_and_version info
  | None =>
      "/akn/fi/" +:+ category info +:+ "/" +:+ document_type info +:+ "/"
        +:+ year info +:+ "/" +:+ number info +:+ "/" +:+ lang_and_version info
  end.

Definition build_list_path (category document_type : string) : string :=
  if String.eqb document_type "authority-regulation"
  then "/akn/fi/" +:+ category +:+ "/" +:+ document_type +:+ "/list"
  else "/akn/fi/" +:+ category +:+ "/" +:+ document_type +:+ "/list".

End Urls.

(** ** client.py: the transport

    [FinlexClient.get] sends one GET request and returns the response, or
    raises [requests.RequestException].  What the remote side answers is a
    function of the requests sent so far and of the request; the client's
    state that matters here is that list of requests.  The pause between
    requests is a matter of wall-clock time and is left out. *)

Module Client.
Import Py.

(** The query parameters of a listing request; the optional keys are [None]
    when the dictionary does not have them. *)
Record Params := {
  p_format : string;
  p_page : Z;
  p_limit : Z;
  p_langAndVersion : string;
  p_startYear : option Z;
  p_endYear : option Z;
}.

Record Request := {
  req_path : string;
  req_params : option Params;
  req_accept : string;
}.

(** A response: [json] is the value of [response.json()], a JSON array of
    objects with string values, or [None] when the body is not JSON and the
    call raises [ValueError]. *)
Record Response := {
  status_code : Z;
  content : string;
  json : option (list (gmap string string));
}.

Definition Transport : Type := list Request -> Request -> raised Response.

Definition get (t : Transport) (log : list Request) (path : string)
    (params : option Params) (accept : string) : raised Response * list Request :=
  let req := {| req_path := path; req_params := params; req_accept := accept |} in
  (t log req, log ++ [req]).

Definition get_json t log path params := get t log path params "application/json".
Definition get_xml t log path := get t log path None "application/xml".
Definition get_pdf t log path := get t log path None "application/pdf".
Definition get_zip t log path := get t log path None "application/zip".

End Client.

(** ** listing.py *)

Module Listing.
Import Py Client.

Record ListItem := { akn_uri : string; status : string }.

Record ListConfig := {
  category : string;
  document_type : string;
  lang_and_version : string;
  start_year : option Z;
  end_year : option Z;
  limit : Z;
  max_pages : option Z;
}.

(** Truth value of an [Optional[int]]: [None] and [0] are false. *)
Definition truthy_int (o : option Z) : option Z :=
  match o with
  | Some n => if n =? 0 then None else Some n
  | None => None
  end.

(** [config.max_pages and page > config.max_pages] *)
Definition past_max_pages (config : ListConfig) (page : Z) : bool :=
  match truthy_int (max_pages config) with
  | Some m => m <? page
  | None => false
  end.

(** The [params] dictionary of the request for [page]. *)
Definition page_params (config : ListConfig) (page : Z) : Params :=
  {| p_format := "json";
     p_page := page;
     p_limit := limit config;
     p_langAndVersion := lang_and_version config;
     p_startYear := truthy_int (start_year config);
     p_endYear := truthy_int (end_year config) |}.

(** [ListItem(akn_uri=item.get("akn_uri", ""), status=item.get("status", ""))] *)
Definition item_of (item : gmap string string) : ListItem :=
  {| akn_uri := default EmptyString (item !! "akn_uri");
     status := default EmptyString (item !! "status") |}.

(** Why the generator stopped. *)
Inductive Ending :=
| PageLimitReached
| RequestFailed
| BadJson
| EndOfData
| ShortPage
| Raised (exc : string)
| StillRunning.

(** A run of the generator consumed to its end: the items it yielded, in
    order, the client's requests after it, and how it ended. *)
Record Run := {
  yielded : list ListItem;
  log : list Request;
  ending : Ending;
}.

(** The [while True] loop; [fuel] bounds the number of pages, and a run that
    uses it up is [StillRunning]. *)
Fixpoint list_loop (fuel : nat) (t : Transport) (config : ListConfig) (path : string)
    (page : Z) (log : list Request) (yielded : list ListItem) : Run :=
  match fuel with
  | O => {| yielded := yielded; log := log; ending := StillRunning |}
  | S fuel' =>
      if past_max_pages config page
      then {| yielded := yielded; log := log; ending := PageLimitReached |}
      else
        let '(response, log) := get_json t log path (Some (page_params config page)) in
        match response with
        | Raises e => {| yielded := yielded; log := log; ending := Raised e |}
        | Returns response =>
            if negb (status_code response =? 200)
            then {| yielded := yielded; log := log; ending := RequestFailed |}
            else
              match json response with
              | None => {| yielded := yielded; log := log; ending := BadJson |}
              | Some [] => {| yielded := yielded; log := log; ending := EndOfData |}
              | Some items =>
                  let yielded := yielded ++ List.map item_of items in
                  if Z.of_nat (length items) <? limit config
                  then {| yielded := yielded; log := log; ending := ShortPage |}
                  else list_loop fuel' t config path (page + 1) log yielded
              end
        end
  end.

Definition list_documents (fuel : nat) (t : Transport) (log : list Request)
    (config : ListConfig) : Run :=
  list_loop fuel t config
    (Urls.build_list_path (category config) (document_type config)) 1 log [].

End Listing.

(** ** cli.py: how [run_download] configures the lister *)

Module Cli.

(** The parsed arguments that reach the lister. *)
Record Args := {
  lang : string;
  limit : Z;
  max_pages : option Z;
}.

(** The [ListConfig(...)] that [run_download] builds for one document type. *)
Definition list_config (args : Args) (actual_category doc_type : string)
    (start_year end_year : Z) : Listing.ListConfig :=
  {| Listing.category := actual_category;
     Listing.document_type := doc_type;
     Listing.lang_and_version := lang args;
     Listing.start_year := Some start_year;
     Listing.end_year := Some end_year;
     Listing.limit := Z.min (limit args) 10;
     Listing.max_pages := max_pages args |}.

End Cli.

(** ** The file system

    What the code asks of the disk, as an interface: a call may fail with an
    [OSError] (its message), and says what the disk looks like afterwards. *)

Module Fs.
Import Py Pathlib.

Record FileSystem := {
  state : Type;
  (** [p.exists()] *)
  path_exists : state -> PurePath -> bool;
  (** [p.mkdir(parents=..., exist_ok=...)] *)
  mkdir : state -> PurePath -> bool -> bool -> option string * state;
  (** [p.write_bytes(data)], and writing a text file in one go *)
  write_bytes : state -> PurePath -> string -> option string * state;
}.

(** An instance: files and directories in memory, by the text of their
    path; [None] is a directory.  The directory the relative paths start
    from is there from the beginning. *)
Definition is_dir (s : gmap string (option string)) (p : PurePath) : bool :=
  match parts p with
  | [] => true
  | _ => bool_decide (s !! str p = Some None)
  end.

Definition is_file (s : gmap string (option string)) (p : PurePath) : bool :=
  match parts p with
  | [] => false
  | _ => match s !! str p with Some (Some _) => true | _ => false end
  end.

(** The path and the directories above it, outermost first. *)
Definition lineage (p : PurePath) : list PurePath :=
  List.map (fun n => {| root := root p; parts := firstn n (parts p) |})
           (seq 1 (length (parts p))).

Definition mem_mkdir (s : gmap string (option string)) (p : PurePath)
    (parents exist_ok : bool) : option string * gmap string (option string) :=
  if is_file s p then (Some "FileExistsError", s)
  else if is_dir s p then (if exist_ok then None else Some "FileExistsError", s)
  else if existsb (is_file s) (lineage p) then (Some "NotADirectoryError", s)
  else if parents
       then (None, fold_left (fun s q => <[str q := None]> s) (lineage p) s)
       else if is_dir s (parent p) then (None, <[str p := None]> s)
            else (Some "FileNotFoundError", s).

Definition mem_write_bytes (s : gmap string (option string)) (p : PurePath)
    (data : string) : option string * gmap string (option string) :=
  if is_dir s p then (Some "IsADirectoryError", s)
  else if is_dir s (parent p) then (None, <[str p := Some data]> s)
       else (Some "FileNotFoundError", s).

Definition MemFs : FileSystem :=
  {| state := gmap string (option string);
     path_exists := fun s p => is_dir s p || is_file s p;
     mkdir := mem_mkdir;
     write_bytes := mem_write_bytes |}.

End Fs.

(** ** lxml.etree: the parsed document and the three XPath queries

    The parser itself ([etree.fromstring]) is a parameter of the code that
    uses it: [None] stands for a document it rejects (it raises). *)

Module Etree.

(** An element: namespace, local name, attributes (namespace, name, value)
    and child elements.  Text, comments and processing instructions carry no
    attributes and are left out. *)
#[warnings="-register-all"]
Inductive Element :=
| Elem (ns tag : string) (attrs : list (string * string * string)) (children : list Element).

Definition elem_ns (e : Element) : string := let 'Elem ns _ _ _ := e in ns.
Definition elem_tag (e : Element) : string := let 'Elem _ tag _ _ := e in tag.
Definition elem_attrs (e : Element) := let 'Elem _ _ attrs _ := e in attrs.
Definition elem_children (e : Element) : list Element := let 'Elem _ _ _ ch := e in ch.

Definition AKN_NS : string := "http://docs.oasis-open.org/legaldocml/ns/akn/3.0".

(** The name test [akn:tag]. *)
Definition is_akn (tag : string) (e : Element) : bool :=
  String.eqb (elem_ns e) AKN_NS && String.eqb (elem_tag e) tag.

(** The values of the attribute [@name] (no namespace) of one element. *)
Definition attr_values (name : string) (e : Element) : list string :=
  List.map snd
    (List.filter (fun a => String.eqb (fst (fst a)) EmptyString && String.eqb (snd (fst a)) name)
                 (elem_attrs e)).

(** [//akn:tag/@name], in document order. *)
Fixpoint xpath_attr_of (tag name : string) (e : Element) : list string :=
  (if is_akn tag e then attr_values name e else []) ++
  match e with
  | Elem _ _ _ children => flat_map (xpath_attr_of tag name) children
  end.

(** [//akn:tag//@name], in document order: the attribute on every element
    that is an [akn:tag] or lies below one ([inside]). *)
Fixpoint xpath_attr_below (tag name : string) (inside : bool) (e : Element) : list string :=
  let inside := inside || is_akn tag e in
  (if inside then attr_values name e else []) ++
  match e with
  | Elem _ _ _ children => flat_map (xpath_attr_below tag name inside) children
  end.

End Etree.

(** ** downloader.py *)

Module Downloader.
Import Py Pathlib Client Fs Etree.

Record DownloadResult := {
  akn_uri : string;
  status : string;
  timestamp : string;
  files : list string;
  error : option string;
}.

Record DownloadOptions := {
  output_dir : PurePath;
  fetch_pdf : bool;
  fetch_zip : bool;
  fetch_media : bool;
  force : bool;
  dry_run : bool;
}.

Section Download.

Context (F : FileSystem) (t : Transport) (fromstring : string -> option Element).

(** What a call reads and changes: the disk and the requests sent so far. *)
Record World := { disk : state F; sent : list Request }.

Definition is_media (link : string) : bool := startswith "media/" link.

(** [extract_media_links(xml_content)]: any exception of the parser or of a
    query is caught, and the links found are returned without duplicates, in
    the order the set gives them. *)
Definition extract_media_links (xml_content : string) : list string :=
  let links :=
    match fromstring xml_content with
    | Some tree =>
        List.filter is_media (xpath_attr_of "img" "src" tree) ++
        List.filter is_media (xpath_attr_below "attachment" "href" false tree) ++
        List.filter is_media (xpath_attr_of "ref" "href" tree)
    | None => []
    end in
  elements (list_to_set links : gset string).

(** One best-effort fetch, as in the PDF, ZIP and media blocks: on status 200
    the body is written to [dest] and the path recorded; any other status, an
    exception of the client or of the write changes nothing but the world. *)
Definition fetch_into (accept url : string) (dest : PurePath) (w : World)
    (files : list string) : World * list string :=
  let '(response, sent) := Client.get t (sent w) url None accept in
  match response with
  | Raises _ => ({| disk := disk w; sent := sent |}, files)
  | Returns response =>
      if status_code response =? 200 then
        match write_bytes F (disk w) dest (content response) with
        | (None, d) => ({| disk := d; sent := sent |}, files ++ [str dest])
        | (Some _, d) => ({| disk := d; sent := sent |}, files)
        end
      else ({| disk := disk w; sent := sent |}, files)
  end.

(** The [for link in media_links] loop. *)
Definition fetch_media_links (api_path : string) (media_dir : PurePath)
    (links : list string) (w : World) (files : list string) : World * list string :=
  fold_left
    (fun '(w, files) link =>
       fetch_into "application/xml" (api_path +:+ "/" +:+ link)
         (joinpath media_dir (parse_arg (name (parse_arg link)))) w files)
    links (w, files).

(** Everything after the primary document has been written. *)
Definition fetch_companions (options : DownloadOptions) (api_path : string)
    (doc_dir : PurePath) (xml_content : string) (w : World) (files : list string)
    : raised (list string) * World :=
  let '(w, files) :=
    if fetch_pdf options
    then fetch_into "application/pdf" (api_path +:+ "/main.pdf")
           (joinpath doc_dir (parse_arg "main.pdf")) w files
    else (w, files) in
  let '(w, files) :=
    if fetch_zip options
    then fetch_into "application/zip" (api_path +:+ "/main.akn")
           (joinpath doc_dir (parse_arg "main.zip")) w files
    else (w, files) in
  if fetch_media options then
    match extract_media_links xml_content with
    | [] => (Returns files, w)
    | media_links =>
        let media_dir := joinpath doc_dir (parse_arg "media") in
        match mkdir F (disk w) media_dir false true with
        | (Some e, d) => (Raises e, {| disk := d; sent := sent w |})
        | (None, d) =>
            let '(w, files) :=
              fetch_media_links api_path media_dir media_links
                {| disk := d; sent := sent w |} files in
            (Returns files, w)
        end
    end
  else (Returns files, w).

(** [download_document(client, akn_uri, options)]; [now] is
    [datetime.now().isoformat()]. *)
Definition download_document (now akn_uri : string) (options : DownloadOptions)
    (w : World) : raised DownloadResult * World :=
  let result status files error :=
    {| akn_uri := akn_uri; status := status; timestamp := now;
       files := files; error := error |} in
  match Urls.parse_akn_uri akn_uri with
  | Raises e => (Raises e, w)
  | Returns None =>
      (Returns (result "error" [] (Some ("Failed to parse URI: " +:+ akn_uri))), w)
  | Returns (Some info) =>
      let doc_dir := joinpath (output_dir options) (Urls.folder_path info) in
      let xml_path := joinpath doc_dir (parse_arg "main.xml") in
      if path_exists F (disk w) xml_path && negb (force options)
      then (Returns (result "skipped" [str xml_path] None), w)
      else if dry_run options
      then (Returns (result "dry-run" [] None), w)
      else
        match mkdir F (disk w) doc_dir true true with
        | (Some e, d) => (Raises e, {| disk := d; sent := sent w |})
        | (None, d) =>
            let api_path := Urls.build_api_path info in
            let '(response, sent) := get_xml t (sent w) api_path in
            match response with
            | Raises e =>
                (Returns (result "error" [] (Some ("Failed to fetch XML: " +:+ e))),
                 {| disk := d; sent := sent |})
            | Returns response =>
                if negb (status_code response =? 200)
                then (Returns (result "error" []
                                 (Some ("HTTP " +:+ pretty (status_code response)
                                        +:+ " fetching XML"))),
                      {| disk := d; sent := sent |})
                else
                  let xml_content := content response in
                  match write_bytes F d xml_path xml_content with
                  | (Some e, d) =>
                      (Returns (result "error" [] (Some ("Failed to fetch XML: " +:+ e))),
                       {| disk := d; sent := sent |})
                  | (None, d) =>
                      match fetch_companions options api_path doc_dir xml_content
                              {| disk := d; sent := sent |} [str xml_path] with
                      | (Raises e, w) => (Raises e, w)
                      | (Returns files, w) => (Returns (result "success" files None), w)
                      end
                  end
            end
        end
  end.

End Download.

Arguments disk {F} _.
Arguments sent {F} _.

End Downloader.

(** ** state.py: the checkpoint *)

Module State.
Import Py Pathlib Fs.

(** The JSON values of a state file: [null], a number, a string, an array of
    strings. *)
Inductive Json :=
| JNull
| JInt (n : Z)
| JStr (s : string)
| JStrs (l : list string).

Record DownloadState := {
  current_category : option string;
  current_document_type : option string;
  current_page : Z;
  last_uri : option string;
  completed_uris : gset string;
  started_at : option string;
  updated_at : option string;
}.

(** [DownloadState()] *)
Definition fresh : DownloadState :=
  {| current_category := None; current_document_type := None; current_page := 1;
     last_uri := None; completed_uris := ∅; started_at := None; updated_at := None |}.

Definition json_of_opt (o : option string) : Json :=
  match o with
  | Some s => JStr s
  | None => JNull
  end.

(** The dictionary of [to_dict], with the completed uris listed as [uris]. *)
Definition dict_with (self : DownloadState) (uris : list string) : gmap string Json :=
  <["current_category" := json_of_opt (current_category self)]>
  (<["current_document_type" := json_of_opt (current_document_type self)]>
  (<["current_page" := JInt (current_page self)]>
  (<["last_uri" := json_of_opt (last_uri self)]>
  (<["completed_uris" := JStrs uris]>
  (<["started_at" := json_of_opt (started_at self)]>
  (<["updated_at" := json_of_opt (updated_at self)]> ∅)))))).

(** [self.to_dict()]: [list(self.completed_uris)] lists the set in the order
    the set gives. *)
Definition to_dict (self : DownloadState) : gmap string Json :=
  dict_with self (elements (completed_uris self)).

(** [data.get(key)] read as an [Optional[str]]; the outer [None] is a value
    of another type, which Python would store unchecked. *)
Definition get_opt_str (data : gmap string Json) (key : string) : option (option string) :=
  match data !! key with
  | None | Some JNull => Some None
  | Some (JStr s) => Some (Some s)
  | Some _ => None
  end.

(** [DownloadState.from_dict(data)]; [None] when an entry has a type the
    fields cannot hold. *)
Definition from_dict (data : gmap string Json) : option DownloadState :=
  cc ← get_opt_str data "current_category";
  cd ← get_opt_str data "current_document_type";
  pg ← match data !! "current_page" with
       | None => Some 1
       | Some (JInt n) => Some n
       | Some _ => None
       end;
  lu ← get_opt_str data "last_uri";
  done ← match data !! "completed_uris" with
         | None => Some ∅
         | Some (JStrs l) => Some (list_to_set l)
         | Some _ => None
         end;
  sa ← get_opt_str data "started_at";
  ua ← get_opt_str data "updated_at";
  Some {| current_category := cc; current_document_type := cd; current_page := pg;
          last_uri := lu; completed_uris := done; started_at := sa; updated_at := ua |}.

Record StateManager := {
  state_file : PurePath;
  state : DownloadState;
}.

(** [StateManager(state_file)] *)
Definition new_manager (state_file : PurePath) : StateManager :=
  {| state_file := state_file; state := fresh |}.

Definition with_state (self : StateManager) (s : DownloadState) : StateManager :=
  {| state_file := state_file self; state := s |}.

(** [self.is_completed(uri)] *)
Definition is_completed (self : StateManager) (uri : string) : bool :=
  bool_decide (uri ∈ completed_uris (state self)).

(** [self.get_resume_page(category, document_type)] *)
Definition get_resume_page (self : StateManager) (category document_type : string) : Z :=
  if bool_decide (current_category (state self) = Some category)
     && bool_decide (current_document_type (state self) = Some document_type)
  then current_page (state self)
  else 1.

Section Persist.

Context (F : FileSystem) (dumps : gmap string Json -> string).

(** [self.save()]: the time stamp is set, the directory made (an error there
    is not caught), the file written (an error there is caught).  The result
    is the exception that escapes, the manager and the disk. *)
Definition save (now : string) (self : StateManager) (d : Fs.state F)
    : option string * StateManager * Fs.state F :=
  let s := state self in
  let self := with_state self
    {| current_category := current_category s;
       current_document_type := current_document_type s;
       current_page := current_page s; last_uri := last_uri s;
       completed_uris := completed_uris s; started_at := started_at s;
       updated_at := Some now |} in
  match mkdir F d (parent (state_file self)) true true with
  | (Some e, d) => (Some e, self, d)
  | (None, d) =>
      let '(_, d) := write_bytes F d (state_file self) (dumps (to_dict (state self))) in
      (None, self, d)
  end.

(** [self.mark_completed(uri)] *)
Definition mark_completed (now uri : string) (self : StateManager) (d : Fs.state F)
    : option string * StateManager * Fs.state F :=
  let s := state self in
  save now
    (with_state self
       {| current_category := current_category s;
          current_document_type := current_document_type s;
          current_page := current_page s; last_uri := Some uri;
          completed_uris := {[uri]} ∪ completed_uris s; started_at := started_at s;
          updated_at := updated_at s |}) d.

(** [self.set_page(page)] *)
Definition set_page (now : string) (page : Z) (self : StateManager) (d : Fs.state F)
    : option string * StateManager * Fs.state F :=
  let s := state self in
  save now
    (with_state self
       {| current_category := current_category s;
          current_document_type := current_document_type s;
          current_page := page; last_uri := last_uri s;
          completed_uris := completed_uris s; started_at := started_at s;
          updated_at := updated_at s |}) d.

(** [self.start_session(category, document_type)] *)
Definition start_session (now category document_type : string) (self : StateManager)
    (d : Fs.state F) : option string * StateManager * Fs.state F :=
  let s := state self in
  save now
    (with_state self
       {| current_category := Some category;
          current_document_type := Some document_type;
          current_page := current_page s; last_uri := last_uri s;
          completed_uris := completed_uris s;
          started_at := match started_at s with Some a => Some a | None => Some now end;
          updated_at := updated_at s |}) d.

(** A caller marking [uris] one after the other, going on even when a save
    raised (the object has been changed by then). *)
Fixpoint mark_all (now : string) (uris : list string) (self : StateManager)
    (d : Fs.state F) : StateManager * Fs.state F :=
  match uris with
  | [] => (self, d)
  | uri :: uris' =>
      let '(_, self, d) := mark_completed now uri self d in
      mark_all now uris' self d
  end.

End Persist.

End State.

(** ** The vocabulary of the specification *)

Module Spec.
Import Py.

(** A path segment: not empty, no slash. *)
Definition token (s : string) : bool :=
  negb (String.eqb s EmptyString) && forallb_str Urls.not_slash s.

(** Digits only (and at least one). *)
Definition digits (s : string) : bool :=
  negb (String.eqb s EmptyString) && forallb_str is_digit s.

(** Coordinates whose fields are segments, with an authority exactly when
    the document type is [authority-regulation]. *)
Definition well_formed (c : Urls.DocumentInfo) : bool :=
  token (Urls.category c) && token (Urls.document_type c) && token (Urls.year c)
  && token (Urls.number c) && token (Urls.lang_and_version c)
  && match Urls.authority c with
     | Some a => token a && String.eqb (Urls.document_type c) "authority-regulation"
     | None => negb (String.eqb (Urls.document_type c) "authority-regulation")
     end.

(** Valid coordinates: well formed, the category one of the three, the year
    digits only. *)
Definition valid_coords (c : Urls.DocumentInfo) : bool :=
  well_formed c
  && bool_decide (Urls.category c ∈ ["act"; "judgment"; "doc"])
  && digits (Urls.year c).

(** The fields of the coordinates, in the order of the storage path. *)
Definition fields (c : Urls.DocumentInfo) : list string :=
  [Urls.category c; Urls.document_type c] ++ option_list (Urls.authority c)
  ++ [Urls.year c; Urls.number c; Urls.lang_and_version c].

(** No field has a percent sign. *)
Definition percent_free (c : Urls.DocumentInfo) : bool :=
  forallb (fun f => negb (contains "%" f)) (fields c).

(** No field is the single dot. *)
Definition dot_free (c : Urls.DocumentInfo) : bool :=
  forallb (fun f => negb (String.eqb f ".")) (fields c).


(** The [limit] query parameter of a request, when it has one. *)
Definition limit_of (r : Client.Request) : option Z :=
  Client.p_limit <$> Client.req_params r.


(** [d] is [e] or lies below it. *)
Inductive within (e : Etree.Element) : Etree.Element -> Prop :=
| within_self : within e e
| within_child c d : In c (Etree.elem_children e) -> within c d -> within e d.

(** [e] carries the attribute [name] (no namespace) with value [v]. *)
Definition has_attr (name v : string) (e : Etree.Element) : Prop :=
  In (EmptyString, name, v) (Etree.elem_attrs e).

(** The three shapes of a media reference in [tree]. *)
Definition img_src (tree : Etree.Element) (v : string) : Prop :=
  ∃ e, within tree e ∧ Etree.is_akn "img" e = true ∧ has_attr "src" v e.

Definition attachment_href (tree : Etree.Element) (v : string) : Prop :=
  ∃ a e, within tree a ∧ Etree.is_akn "attachment" a = true ∧ within a e
         ∧ has_attr "href" v e.

Definition ref_href (tree : Etree.Element) (v : string) : Prop :=
  ∃ e, within tree e ∧ Etree.is_akn "ref" e = true ∧ has_attr "href" v e.

(** The options with [dry_run] set to [b]. *)
Definition with_dry_run (b : bool) (o : Downloader.DownloadOptions)
    : Downloader.DownloadOptions :=
  {| Downloader.output_dir := Downloader.output_dir o;
     Downloader.fetch_pdf := Downloader.fetch_pdf o;
     Downloader.fetch_zip := Downloader.fetch_zip o;
     Downloader.fetch_media := Downloader.fetch_media o;
     Downloader.force := Downloader.force o;
     Downloader.dry_run := b |}.

(** [main.xml] under the directory derived from the coordinates. *)
Definition primary_path (o : Downloader.DownloadOptions) (info : Urls.DocumentInfo)
    : Pathlib.PurePath :=
  Pathlib.joinpath (Pathlib.joinpath (Downloader.output_dir o) (Urls.folder_path info))
                   (Pathlib.parse_arg "main.xml").


(** The request for the primary document. *)
Definition primary_request (info : Urls.DocumentInfo) : Client.Request :=
  {| Client.req_path := Urls.build_api_path info; Client.req_params := None;
     Client.req_accept := "application/xml" |}.

(** *** Worlds to run the code in *)


(** A transport that answers every request with [status] and [body]. *)
Definition always (status : Z) (body : string) : Client.Transport :=
  fun _ _ =>
    Returns {| Client.status_code := status; Client.content := body;
               Client.json := None |}.



(** A parser that rejects every document. *)
Definition no_parser : string -> option Etree.Element := fun _ => None.

(** A parser that reads every document as one with an image, taken twice, an
    attachment and two links, one of them to another site. *)
Definition sample_parser : string -> option Etree.Element :=
  fun _ =>
    let akn tag attrs children := Etree.Elem Etree.AKN_NS tag attrs children in
    Some (akn "akomaNtoso" []
            [akn "body" []
               [akn "img" [(EmptyString, "src", "media/a.gif")] [];
                akn "img" [(EmptyString, "src", "media/a.gif")] [];
                akn "ref" [(EmptyString, "href", "https://example.org/b.pdf")] [];
                akn "ref" [(EmptyString, "href", "media/c.pdf")] []];
             akn "attachments" []
               [akn "attachment" [(EmptyString, "href", "media/d.pdf")] []]]).

End Spec.

(** ** client.py: the address of a request *)

Module Http.
Import Py.

Definition BASE_URL : string := "https://opendata.finlex.fi/finlex/avoindata/v1".

(** The [url] of [FinlexClient.get(path)]. *)
Definition url_of (path : string) : string :=
  if startswith "/" path then BASE_URL +:+ path else BASE_URL +:+ "/" +:+ path.

End Http.

(** ** listing.py and cli.py: the year window *)

Module Years.

(** [get_year_range(years_back)]; [current_year] is [datetime.now().year]. *)
Definition get_year_range (current_year years_back : Z) : Z * Z :=
  (current_year - years_back + 1, current_year).

(** The year settings among the parsed arguments. *)
Record Args := {
  years : Z;
  years_act : option Z;
  years_judgment : option Z;
  years_doc : option Z;
  years_authority_regulation : option Z;
}.

(** [override_map.get(category)] *)
Definition override (args : Args) (category : string) : option Z :=
  if String.eqb category "act" then years_act args
  else if String.eqb category "judgment" then years_judgment args
  else if String.eqb category "doc" then years_doc args
  else if String.eqb category "authority-regulation" then years_authority_regulation args
  else None.

(** [get_years_for_type(args, category)]: [x or y] is [y] when [x] is [None]
    or [0]. *)
Definition get_years_for_type (args : Args) (category : string) : Z :=
  match Listing.truthy_int (override args category) with
  | Some n => n
  | None => years args
  end.

End Years.

(** ** The file system, continued: reading and removing *)

Module Disk.
Import Py Pathlib Fs.

(** What the disk offers besides [FileSystem]: reading a file in one go and
    removing one. *)
Record Reader (F : FileSystem) := {
  (** [open(p).read()] *)
  read_text : Fs.state F -> PurePath -> raised string;
  (** [p.unlink()] *)
  unlink : Fs.state F -> PurePath -> option string * Fs.state F;
}.
Arguments read_text {F} _ _ _.
Arguments unlink {F} _ _ _.

(** Reading and removing on the disk in memory. *)
Definition mem_read (s : gmap string (option string)) (p : PurePath) : raised string :=
  match parts p, s !! str p with
  | _ :: _, Some (Some data) => Returns data
  | _ :: _, Some None => Raises "IsADirectoryError"
  | [], _ => Raises "IsADirectoryError"
  | _, None => Raises "FileNotFoundError"
  end.

Definition mem_unlink (s : gmap string (option string)) (p : PurePath)
    : option string * gmap string (option string) :=
  if is_file s p then (None, delete (str p) s)
  else (Some (if is_dir s p then "IsADirectoryError" else "FileNotFoundError"), s).

Definition MemReader : Reader MemFs := Build_Reader MemFs mem_read mem_unlink.

End Disk.

(** ** state.py: reading the checkpoint back, and forgetting it *)

Module Reload.
Import Py Pathlib Fs State Disk.

(** The outcome of [load]: what it returned and the manager after it, or a
    file with an entry of a type the fields of [DownloadState] cannot hold
    (Python keeps or rejects such a value depending on the entry). *)
Inductive Loaded :=
| LoadReturns (ok : bool) (self : StateManager)
| LoadIllTyped.

Section Reload.

Context (F : FileSystem) (R : Reader F).
(** [json.load]: [None] when the text is not a JSON object; the values of
    the object are of the kinds [Json] has, as in every file [save] wrote. *)
Context (loads : string -> option (gmap string Json)).

(** [self.load()] *)
Definition load (self : StateManager) (d : Fs.state F) : Loaded :=
  if negb (path_exists F d (state_file self)) then LoadReturns false self
  else
    match read_text R d (state_file self) with
    | Raises _ => LoadReturns false self
    | Returns text =>
        match loads text with
        | None => LoadReturns false self
        | Some data =>
            match from_dict data with
            | Some s => LoadReturns true (with_state self s)
            | None => LoadIllTyped
            end
        end
    end.

(** [self.reset()]: an error of [unlink] is not caught. *)
Definition reset (self : StateManager) (d : Fs.state F)
    : option string * StateManager * Fs.state F :=
  let self := with_state self fresh in
  if path_exists F d (state_file self)
  then let '(e, d) := unlink R d (state_file self) in (e, self, d)
  else (None, self, d).

End Reload.

End Reload.

(** ** state.py: the manifest *)

Module Manifest.
Import Py Pathlib Fs Disk.

Record ManifestEntry := {
  akn_uri : string;
  status : string;
  timestamp : string;
  files : list string;
  error : option string;
}.

Record ManifestManager := {
  manifest_file : PurePath;
  entries : list ManifestEntry;
}.

(** [sum(1 for e in self.entries if e.status == s)] *)
Definition count_status (s : string) (entries : list ManifestEntry) : nat :=
  length (List.filter (fun e => String.eqb (status e) s) entries).

(** The dictionary of [summary()]. *)
Record Summary := {
  total : nat;
  success : nat;
  skipped : nat;
  errors : nat;
}.

Definition summary (self : ManifestManager) : Summary :=
  {| total := length (entries self);
     success := count_status "success" (entries self);
     skipped := count_status "skipped" (entries self);
     errors := count_status "error" (entries self) |}.

(** The dictionary that [_save] writes. *)
Record Document := {
  updated_at : string;
  total_entries : nat;
  success_count : nat;
  skipped_count : nat;
  error_count : nat;
  doc_entries : list ManifestEntry;
}.

(** The [data] of [_save] at the time [now]. *)
Definition document (now : string) (self : ManifestManager) : Document :=
  {| updated_at := now;
     total_entries := length (entries self);
     success_count := count_status "success" (entries self);
     skipped_count := count_status "skipped" (entries self);
     error_count := count_status "error" (entries self);
     doc_entries := entries self |}.

Section Manifest.

Context (F : FileSystem) (R : Reader F).
(** [json.dump] of the document. *)
Context (dumps : Document -> string).
(** What [_load] makes of the text of a manifest file: the entries, or [None]
    when reading them raises (the text is not JSON, not an object, or an
    entry does not have the fields of [ManifestEntry]). *)
Context (load_entries : string -> option (list ManifestEntry)).

(** [ManifestManager(manifest_file)], which loads the file when it is
    there. *)
Definition new_manifest (manifest_file : PurePath) (d : Fs.state F) : ManifestManager :=
  {| manifest_file := manifest_file;
     entries :=
       if path_exists F d manifest_file then
         match read_text R d manifest_file with
         | Returns text => default [] (load_entries text)
         | Raises _ => []
         end
       else [] |}.

(** [self._save()]: making the directory is not inside the [try], writing
    the file is. *)
Definition save (now : string) (self : ManifestManager) (d : Fs.state F)
    : option string * Fs.state F :=
  match mkdir F d (parent (manifest_file self)) true true with
  | (Some e, d) => (Some e, d)
  | (None, d) =>
      let data := document now self in
      let '(_, d) := write_bytes F d (manifest_file self) (dumps data) in
      (None, d)
  end.

(** [self.add(entry)] *)
Definition add (now : string) (entry : ManifestEntry) (self : ManifestManager)
    (d : Fs.state F) : option string * ManifestManager * Fs.state F :=
  let self := {| manifest_file := manifest_file self;
                 entries := entries self ++ [entry] |} in
  let '(e, d) := save now self d in
  (e, self, d).

End Manifest.

End Manifest.

(** ** cli.py: the loop of [run_download] over one document type *)

Module Orchestrator.
Import Py Pathlib Client Fs.

(** What [run_download] returns when it was not interrupted:
    [0 if summary["error"] == 0 else 1]. *)
Definition exit_code (manifest_manager : Manifest.ManifestManager) : Z :=
  if Nat.eqb (Manifest.errors (Manifest.summary manifest_manager)) 0 then 0 else 1.

Section Run.

Context (F : FileSystem) (t : Transport) (fromstring : string -> option Etree.Element).
Context (dumps_state : gmap string State.Json -> string).
Context (dumps_manifest : Manifest.Document -> string).
(** [clock k] is what the [k]-th call of [datetime.now().isoformat()]
    returns. *)
Context (clock : nat -> string).

(** What the loop works on: the two managers, the disk and the requests
    sent, and the number of times the clock has been read. *)
Record Run := {
  state_manager : State.StateManager;
  manifest_manager : Manifest.ManifestManager;
  world : Downloader.World F;
  ticks : nat;
}.

(** [ManifestEntry(akn_uri=result.akn_uri, ...)] *)
Definition entry_of (result : Downloader.DownloadResult) : Manifest.ManifestEntry :=
  {| Manifest.akn_uri := Downloader.akn_uri result;
     Manifest.status := Downloader.status result;
     Manifest.timestamp := Downloader.timestamp result;
     Manifest.files := Downloader.files result;
     Manifest.error := Downloader.error result |}.

(** [result.status in ("success", "skipped")] *)
Definition counts_as_done (status : string) : bool :=
  String.eqb status "success" || String.eqb status "skipped".

(** The body of [for item in list_documents(...)], after [page += 1]: the
    exception that ends the run, if any, and the run after it. *)
Definition process_item (options : Downloader.DownloadOptions) (item : Listing.ListItem)
    (page : Z) (r : Run) : option string * Run :=
  let uri := Listing.akn_uri item in
  if State.is_completed (state_manager r) uri then (None, r)
  else
    let '(result, w) :=
      Downloader.download_document F t fromstring (clock (ticks r)) uri options (world r) in
    match result with
    | Raises e =>
        (Some e, {| state_manager := state_manager r;
                    manifest_manager := manifest_manager r;
                    world := w; ticks := S (ticks r) |})
    | Returns result =>
        let '(e, mm, d) :=
          Manifest.add F dumps_manifest (clock (S (ticks r))) (entry_of result)
            (manifest_manager r) (Downloader.disk w) in
        match e with
        | Some e =>
            (Some e, {| state_manager := state_manager r; manifest_manager := mm;
                        world := {| Downloader.disk := d;
                                    Downloader.sent := Downloader.sent w |};
                        ticks := S (ticks r) |})
        | None =>
            let '(e, sm, d, k) :=
              if counts_as_done (Downloader.status result)
              then let '(e, sm, d) :=
                     State.mark_completed F dumps_state (clock (S (S (ticks r)))) uri
                       (state_manager r) d in
                   (e, sm, d, S (S (S (ticks r))))
              else (None, state_manager r, d, S (S (ticks r))) in
            match e with
            | Some e =>
                (Some e, {| state_manager := sm; manifest_manager := mm;
                            world := {| Downloader.disk := d;
                                        Downloader.sent := Downloader.sent w |};
                            ticks := k |})
            | None =>
                let '(e, sm, d) := State.set_page F dumps_state (clock k) page sm d in
                (e, {| state_manager := sm; manifest_manager := mm;
                       world := {| Downloader.disk := d;
                                   Downloader.sent := Downloader.sent w |};
                       ticks := S k |})
            end
        end
    end.

(** The items of one page, one after the other; [page] is the counter that
    [run_download] calls [page] (it counts items). *)
Fixpoint process_items (options : Downloader.DownloadOptions) (items : list Listing.ListItem)
    (page : Z) (r : Run) : option string * Z * Run :=
  match items with
  | [] => (None, page, r)
  | item :: items' =>
      match process_item options item (page + 1) r with
      | (Some e, r) => (Some e, page + 1, r)
      | (None, r) => process_items options items' (page + 1) r
      end
  end.

(** [for item in list_documents(client, list_config): ...] with the generator
    written out: each page is requested when the items before it have been
    processed.  [listed] is the page number of the generator, [page] the item
    counter of the loop; [fuel] bounds the number of pages. *)
Fixpoint consume (fuel : nat) (config : Listing.ListConfig)
    (options : Downloader.DownloadOptions) (path : string) (listed page : Z) (r : Run)
    : Listing.Ending * Run :=
  match fuel with
  | O => (Listing.StillRunning, r)
  | S fuel' =>
      if Listing.past_max_pages config listed then (Listing.PageLimitReached, r)
      else
        let '(response, sent) :=
          get_json t (Downloader.sent (world r)) path
            (Some (Listing.page_params config listed)) in
        let r := {| state_manager := state_manager r;
                    manifest_manager := manifest_manager r;
                    world := {| Downloader.disk := Downloader.disk (world r);
                                Downloader.sent := sent |};
                    ticks := ticks r |} in
        match response with
        | Raises e => (Listing.Raised e, r)
        | Returns response =>
            if negb (status_code response =? 200) then (Listing.RequestFailed, r)
            else
              match json response with
              | None => (Listing.BadJson, r)
              | Some [] => (Listing.EndOfData, r)
              | Some items =>
                  match process_items options (List.map Listing.item_of items) page r with
                  | (Some e, _, r) => (Listing.Raised e, r)
                  | (None, page, r) =>
                      if Z.of_nat (length items) <? Listing.limit config
                      then (Listing.ShortPage, r)
                      else consume fuel' config options path (listed + 1) page r
                  end
              end
        end
  end.

(** One turn of [for doc_type in doc_types]: the session is started, then
    the listing is consumed from page 1 with the item counter at 0.  (The
    resume page that [run_download] reads before is not used by it.)  The
    clock counts one reading for [start_session], as [State.start_session]
    takes one time for the start and for the save. *)
Definition run_document_type (fuel : nat) (args : Cli.Args)
    (options : Downloader.DownloadOptions) (actual_category doc_type : string)
    (start_year end_year : Z) (r : Run) : Listing.Ending * Run :=
  let config := Cli.list_config args actual_category doc_type start_year end_year in
  let '(e, sm, d) :=
    State.start_session F dumps_state (clock (ticks r)) actual_category doc_type
      (state_manager r) (Downloader.disk (world r)) in
  let r := {| state_manager := sm; manifest_manager := manifest_manager r;
              world := {| Downloader.disk := d;
                          Downloader.sent := Downloader.sent (world r) |};
              ticks := S (ticks r) |} in
  match e with
  | Some e => (Listing.Raised e, r)
  | None =>
      consume fuel config options (Urls.build_list_path actual_category doc_type) 1 0 r
  end.

End Run.

Arguments state_manager {F} _.
Arguments manifest_manager {F} _.
Arguments world {F} _.
Arguments ticks {F} _.

End Orchestrator.

(** ** Further vocabulary *)

Module Extra.
Import Py.


(** None of the characters [chars] occurs in [s]. *)
Definition free_of (chars : list ascii) (s : string) : bool :=
  forallb_str (fun c => negb (existsb (Ascii.eqb c) chars)) s.

(** The characters that do not survive the way through a URL: the percent
    sign, the marks that start the query and the fragment, and the tab and
    the two newline characters. *)
Definition url_marks : list ascii := ["%"; "?"; "#"; "009"; "010"; "013"]%char.

(** Coordinates that survive the way through a URL: no field has one of
    the marks, and the language has no semicolon (which would start the
    parameters of the last segment). *)
Definition survives_url (c : Urls.DocumentInfo) : bool :=
  forallb (free_of url_marks) (Spec.fields c)
  && free_of [";"%char] (Urls.lang_and_version c).




(** The configuration with another [max_pages]. *)
Definition with_max_pages (m : option Z) (c : Listing.ListConfig) : Listing.ListConfig :=
  {| Listing.category := Listing.category c;
     Listing.document_type := Listing.document_type c;
     Listing.lang_and_version := Listing.lang_and_version c;
     Listing.start_year := Listing.start_year c;
     Listing.end_year := Listing.end_year c;
     Listing.limit := Listing.limit c;
     Listing.max_pages := m |}.

(** A transport that answers every request with status 200 and the same
    JSON array. *)
Definition same_page (items : list (gmap string string)) : Client.Transport :=
  fun _ _ =>
    Returns {| Client.status_code := 200; Client.content := EmptyString;
               Client.json := Some items |}.

(** A request for something below [path]. *)
Definition below (path : string) (r : Client.Request) : bool :=
  startswith (path +:+ "/") (Client.req_path r).

(** The four outcomes of a download. *)
Definition outcomes : list string := ["success"; "skipped"; "dry-run"; "error"].

(** The operations that change the checkpoint. *)
Inductive Op :=
| MarkCompleted (uri : string)
| SetPage (page : Z)
| StartSession (category document_type : string)
| Save.

Section Ops.

Context (F : Fs.FileSystem) (dumps : gmap string State.Json -> string).

Definition apply_op (now : string) (op : Op) (self : State.StateManager)
    (d : Fs.state F) : option string * State.StateManager * Fs.state F :=
  match op with
  | MarkCompleted uri => State.mark_completed F dumps now uri self d
  | SetPage page => State.set_page F dumps now page self d
  | StartSession category document_type =>
      State.start_session F dumps now category document_type self d
  | Save => State.save F dumps now self d
  end.

(** A caller going through [ops], the [k]-th at the time [clock k], and going
    on when one of them raised (the object has been changed by then). *)
Fixpoint apply_ops (clock : nat -> string) (k : nat) (ops : list Op)
    (self : State.StateManager) (d : Fs.state F) : State.StateManager * Fs.state F :=
  match ops with
  | [] => (self, d)
  | op :: ops' =>
      let '(_, self, d) := apply_op (clock k) op self d in
      apply_ops clock (S k) ops' self d
  end.

End Ops.

(** A disk on which what has been written can be read back, and what has
    been removed is gone. *)
Definition reads_back (F : Fs.FileSystem) (R : Disk.Reader F) : Prop :=
  (∀ d p data d', Fs.write_bytes F d p data = (None, d') →
     Fs.path_exists F d' p = true ∧ Disk.read_text R d' p = Returns data)
  ∧ (∀ d p d', Disk.unlink R d p = (None, d') → Fs.path_exists F d' p = false).

#[global] Instance Json_eq_dec : EqDecision State.Json.
Proof. solve_decision. Defined.

(** A writer and a reader of checkpoint files that agree on the one
    dictionary [data]. *)
Definition sample_dumps (data : gmap string State.Json) : gmap string State.Json → string :=
  fun x => if decide (x = data) then "checkpoint" else "other".

Definition sample_loads (data : gmap string State.Json)
    : string → option (gmap string State.Json) :=
  fun text => if String.eqb text "checkpoint" then Some data else None.

(** The addresses that [ops] mark as completed. *)
Definition marked (ops : list Op) : list string :=
  omap (fun op => match op with MarkCompleted uri => Some uri | _ => None end) ops.

(** How a run of the loop moves on: manifest entries and requests are
    added, each new entry has one of the four outcomes, nothing completed is
    forgotten, and an address is newly completed only with a new entry for
    it that says [success] or [skipped]. *)
Definition advances {F : Fs.FileSystem} (r r' : Orchestrator.Run F) : Prop :=
  ∃ new reqs,
    Manifest.entries (Orchestrator.manifest_manager r')
    = Manifest.entries (Orchestrator.manifest_manager r) ++ new
    ∧ Downloader.sent (Orchestrator.world r')
      = Downloader.sent (Orchestrator.world r) ++ reqs
    ∧ Forall (fun e => In (Manifest.status e) outcomes) new
    ∧ (∀ u, State.is_completed (Orchestrator.state_manager r) u = true
            → State.is_completed (Orchestrator.state_manager r') u = true)
    ∧ (∀ u, State.is_completed (Orchestrator.state_manager r') u = true
            → State.is_completed (Orchestrator.state_manager r) u = true
              ∨ ∃ e, In e new ∧ Manifest.akn_uri e = u
                     ∧ Orchestrator.counts_as_done (Manifest.status e) = true).

(** The run with what the lister alone would have sent. *)
Definition with_sent {F : Fs.FileSystem} (sent : list Client.Request)
    (r : Orchestrator.Run F) : Orchestrator.Run F :=
  {| Orchestrator.state_manager := Orchestrator.state_manager r;
     Orchestrator.manifest_manager := Orchestrator.manifest_manager r;
     Orchestrator.world :=
       {| Downloader.disk := Downloader.disk (Orchestrator.world r);
          Downloader.sent := sent |};
     Orchestrator.ticks := Orchestrator.ticks r |}.

End Extra.

(** * Properties *)

(** ** Strings *)

Section StringFacts.
Import Py.

Lemma append_cons (x : ascii) (a b : string) : String x a +:+ b = String x (a +:+ b).
Proof. reflexivity. Qed.

Lemma append_nil (b : string) : EmptyString +:+ b = b.
Proof. reflexivity. Qed.

Lemma append_assoc (a b c : string) : (a +:+ b) +:+ c = a +:+ (b +:+ c).
Proof.
  induction a as [|x a IH]; [reflexivity |].
  now rewrite !append_cons, IH.
Qed.

Lemma append_empty_r (a : string) : a +:+ EmptyString = a.
Proof.
  induction a as [|x a IH]; [reflexivity |].
  now rewrite append_cons, IH.
Qed.

Lemma startswith_append (p s : string) : startswith p (p +:+ s) = true.
Proof.
  induction p as [|x p IH]; [reflexivity |].
  rewrite append_cons. simpl. now rewrite Ascii.eqb_refl, IH.
Qed.

Lemma drop_str_append (p s : string) : drop_str (String.length p) (p +:+ s) = s.
Proof.
  induction p as [|x p IH]; [now destruct s |].
  rewrite append_cons. exact IH.
Qed.

Lemma lit_append (p s : string) : Urls.lit p (p +:+ s) = Some s.
Proof. unfold Urls.lit. now rewrite startswith_append, drop_str_append. Qed.

(** A run of the class followed by a character outside it is taken whole. *)
Lemma span_append (f : ascii -> bool) (a : string) (c : ascii) (r : string) :
  forallb_str f a = true -> f c = false ->
  span f (a +:+ String c r) = (a, String c r).
Proof.
  intros Ha Hc. induction a as [|x a IH].
  - rewrite append_nil. simpl. now rewrite Hc.
  - rewrite append_cons. simpl in *.
    apply andb_true_iff in Ha as [Hx Ha]. now rewrite Hx, (IH Ha).
Qed.

Lemma span_all (f : ascii -> bool) (a : string) :
  forallb_str f a = true -> span f a = (a, EmptyString).
Proof.
  intros Ha. induction a as [|x a IH]; simpl in *; [reflexivity |].
  apply andb_true_iff in Ha as [Hx Ha]. now rewrite Hx, (IH Ha).
Qed.

Lemma contains_char_cons (c x : ascii) (s : string) :
  contains (String c EmptyString) (String x s)
  = Ascii.eqb c x || contains (String c EmptyString) s.
Proof. simpl. now rewrite andb_true_r. Qed.

Lemma contains_char_append (c : ascii) (a b : string) :
  contains (String c EmptyString) (a +:+ b)
  = contains (String c EmptyString) a || contains (String c EmptyString) b.
Proof.
  induction a as [|x a IH].
  - rewrite append_nil. reflexivity.
  - rewrite append_cons, !contains_char_cons, IH. now rewrite orb_assoc.
Qed.

(** Splitting a segment at slashes gives the segment. *)
Lemma split_go_token (s cur : string) :
  forallb_str Urls.not_slash s = true -> split_go "/" s O cur = [cur +:+ s].
Proof.
  revert cur. induction s as [|x s IH]; intros cur Hs.
  - simpl. now rewrite append_empty_r.
  - simpl in Hs. apply andb_true_iff in Hs as [Hx Hs].
    unfold Urls.not_slash in Hx. apply negb_true_iff in Hx.
    change (split_go "/" (String x s) 0 cur)
      with (if startswith "/" (String x s)
            then cur :: split_go "/" s (String.length "/" - 1) EmptyString
            else split_go "/" s O (cur +:+ String x EmptyString)).
    replace (startswith "/" (String x s)) with false
      by (symmetry; change (Ascii.eqb "/" x && true = false);
          now rewrite Ascii.eqb_sym, Hx).
    rewrite (IH _ Hs), append_assoc. reflexivity.
Qed.

End StringFacts.

(** ** The resolver: [parse_akn_uri], [build_api_path], [folder_path] *)

Section UrlFacts.
Import Py Urls Spec.

Lemma token_inv (s : string) :
  token s = true -> s <> EmptyString /\ forallb_str not_slash s = true.
Proof.
  unfold token. intros H. apply andb_true_iff in H as [Hne Hs].
  split; [|exact Hs]. intros ->. discriminate.
Qed.

Lemma digits_inv (s : string) :
  digits s = true -> s <> EmptyString /\ forallb_str is_digit s = true.
Proof.
  unfold digits. intros H. apply andb_true_iff in H as [Hne Hs].
  split; [|exact Hs]. intros ->. discriminate.
Qed.

Lemma eqb_empty_false (s : string) : s <> EmptyString -> String.eqb s EmptyString = false.
Proof. intros H. now apply String.eqb_neq. Qed.

Lemma plus_append (f : ascii -> bool) (a : string) (c : ascii) (r : string) :
  a <> EmptyString -> forallb_str f a = true -> f c = false ->
  plus f (a +:+ String c r) = Some (a, String c r).
Proof.
  intros Hne Ha Hc. unfold plus. rewrite (span_append f a c r Ha Hc).
  now rewrite (eqb_empty_false a Hne).
Qed.

Lemma plus_all (f : ascii -> bool) (a : string) :
  a <> EmptyString -> forallb_str f a = true -> plus f a = Some (a, EmptyString).
Proof.
  intros Hne Ha. unfold plus. rewrite (span_all f a Ha).
  now rewrite (eqb_empty_false a Hne).
Qed.

Lemma lit_slash (r : string) : lit "/" (String "/" r) = Some r.
Proof. reflexivity. Qed.

(** A segment that starts like [p/] is [p]. *)
Lemma startswith_segment (p ty r : string) :
  forallb_str not_slash p = true -> forallb_str not_slash ty = true ->
  startswith (p +:+ "/") (ty +:+ String "/" r) = true -> ty = p.
Proof.
  revert ty. induction p as [|x p IH]; intros ty Hp Hty H.
  - destruct ty as [|y ty]; [reflexivity |].
    rewrite append_nil, append_cons in H.
    change (Ascii.eqb "/" y && true = true) in H.
    simpl in Hty. apply andb_true_iff in Hty as [Hy _].
    unfold not_slash in Hy. rewrite Ascii.eqb_sym in H.
    rewrite andb_true_r in H. now rewrite H in Hy.
  - simpl in Hp. apply andb_true_iff in Hp as [Hx Hp].
    destruct ty as [|y ty].
    + rewrite append_nil, append_cons in H.
      change (Ascii.eqb x "/" && startswith (p +:+ "/") r = true) in H.
      apply andb_true_iff in H as [H _].
      unfold not_slash in Hx. now rewrite H in Hx.
    + rewrite !append_cons in H.
      change (Ascii.eqb x y && startswith (p +:+ "/") (ty +:+ String "/" r) = true) in H.
      apply andb_true_iff in H as [Hxy H].
      apply Ascii.eqb_eq in Hxy as ->.
      simpl in Hty. apply andb_true_iff in Hty as [_ Hty].
      f_equal. now apply IH.
Qed.

Lemma is_digit_slash : is_digit "/" = false.
Proof. reflexivity. Qed.

Lemma not_slash_slash : not_slash "/" = false.
Proof. reflexivity. Qed.

(** The tail shared by both patterns: year, number and language. *)
Lemma match_tail (yr num lang : string) :
  digits yr = true -> token num = true -> token lang = true ->
  let s := yr +:+ String "/" (num +:+ String "/" lang) in
  plus is_digit s = Some (yr, String "/" (num +:+ String "/" lang))
  /\ plus not_slash (num +:+ String "/" lang) = Some (num, String "/" lang)
  /\ plus not_slash lang = Some (lang, EmptyString).
Proof.
  intros [Hy1 Hy2]%digits_inv [Hn1 Hn2]%token_inv [Hl1 Hl2]%token_inv. cbv zeta.
  repeat split.
  - now apply plus_append.
  - now apply plus_append.
  - now apply plus_all.
Qed.

Lemma unquote_percent_free (s : string) : contains "%" s = false -> Urllib.unquote s = s.
Proof. unfold Urllib.unquote. now intros ->. Qed.

Lemma standard_match (cat ty yr num lang : string) :
  cat ∈ ["act"; "judgment"; "doc"] -> token ty = true -> digits yr = true ->
  token num = true -> token lang = true ->
  STANDARD_PATTERN ("/akn/fi/" +:+ cat +:+ "/" +:+ ty +:+ "/" +:+ yr +:+ "/" +:+ num
                    +:+ "/" +:+ lang)
  = Some {| category := cat; document_type := ty; year := yr; number := num;
            lang_and_version := lang; authority := None |}.
Proof.
  intros Hcat Hty Hyr Hnum Hlang.
  destruct (match_tail yr num lang Hyr Hnum Hlang) as (E1 & E2 & E3).
  apply token_inv in Hty as [Ht1 Ht2].
  pose proof (plus_append not_slash ty "/"
                (yr +:+ String "/" (num +:+ String "/" lang)) Ht1 Ht2 not_slash_slash) as E0.
  unfold STANDARD_PATTERN. rewrite lit_append. cbn [mbind option_bind].
  assert (alt ["act"; "judgment"; "doc"]
            (cat +:+ "/" +:+ ty +:+ "/" +:+ yr +:+ "/" +:+ num +:+ "/" +:+ lang)
          = Some (cat, String "/" (ty +:+ String "/"
                    (yr +:+ String "/" (num +:+ String "/" lang))))) as ->.
  { repeat (apply elem_of_cons in Hcat as [-> | Hcat]; [reflexivity |]).
    now apply elem_of_nil in Hcat. }
  cbn [mbind option_bind]. rewrite lit_slash. cbn [mbind option_bind].
  rewrite E0. cbn [mbind option_bind]. rewrite lit_slash. cbn [mbind option_bind].
  rewrite E1. cbn [mbind option_bind]. rewrite lit_slash. cbn [mbind option_bind].
  rewrite E2. cbn [mbind option_bind]. rewrite lit_slash. cbn [mbind option_bind].
  rewrite E3. reflexivity.
Qed.

Lemma authority_match (a yr num lang : string) :
  token a = true -> digits yr = true -> token num = true -> token lang = true ->
  AUTHORITY_PATTERN ("/akn/fi/" +:+ "doc" +:+ "/" +:+ "authority-regulation" +:+ "/" +:+ a
                     +:+ "/" +:+ yr +:+ "/" +:+ num +:+ "/" +:+ lang)
  = Some {| category := "doc"; document_type := "authority-regulation"; year := yr;
            number := num; lang_and_version := lang; authority := Some a |}.
Proof.
  intros Ha Hyr Hnum Hlang.
  destruct (match_tail yr num lang Hyr Hnum Hlang) as (E1 & E2 & E3).
  apply token_inv in Ha as [Ha1 Ha2].
  pose proof (plus_append not_slash a "/"
                (yr +:+ String "/" (num +:+ String "/" lang)) Ha1 Ha2 not_slash_slash) as E0.
  unfold AUTHORITY_PATTERN.
  change ("/akn/fi/" +:+ "doc" +:+ "/" +:+ "authority-regulation" +:+ "/" +:+ a
          +:+ "/" +:+ yr +:+ "/" +:+ num +:+ "/" +:+ lang)
    with ("/akn/fi/doc/authority-regulation/"
          +:+ (a +:+ String "/" (yr +:+ String "/" (num +:+ String "/" lang)))).
  rewrite lit_append. cbn [mbind option_bind].
  rewrite E0. cbn [mbind option_bind]. rewrite lit_slash. cbn [mbind option_bind].
  rewrite E1. cbn [mbind option_bind]. rewrite lit_slash. cbn [mbind option_bind].
  rewrite E2. cbn [mbind option_bind]. rewrite lit_slash. cbn [mbind option_bind].
  rewrite E3. reflexivity.
Qed.

(** A standard path whose type is not [authority-regulation] is not taken by
    the authority pattern. *)
Lemma authority_no_match (cat ty rest : string) :
  cat ∈ ["act"; "judgment"; "doc"] -> token ty = true ->
  ty <> "authority-regulation" ->
  AUTHORITY_PATTERN ("/akn/fi/" +:+ cat +:+ "/" +:+ ty +:+ "/" +:+ rest) = None.
Proof.
  intros Hcat [_ Hty]%token_inv Hne.
  assert (lit "/akn/fi/doc/authority-regulation/"
            ("/akn/fi/" +:+ cat +:+ "/" +:+ ty +:+ "/" +:+ rest) = None) as E.
  { repeat (apply elem_of_cons in Hcat as [-> | Hcat]); try reflexivity.
    - unfold lit.
      change (startswith "/akn/fi/doc/authority-regulation/"
                ("/akn/fi/" +:+ "doc" +:+ "/" +:+ ty +:+ "/" +:+ rest))
        with (startswith ("authority-regulation" +:+ "/") (ty +:+ String "/" rest)).
      destruct (startswith _ _) eqn:E; [|reflexivity].
      apply startswith_segment in E; [congruence | reflexivity | exact Hty].
    - now apply elem_of_nil in Hcat. }
  unfold AUTHORITY_PATTERN. now rewrite E.
Qed.

Lemma truthy_token (a : string) : token a = true -> truthy (Some a) = Some a.
Proof. intros [Hne _]%token_inv. unfold truthy. now rewrite eqb_empty_false. Qed.

Lemma build_api_path_percent_free (c : DocumentInfo) :
  percent_free c = true -> contains "%" (build_api_path c) = false.
Proof.
  destruct c as [cat ty yr num lang auth]. unfold percent_free, fields, build_api_path.
  destruct auth as [a|];
    cbn [category document_type year number lang_and_version authority option_list
         app forallb truthy];
    intros H; repeat (apply andb_true_iff in H as [?%negb_true_iff H]);
    try destruct (String.eqb a EmptyString);
    rewrite !contains_char_append;
    repeat match goal with E : contains "%" _ = false |- _ => rewrite E; clear E end;
    reflexivity.
Qed.

Lemma build_api_path_not_http (c : DocumentInfo) :
  startswith "http" (build_api_path c) = false.
Proof. unfold build_api_path. now destruct (truthy (authority c)). Qed.

(** A bare path never makes the resolver raise: it is decoded and matched. *)
Lemma parse_bare_path (uri : string) :
  startswith "http" uri = false ->
  parse_akn_uri uri = Returns (match_path (Urllib.unquote uri)).
Proof. intros H. unfold parse_akn_uri, path_of_uri. now rewrite H. Qed.

(** The cases of [tests/test_urls.py]. *)
Example resolver_test_cases :
  parse_akn_uri "https://opendata.finlex.fi/finlex/avoindata/v1/akn/fi/act/statute/2024/123/fin@"
  = Returns (Some {| category := "act"; document_type := "statute"; year := "2024";
                     number := "123"; lang_and_version := "fin@"; authority := None |})
  /\ parse_akn_uri "/akn/fi/judgment/kko/2023/45/fin@"
     = Returns (Some {| category := "judgment"; document_type := "kko"; year := "2023";
                        number := "45"; lang_and_version := "fin@"; authority := None |})
  /\ parse_akn_uri "/akn/fi/doc/authority-regulation/metsahallitus/1996/32082/fin@"
     = Returns (Some {| category := "doc"; document_type := "authority-regulation";
                        year := "1996"; number := "32082"; lang_and_version := "fin@";
                        authority := Some "metsahallitus" |})
  /\ parse_akn_uri "https://opendata.finlex.fi/finlex/avoindata/v1/akn/fi/act/statute/2024/123/fin%40"
     = Returns (Some {| category := "act"; document_type := "statute"; year := "2024";
                        number := "123"; lang_and_version := "fin@"; authority := None |})
  /\ parse_akn_uri "/invalid/path" = Returns None
  /\ parse_akn_uri EmptyString = Returns None
  /\ Pathlib.str (folder_path {| category := "doc"; document_type := "authority-regulation";
                                 year := "1996"; number := "32082";
                                 lang_and_version := "fin@";
                                 authority := Some "metsahallitus" |})
     = "doc/authority-regulation/metsahallitus/1996/32082/fin@"
  /\ build_api_path {| category := "act"; document_type := "statute"; year := "2024";
                       number := "123"; lang_and_version := "fin@"; authority := None |}
     = "/akn/fi/act/statute/2024/123/fin@"
  /\ build_list_path "doc" "authority-regulation" = "/akn/fi/doc/authority-regulation/list".
Proof. repeat split; vm_compute; reflexivity. Qed.

(** C2, as stated, fails in two ways.  A field with a percent escape is
    decoded on the way back: the coordinates [c] are valid, and the number
    [%41] comes back as [A].  And an authority under a category other than
    [doc] is not parsed back at all: [d] is valid too. *)
Lemma roundtrip_fails_on_percent_escape :
  let c := {| category := "act"; document_type := "statute"; year := "2024";
              number := "%41"; lang_and_version := "fin@"; authority := None |} in
  let d := {| category := "act"; document_type := "authority-regulation"; year := "2024";
              number := "1"; lang_and_version := "fin@"; authority := Some "x" |} in
  (valid_coords c = true
   /\ parse_akn_uri (build_api_path c)
      = Returns (Some {| category := "act"; document_type := "statute"; year := "2024";
                         number := "A"; lang_and_version := "fin@"; authority := None |})
   /\ parse_akn_uri (build_api_path c) <> Returns (Some c))
  /\ (valid_coords d = true /\ parse_akn_uri (build_api_path d) = Returns None).
Proof.
  cbv zeta. repeat split; try (vm_compute; reflexivity). vm_compute. discriminate.
Qed.

(** C2 (amended): for valid coordinates none of whose fields has a percent
    sign, and whose category is [doc] when they carry an authority, parsing
    the API path built from them returns the same coordinates. *)
Theorem parse_build_roundtrip (c : DocumentInfo) :
  valid_coords c = true ->
  percent_free c = true ->
  (is_Some (authority c) -> category c = "doc") ->
  parse_akn_uri (build_api_path c) = Returns (Some c).
Proof.
  intros Hv Hp Hdoc.
  rewrite (parse_bare_path _ (build_api_path_not_http c)).
  rewrite (unquote_percent_free _ (build_api_path_percent_free c Hp)).
  f_equal.
  destruct c as [cat ty yr num lang auth].
  unfold valid_coords, well_formed in Hv.
  cbn [category document_type year number lang_and_version authority] in *.
  repeat (apply andb_true_iff in Hv as [Hv ?]).
  match goal with H : bool_decide _ = true |- _ => apply bool_decide_eq_true in H end.
  unfold match_path, build_api_path. cbn [authority category document_type year number
                                           lang_and_version].
  destruct auth as [a|].
  - match goal with H : _ && _ = true |- _ => apply andb_true_iff in H as [Ha Hty] end.
    apply String.eqb_eq in Hty as ->.
    rewrite (Hdoc (mk_is_Some _ _ eq_refl)).
    rewrite (truthy_token a Ha).
    now rewrite authority_match.
  - cbn [truthy].
    match goal with H : negb _ = true |- _ =>
      apply negb_true_iff, String.eqb_neq in H; rename H into Hty end.
    change ("/akn/fi/" +:+ cat +:+ "/" +:+ ty +:+ "/" +:+ yr +:+ "/" +:+ num +:+ "/" +:+ lang)
      with ("/akn/fi/" +:+ cat +:+ "/" +:+ ty +:+ "/" +:+ (yr +:+ "/" +:+ num +:+ "/" +:+ lang))
      at 1.
    rewrite authority_no_match by assumption.
    now apply standard_match.
Qed.

Lemma parse_build_roundtrip_witness :
  let c := {| category := "doc"; document_type := "authority-regulation"; year := "1996";
              number := "32082"; lang_and_version := "fin@";
              authority := Some "metsahallitus" |} in
  valid_coords c = true /\ percent_free c = true
  /\ parse_akn_uri (build_api_path c) = Returns (Some c).
Proof.
  cbv zeta. split; [reflexivity | split; [reflexivity |]].
  apply parse_build_roundtrip; [reflexivity | reflexivity | intros _; reflexivity].
Defined.

(** C10: a bare path (one that does not start with [http]) is percent-decoded
    before it is matched against the two grammars; in particular
    [/akn/fi/act/statute/2024/123/fin%40] resolves with language [fin@]. *)
Theorem bare_path_is_percent_decoded (uri : string) :
  startswith "http" uri = false ->
  parse_akn_uri uri = Returns (match_path (Urllib.unquote uri))
  /\ parse_akn_uri "/akn/fi/act/statute/2024/123/fin%40"
     = Returns (Some {| category := "act"; document_type := "statute"; year := "2024";
                        number := "123"; lang_and_version := "fin@"; authority := None |}).
Proof.
  intros H. split; [now apply parse_bare_path | vm_compute; reflexivity].
Qed.

Lemma bare_path_is_percent_decoded_witness :
  startswith "http" "/akn/fi/act/statute/2024/123/fin%40" = false
  /\ parse_akn_uri "/akn/fi/act/statute/2024/123/fin%40"
     = Returns (match_path (Urllib.unquote "/akn/fi/act/statute/2024/123/fin%40")).
Proof.
  split; [reflexivity |].
  exact (proj1 (bare_path_is_percent_decoded "/akn/fi/act/statute/2024/123/fin%40" eq_refl)).
Defined.

(** C8: the claim holds of the code for every bare path, and fails for a URL
    whose host has an unbalanced square bracket: [urlparse] raises
    [ValueError], which [parse_akn_uri] does not catch. *)
Theorem parse_raises_on_unbalanced_bracket :
  parse_akn_uri "http://[" = Raises "ValueError: Invalid IPv6 URL"
  /\ match_path "http://[" = None.
Proof. split; vm_compute; reflexivity. Qed.

(** The resolver raises only when [urlparse] does, on a uri that starts with
    [http]. *)
Lemma parse_raises_only_in_urlparse (uri e : string) :
  parse_akn_uri uri = Raises e ->
  startswith "http" uri = true /\ Urllib.urlparse_path uri = Raises e.
Proof.
  unfold parse_akn_uri, path_of_uri. destruct (startswith "http" uri); [| discriminate].
  destruct (Urllib.urlparse_path uri); [discriminate |]. intros [= ->]. now split.
Qed.

(** For a bare path the resolver returns, and returns [None] when the decoded
    path matches neither grammar. *)
Lemma parse_bare_path_no_match (uri : string) :
  startswith "http" uri = false ->
  AUTHORITY_PATTERN (Urllib.unquote uri) = None ->
  STANDARD_PATTERN (Urllib.unquote uri) = None ->
  parse_akn_uri uri = Returns None.
Proof.
  intros H Ha Hs. rewrite (parse_bare_path uri H). unfold match_path.
  now rewrite Ha, Hs.
Qed.

(** *** Storage paths *)

Lemma parse_arg_token (s : string) :
  token s = true -> s <> "." ->
  Pathlib.parse_arg s = {| Pathlib.root := EmptyString; Pathlib.parts := [s] |}.
Proof.
  intros [Hne Hs]%token_inv Hdot. unfold Pathlib.parse_arg, split.
  rewrite (split_go_token s EmptyString Hs), append_nil.
  destruct s as [|x s]; [congruence |].
  simpl in Hs. apply andb_true_iff in Hs as [Hx _].
  unfold not_slash in Hx. apply negb_true_iff in Hx.
  assert (startswith "/" (String x s) = false) as E1
    by (change (Ascii.eqb "/" x && true = false); now rewrite Ascii.eqb_sym, Hx).
  assert (startswith "//" (String x s) = false) as E2
    by (change (Ascii.eqb "/" x && startswith "/" s = false); now rewrite Ascii.eqb_sym, Hx).
  rewrite E1, E2. cbn [andb List.filter].
  assert (String.eqb (String x s) "." = false) as E3 by now apply String.eqb_neq.
  rewrite E3. reflexivity.
Qed.

(** Off the dot, the storage path is the list of the fields. *)
Lemma folder_path_fields (c : DocumentInfo) :
  well_formed c = true -> dot_free c = true ->
  folder_path c = {| Pathlib.root := EmptyString; Pathlib.parts := fields c |}.
Proof.
  destruct c as [cat ty yr num lang auth].
  unfold well_formed, dot_free, fields, folder_path.
  destruct auth as [a|];
    cbn [category document_type year number lang_and_version authority option_list
         app forallb];
    intros Hw Hd;
    do 5 (apply andb_true_iff in Hw as [Hw ?]);
    repeat (apply andb_true_iff in Hd as [?%negb_true_iff%String.eqb_neq Hd]).
  - match goal with H : token a && _ = true |- _ =>
      apply andb_true_iff in H as [Ha _]; rewrite (truthy_token a Ha) end.
    unfold Pathlib.Path. cbn [List.map].
    rewrite !parse_arg_token by assumption. reflexivity.
  - cbn [truthy]. unfold Pathlib.Path. cbn [List.map].
    rewrite !parse_arg_token by assumption. reflexivity.
Qed.

Lemma fields_injective (c1 c2 : DocumentInfo) : fields c1 = fields c2 -> c1 = c2.
Proof.
  destruct c1 as [cat1 ty1 yr1 num1 lang1 [a1|]], c2 as [cat2 ty2 yr2 num2 lang2 [a2|]];
    unfold fields; cbn; intros H; now simplify_eq.
Qed.

Lemma folder_path_injective (c1 c2 : DocumentInfo) :
  well_formed c1 = true -> well_formed c2 = true ->
  dot_free c1 = true -> dot_free c2 = true ->
  folder_path c1 = folder_path c2 -> c1 = c2.
Proof.
  intros W1 W2 D1 D2. rewrite !folder_path_fields by assumption.
  intros H. apply fields_injective. congruence.
Qed.

(** C9, as stated, fails: a field that is the single dot is dropped from the
    path, so these two well-formed (and valid) coordinates share one path. *)
Lemma storage_path_collides_on_dot :
  let c1 := {| category := "act"; document_type := "."; year := "2024"; number := "1";
               lang_and_version := "fin@"; authority := None |} in
  let c2 := {| category := "act"; document_type := "2024"; year := "1"; number := ".";
               lang_and_version := "fin@"; authority := None |} in
  valid_coords c1 = true /\ valid_coords c2 = true /\ c1 <> c2
  /\ folder_path c1 = folder_path c2
  /\ Pathlib.str (folder_path c1) = "act/2024/1/fin@".
Proof. cbv zeta. repeat split; try (vm_compute; reflexivity). discriminate. Qed.

(** C9 (amended): two distinct well-formed coordinates, none of whose fields
    is the single dot, have distinct storage paths. *)
Theorem storage_paths_distinct (c1 c2 : DocumentInfo) :
  well_formed c1 = true -> well_formed c2 = true ->
  dot_free c1 = true -> dot_free c2 = true ->
  c1 <> c2 -> folder_path c1 <> folder_path c2.
Proof.
  intros W1 W2 D1 D2 Hne Heq. apply Hne. now apply folder_path_injective.
Qed.

Lemma storage_paths_distinct_witness :
  let c1 := {| category := "act"; document_type := "statute"; year := "2024";
               number := "123"; lang_and_version := "fin@"; authority := None |} in
  let c2 := {| category := "doc"; document_type := "authority-regulation"; year := "2024";
               number := "123"; lang_and_version := "fin@"; authority := Some "statute" |} in
  folder_path c1 <> folder_path c2.
Proof.
  cbv zeta. apply storage_paths_distinct; [reflexivity .. | discriminate].
Defined.

End UrlFacts.

(** ** The lister *)

Section ListingFacts.
Import Py Client Listing Spec.

(** Every request of the loop is appended to the log and carries the
    configured limit. *)
Lemma list_loop_requests (fuel : nat) (t : Transport) (config : ListConfig) (path : string)
    (page : Z) (log : list Request) (yielded : list ListItem) :
  exists new,
    Listing.log (list_loop fuel t config path page log yielded) = log ++ new
    /\ Forall (fun r => limit_of r = Some (limit config)) new.
Proof.
  revert page log yielded. induction fuel as [|fuel IH]; intros page log yielded.
  - exists []. split; [now rewrite app_nil_r | constructor].
  - cbn [list_loop]. destruct (past_max_pages config page).
    + exists []. split; [now rewrite app_nil_r | constructor].
    + unfold get_json, get. cbv zeta.
      set (req := {| req_path := path; req_params := Some (page_params config page);
                     req_accept := "application/json" |}).
      assert (Forall (fun r => limit_of r = Some (limit config)) [req]) as Hreq
        by (repeat constructor).
      destruct (t log req) as [response | e];
        [| exists [req]; split; [reflexivity | exact Hreq]].
      destruct (negb (status_code response =? 200));
        [exists [req]; split; [reflexivity | exact Hreq] |].
      destruct (json response) as [[|item items] |];
        try (exists [req]; split; [reflexivity | exact Hreq]).
      destruct (Z.of_nat (length (item :: items)) <? limit config);
        [exists [req]; split; [reflexivity | exact Hreq] |].
      destruct (IH (page + 1) (log ++ [req])
                  (yielded ++ List.map item_of (item :: items))) as (new & E & Hnew).
      exists (req :: new). split.
      * rewrite E, <- app_assoc. reflexivity.
      * constructor; [reflexivity | exact Hnew].
Qed.

(** C1, as stated, fails: the lister sends the limit of its configuration as
    it is.  A configuration with limit 50 makes the one request of this run
    carry [limit=50]. *)
Lemma lister_sends_unclamped_limit :
  let config := {| category := "act"; document_type := "statute";
                   lang_and_version := "fin@"; start_year := None; end_year := None;
                   limit := 50; max_pages := None |} in
  let t : Transport :=
    fun _ _ => Returns {| status_code := 200; content := "[]"; json := Some [] |} in
  List.map limit_of (Listing.log (list_documents 1 t [] config)) = [Some 50]
  /\ ~ (50 <= 10).
Proof. cbv zeta. split; [vm_compute; reflexivity | lia]. Qed.

(** C1 (amended): every listing request carries the limit of the
    configuration unchanged; [run_download] builds the configuration with the
    limit [min(args.limit, 10)], so every listing request of a run started
    through it has a limit of at most 10. *)
Theorem listing_limit_clamped_by_cli :
  (forall fuel t sent config, exists new,
      Listing.log (list_documents fuel t sent config) = sent ++ new
      /\ Forall (fun r => limit_of r = Some (limit config)) new)
  /\ (forall fuel t sent args cat ty sy ey, exists new,
         Listing.log (list_documents fuel t sent (Cli.list_config args cat ty sy ey))
         = sent ++ new
         /\ Forall (fun r => exists l, limit_of r = Some l /\ l <= 10) new).
Proof.
  split.
  - intros. apply list_loop_requests.
  - intros fuel t sent args cat ty sy ey.
    destruct (list_loop_requests fuel t (Cli.list_config args cat ty sy ey)
                (Urls.build_list_path cat ty) 1 sent []) as (new & E & H).
    exists new. split; [exact E |].
    eapply Forall_impl; [exact H |].
    intros r Hr. exists (Z.min (Cli.limit args) 10). split; [exact Hr | lia].
Qed.






End ListingFacts.

(** ** Media links *)

Section EtreeFacts.
Import Py Etree Spec.

(** Induction on a document: a property that holds of an element whenever it
    holds of its children holds of every element. *)
Lemma Element_induction (P : Element -> Prop) :
  (forall ns tag attrs children,
      (forall c, In c children -> P c) -> P (Elem ns tag attrs children)) ->
  forall e, P e.
Proof.
  intros H. fix IH 1. intros [ns tag attrs children]. apply H.
  induction children as [|c children IHc]; intros d Hd; [destruct Hd |].
  destruct Hd as [<- | Hd]; [apply IH | now apply IHc].
Qed.

Lemma within_trans (a b c : Element) : within a b -> within b c -> within a c.
Proof.
  induction 1 as [|a x y Hx Hxy IH]; [trivial |].
  intros Hc. eapply within_child; [exact Hx | now apply IH].
Qed.

Lemma attr_values_spec (name v : string) (e : Element) :
  In v (attr_values name e) <-> has_attr name v e.
Proof.
  unfold attr_values, has_attr. rewrite in_map_iff. split.
  - intros ([[ns n] v'] & Hv & Hin). simpl in Hv. subst v'.
    apply filter_In in Hin as [Hin Hf]. simpl in Hf.
    apply andb_true_iff in Hf as [->%String.eqb_eq ->%String.eqb_eq]. exact Hin.
  - intros Hin. exists (EmptyString, name, v). split; [reflexivity |].
    apply filter_In. split; [exact Hin |]. simpl. now rewrite String.eqb_refl.
Qed.

(** [//akn:tag/@name] finds the attribute on the elements named [akn:tag],
    anywhere in the document, and nothing else. *)
Lemma xpath_attr_of_spec (tag name v : string) (tree : Element) :
  In v (xpath_attr_of tag name tree)
  <-> exists e, within tree e /\ is_akn tag e = true /\ has_attr name v e.
Proof.
  revert v. induction tree as [ns t attrs children IH] using Element_induction.
  intros v. cbn [xpath_attr_of]. rewrite in_app_iff, in_flat_map. split.
  - intros [Hhead | (c & Hc & Hv)].
    + destruct (is_akn tag (Elem ns t attrs children)) eqn:E; [|destruct Hhead].
      exists (Elem ns t attrs children).
      split; [constructor | split; [exact E | now apply attr_values_spec]].
    + apply (IH c Hc) in Hv as (e & He & Hakn & Ha).
      exists e. split; [| now split].
      eapply within_child; [exact Hc | exact He].
  - intros (e & He & Hakn & Ha). inversion He as [|c d Hc Hcd]; subst.
    + left. rewrite Hakn. now apply attr_values_spec.
    + right. exists c. split; [exact Hc |]. apply (IH c Hc). now exists e.
Qed.

(** [//akn:tag//@name] finds the attribute on the elements that are an
    [akn:tag] or lie below one, and nothing else. *)
Lemma xpath_attr_below_spec (tag name v : string) (inside : bool) (tree : Element) :
  In v (xpath_attr_below tag name inside tree)
  <-> exists e, within tree e /\ has_attr name v e
                /\ (inside = true
                    \/ exists a, within tree a /\ is_akn tag a = true /\ within a e).
Proof.
  revert v inside. induction tree as [ns t attrs children IH] using Element_induction.
  intros v inside. cbn [xpath_attr_below]. rewrite in_app_iff, in_flat_map.
  set (tree := Elem ns t attrs children) in *. split.
  - intros [Hhead | (c & Hc & Hv)].
    + destruct (inside || is_akn tag tree) eqn:E; [|destruct Hhead].
      exists tree. split; [constructor | split; [now apply attr_values_spec |]].
      apply orb_true_iff in E as [E | E]; [now left | right].
      exists tree. repeat split; [constructor | exact E | constructor].
    + apply (IH c Hc) in Hv as (e & He & Ha & Hin).
      exists e. split; [eapply within_child; [exact Hc | exact He] | split; [exact Ha |]].
      destruct Hin as [Hin | (a & Hca & Hakn & Hae)].
      * apply orb_true_iff in Hin as [Hin | Hin]; [now left | right].
        exists tree. repeat split; [constructor | exact Hin |].
        eapply within_child; [exact Hc | exact He].
      * right. exists a. repeat split; [| exact Hakn | exact Hae].
        eapply within_child; [exact Hc | exact Hca].
  - intros (e & He & Ha & Hin).
    assert (inside || is_akn tag tree = true -> In v
              ((if inside || is_akn tag tree then attr_values name tree else []))
            \/ exists c, In c children
                 /\ In v (xpath_attr_below tag name (inside || is_akn tag tree) c)) as Hall.
    { intros E. inversion He as [|c d Hc Hcd]; subst.
      - left. rewrite E. now apply attr_values_spec.
      - right. exists c. split; [exact Hc |]. apply (IH c Hc). exists e.
        split; [exact Hcd | split; [exact Ha | now left]]. }
    destruct Hin as [-> | (a & Hta & Hakn & Hae)]; [now apply Hall |].
    inversion Hta as [|c d Hc Hca]; subst.
    + apply Hall. now rewrite Hakn, orb_true_r.
    + right. exists c. split; [exact Hc |]. apply (IH c Hc). exists e.
      split; [now apply (within_trans c a e) | split; [exact Ha |]].
      right. now exists a.
Qed.

End EtreeFacts.

(** ** The fetcher *)

Section DownloaderFacts.
Import Py Pathlib Client Fs Etree Downloader Spec.

(** C7: the links returned have no duplicates; a value is returned exactly
    when the document parses, the value starts with [media/], and it is the
    [src] of an [img], an [href] at or below an [attachment], or the [href]
    of a [ref]; a document the parser rejects gives the empty list. *)
Theorem media_links_characterised (fromstring : string -> option Element) (xml : string) :
  let links := extract_media_links fromstring xml in
  NoDup links
  /\ (forall v, In v links <->
        exists tree, fromstring xml = Some tree /\ startswith "media/" v = true
                     /\ (img_src tree v \/ attachment_href tree v \/ ref_href tree v))
  /\ (fromstring xml = None -> links = []).
Proof.
  cbv zeta. unfold extract_media_links. split; [apply NoDup_elements | split].
  - intros v. rewrite <- list_elem_of_In, elem_of_elements, elem_of_list_to_set,
      list_elem_of_In.
    destruct (fromstring xml) as [tree|].
    + rewrite !in_app_iff, !filter_In, !xpath_attr_of_spec, xpath_attr_below_spec.
      unfold img_src, attachment_href, ref_href, is_media. split.
      * intros H. exists tree. split; [reflexivity |].
        destruct H as [[H M] | [[H M] | [H M]]]; (split; [exact M |]).
        -- now left.
        -- right; left. destruct H as (e & He & Ha & [? | (a & Hta & Hakn & Hae)]);
             [discriminate |]. now exists a, e.
        -- now right; right.
      * intros (tree' & [= <-] & M & H).
        destruct H as [H | [(a & e & Hta & Hakn & Hae & Ha) | H]].
        -- now left.
        -- right; left. split; [| exact M]. exists e.
           split; [now apply (within_trans tree a e) | split; [exact Ha |]].
           right. now exists a.
        -- now right; right.
    + split; [intros [] | intros (tree & [=] & _)].
  - intros ->. change (elements (list_to_set [] : gset string)) with (elements (∅ : gset string)).
    apply elements_empty.
Qed.

(** The sample document has three media links; the image taken twice is
    listed once and the link to another site is left out. *)
Example media_links_of_sample :
  list_to_set (extract_media_links sample_parser EmptyString)
  = ({[ "media/a.gif"; "media/c.pdf"; "media/d.pdf" ]} : gset string)
  /\ length (extract_media_links sample_parser EmptyString) = 3%nat.
Proof. split; vm_compute; reflexivity. Qed.

(** C4: when the primary file exists and [force] is off, the outcome is
    [skipped] with that one file, whatever [dry_run] says, and the world (the
    disk and the requests sent) is as before. *)
Theorem existing_primary_is_skipped (F : FileSystem) (t : Transport)
    (fromstring : string -> option Element) (now uri : string)
    (options : DownloadOptions) (w : World F) (info : Urls.DocumentInfo) (dry : bool) :
  Urls.parse_akn_uri uri = Returns (Some info) ->
  path_exists F (disk w) (primary_path options info) = true ->
  force options = false ->
  download_document F t fromstring now uri (with_dry_run dry options) w
  = (Returns {| akn_uri := uri; status := "skipped"; timestamp := now;
                files := [Pathlib.str (primary_path options info)]; error := None |},
     w).
Proof.
  intros Hparse Hexists Hforce. unfold download_document. rewrite Hparse.
  unfold with_dry_run. cbn [output_dir force dry_run].
  unfold primary_path in Hexists. now rewrite Hexists, Hforce.
Qed.

Lemma existing_primary_is_skipped_witness :
  let options := {| output_dir := parse_arg "out"; fetch_pdf := true; fetch_zip := false;
                    fetch_media := true; force := false; dry_run := false |} in
  let info := {| Urls.category := "act"; Urls.document_type := "statute";
                 Urls.year := "2024"; Urls.number := "123";
                 Urls.lang_and_version := "fin@"; Urls.authority := None |} in
  let w : World MemFs :=
    Build_World MemFs
      ({[ "out/act/statute/2024/123/fin@/main.xml" := Some "<akomaNtoso/>" ]}
       : gmap string (option string)) [] in
  download_document MemFs (always 500 "") no_parser "2026-01-01T00:00:00"
    "/akn/fi/act/statute/2024/123/fin@" (with_dry_run true options) w
  = (Returns {| akn_uri := "/akn/fi/act/statute/2024/123/fin@"; status := "skipped";
                timestamp := "2026-01-01T00:00:00";
                files := ["out/act/statute/2024/123/fin@/main.xml"]; error := None |},
     w).
Proof.
  intros options info w.
  exact (existing_primary_is_skipped MemFs (always 500 "") no_parser
           "2026-01-01T00:00:00" "/akn/fi/act/statute/2024/123/fin@" options w info true
           eq_refl eq_refl eq_refl).
Defined.

(** A best-effort fetch only ever adds to the files recorded. *)
Lemma fetch_into_extends (F : FileSystem) (t : Transport) (accept url : string)
    (dest : PurePath) (w : World F) (files : list string) :
  exists extra w', fetch_into F t accept url dest w files = (w', files ++ extra).
Proof.
  unfold fetch_into, get. cbv zeta.
  destruct (t (sent w) _) as [response | e]; [| eexists [], _; now rewrite app_nil_r].
  destruct (status_code response =? 200); [| eexists [], _; now rewrite app_nil_r].
  destruct (write_bytes F (disk w) dest (content response)) as [[e|] d].
  - eexists [], _. now rewrite app_nil_r.
  - now eexists [str dest], _.
Qed.

Lemma fetch_media_links_extends (F : FileSystem) (t : Transport) (api_path : string)
    (media_dir : PurePath) (links : list string) (w : World F) (files : list string) :
  exists extra w',
    fetch_media_links F t api_path media_dir links w files = (w', files ++ extra).
Proof.
  unfold fetch_media_links. revert w files.
  induction links as [|link links IH]; intros w files.
  - exists [], w. now rewrite app_nil_r.
  - cbn [fold_left].
    destruct (fetch_into_extends F t "application/xml" (api_path +:+ "/" +:+ link)
                (joinpath media_dir (parse_arg (name (parse_arg link)))) w files)
      as (extra1 & w1 & ->).
    destruct (IH w1 (files ++ extra1)) as (extra2 & w2 & ->).
    exists (extra1 ++ extra2), w2. now rewrite app_assoc.
Qed.

(** The best-effort part returns, with the files recorded so far first; the
    one way out is an error making the media directory, which is not caught. *)
Lemma fetch_companions_cases (F : FileSystem) (t : Transport)
    (fromstring : string -> option Element) (options : DownloadOptions)
    (api_path : string) (doc_dir : PurePath) (xml : string) (w : World F)
    (files : list string) :
  (exists extra w',
      fetch_companions F t fromstring options api_path doc_dir xml w files
      = (Returns (files ++ extra), w'))
  \/ (fetch_media options = true
      /\ exists e d w',
          fst (mkdir F d (joinpath doc_dir (parse_arg "media")) false true) = Some e
          /\ fetch_companions F t fromstring options api_path doc_dir xml w files
             = (Raises e, w')).
Proof.
  unfold fetch_companions.
  assert (exists extra1 w1,
             (if fetch_pdf options
              then fetch_into F t "application/pdf" (api_path +:+ "/main.pdf")
                     (joinpath doc_dir (parse_arg "main.pdf")) w files
              else (w, files)) = (w1, files ++ extra1)) as (extra1 & w1 & ->).
  { destruct (fetch_pdf options); [apply fetch_into_extends |].
    exists [], w. now rewrite app_nil_r. }
  assert (exists extra2 w2,
             (if fetch_zip options
              then fetch_into F t "application/zip" (api_path +:+ "/main.akn")
                     (joinpath doc_dir (parse_arg "main.zip")) w1 (files ++ extra1)
              else (w1, files ++ extra1)) = (w2, files ++ extra2)) as (extra2 & w2 & ->).
  { destruct (fetch_zip options).
    - destruct (fetch_into_extends F t "application/zip" (api_path +:+ "/main.akn")
                  (joinpath doc_dir (parse_arg "main.zip")) w1 (files ++ extra1))
        as (e2 & w2 & ->).
      exists (extra1 ++ e2), w2. now rewrite app_assoc.
    - now exists extra1, w1. }
  destruct (fetch_media options); [| left; now exists extra2, w2].
  destruct (extract_media_links fromstring xml) as [|link links];
    [left; now exists extra2, w2 |].
  destruct (mkdir F (disk w2) _ false true) as [[e|] d] eqn:Hmk.
  - right. split; [reflexivity |]. exists e, (disk w2), {| disk := d; sent := sent w2 |}.
    now rewrite Hmk.
  - left.
    destruct (fetch_media_links_extends F t api_path (joinpath doc_dir (parse_arg "media"))
                (link :: links) {| disk := d; sent := sent w2 |} (files ++ extra2))
      as (e3 & w3 & ->).
    exists (extra2 ++ e3), w3. now rewrite app_assoc.
Qed.




(** A uri that makes the resolver raise makes the fetcher raise: the call to
    [parse_akn_uri] is not inside a [try]. *)
Lemma download_raises_with_the_resolver (F : FileSystem) (t : Transport)
    (fromstring : string -> option Element) (now uri : string)
    (options : DownloadOptions) (w : World F) (e : string) :
  Urls.parse_akn_uri uri = Raises e ->
  download_document F t fromstring now uri options w = (Raises e, w).
Proof. intros H. unfold download_document. now rewrite H. Qed.

End DownloaderFacts.

(** ** The checkpoint *)

Section StateFacts.
Import Py Pathlib Fs State.

Context (F : FileSystem) (dumps : gmap string Json -> string).

(** Saving changes the time stamp only. *)
Lemma save_completed (now : string) (self : StateManager) (d : Fs.state F) :
  completed_uris (state (snd (fst (save F dumps now self d))))
  = completed_uris (state self).
Proof.
  unfold save. cbn.
  destruct (mkdir F d _ true true) as [[e|] d']; [reflexivity |].
  destruct (write_bytes F d' _ _). reflexivity.
Qed.

Lemma mark_completed_completed (now uri : string) (self : StateManager) (d : Fs.state F) :
  completed_uris (state (snd (fst (mark_completed F dumps now uri self d))))
  = {[uri]} ∪ completed_uris (state self).
Proof. unfold mark_completed. rewrite save_completed. reflexivity. Qed.

Lemma mark_all_completed (now : string) (uris : list string) (self : StateManager)
    (d : Fs.state F) :
  completed_uris (state (fst (mark_all F dumps now uris self d)))
  = list_to_set uris ∪ completed_uris (state self).
Proof.
  revert self d. induction uris as [|uri uris IH]; intros self d.
  - cbn [mark_all fst]. apply set_eq. intros x.
    rewrite elem_of_union, elem_of_list_to_set, elem_of_nil. tauto.
  - cbn [mark_all].
    pose proof (mark_completed_completed now uri self d) as E.
    destruct (mark_completed F dumps now uri self d) as [[exc self'] d'].
    cbn [fst snd] in E. rewrite IH, E. apply set_eq. intros x.
    rewrite !elem_of_union, !elem_of_list_to_set, elem_of_cons, elem_of_singleton.
    tauto.
Qed.

Lemma dict_roundtrip (s : DownloadState) (uris : list string) :
  (forall u, u ∈ uris <-> u ∈ completed_uris s) ->
  from_dict (dict_with s uris) = Some s.
Proof.
  intros Huris. unfold from_dict, get_opt_str, dict_with.
  simplify_map_eq.
  assert (list_to_set uris = completed_uris s) as ->.
  { apply set_eq. intros u. rewrite elem_of_list_to_set. apply Huris. }
  destruct s as [[cc|] [cd|] pg [lu|] done [sa|] [ua|]]; reflexivity.
Qed.

End StateFacts.

Section CheckpointClaim.
Import Py Pathlib Fs State.

(** C5: after [mark_completed(uri)], [is_completed(uri)] is true, and the
    answer for any other uri is as before; on a new store, [is_completed] is
    true of exactly the uris marked, so it is false of one never marked;
    and [from_dict(to_dict(state))] is the state, with the same completed
    set, in whatever order the set was listed. *)
Theorem checkpoint_membership_and_roundtrip :
  (forall F dumps now uri self d,
      is_completed (snd (fst (mark_completed F dumps now uri self d))) uri = true)
  /\ (forall F dumps now uri other self d, other <> uri ->
         is_completed (snd (fst (mark_completed F dumps now uri self d))) other
         = is_completed self other)
  /\ (forall F dumps now uris file d u,
         is_completed (fst (mark_all F dumps now uris (new_manager file) d)) u
         = bool_decide (u ∈ uris))
  /\ (forall s, from_dict (to_dict s) = Some s)
  /\ (forall s uris, (forall u, u ∈ uris <-> u ∈ completed_uris s) ->
         completed_uris <$> from_dict (dict_with s uris) = Some (completed_uris s)).
Proof.
  repeat split.
  - intros. unfold is_completed. rewrite mark_completed_completed.
    apply bool_decide_eq_true, elem_of_union_l, elem_of_singleton. reflexivity.
  - intros F dumps now uri other self d Hne. unfold is_completed.
    rewrite mark_completed_completed. apply bool_decide_ext.
    rewrite elem_of_union, elem_of_singleton. tauto.
  - intros. unfold is_completed. rewrite mark_all_completed.
    apply bool_decide_ext. cbn [new_manager state fresh completed_uris].
    rewrite elem_of_union, elem_of_list_to_set, elem_of_empty. tauto.
  - intros s. apply dict_roundtrip. intros u. apply elem_of_elements.
  - intros s uris H. now rewrite (dict_roundtrip s uris H).
Qed.

End CheckpointClaim.

(** * Further properties of the code *)

(** ** More on the resolver: the address of a request *)

Section ResolverInversion.
Import Py Urls Spec.

Lemma startswith_inv (p s : string) :
  startswith p s = true -> s = p +:+ drop_str (String.length p) s.
Proof.
  revert s. induction p as [|x p IH]; intros s H.
  - now destruct s.
  - destruct s as [|y s]; [discriminate |].
    change (Ascii.eqb x y && startswith p s = true) in H.
    apply andb_true_iff in H as [->%Ascii.eqb_eq H].
    rewrite append_cons. change (drop_str (String.length (String y p)) (String y s))
      with (drop_str (String.length p) s).
    f_equal. now apply IH.
Qed.

Lemma lit_inv (p s r : string) : lit p s = Some r -> s = p +:+ r.
Proof.
  unfold lit. destruct (startswith p s) eqn:E; [| discriminate].
  intros [= <-]. now apply startswith_inv.
Qed.

Lemma alt_inv (alts : list string) (s a r : string) :
  alt alts s = Some (a, r) -> a ∈ alts /\ s = a +:+ r.
Proof.
  induction alts as [|b alts IH]; [discriminate |].
  cbn [alt]. destruct (lit b s) as [r'|] eqn:E.
  - intros [= <- <-]. split; [left | now apply lit_inv].
  - intros H. destruct (IH H) as [Hin Hs]. split; [now right | exact Hs].
Qed.

(** What a greedy run leaves: the run satisfies the class, and the rest is
    empty or starts outside the class. *)
Lemma span_inv (f : ascii -> bool) (s a r : string) :
  span f s = (a, r) ->
  s = a +:+ r /\ forallb_str f a = true
  /\ match r with EmptyString => True | String c _ => f c = false end.
Proof.
  revert a r. induction s as [|x s IH]; intros a r.
  - intros [= <- <-]. now repeat split.
  - cbn [span]. destruct (f x) eqn:Hx.
    + destruct (span f s) as [a' r'] eqn:E. intros [= <- <-].
      destruct (IH a' r' eq_refl) as (-> & Ha & Hr).
      repeat split; [| exact Hr]. cbn [forallb_str]. now rewrite Hx, Ha.
    + intros [= <- <-]. now repeat split.
Qed.

Lemma plus_inv (f : ascii -> bool) (s a r : string) :
  plus f s = Some (a, r) ->
  s = a +:+ r /\ a <> EmptyString /\ forallb_str f a = true
  /\ match r with EmptyString => True | String c _ => f c = false end.
Proof.
  unfold plus. destruct (span f s) as [a' r'] eqn:E.
  destruct (String.eqb a' EmptyString) eqn:Ha; [discriminate |].
  intros [= <- <-]. destruct (span_inv f s a' r' E) as (Hs & Hf & Hr).
  repeat split; try assumption. now apply String.eqb_neq.
Qed.

Lemma token_intro (s : string) :
  s <> EmptyString -> forallb_str not_slash s = true -> token s = true.
Proof. intros Hne Hs. unfold token. now rewrite (eqb_empty_false s Hne), Hs. Qed.

Lemma digits_intro (s : string) :
  s <> EmptyString -> forallb_str is_digit s = true -> digits s = true.
Proof. intros Hne Hs. unfold digits. now rewrite (eqb_empty_false s Hne), Hs. Qed.

(** A digit is not a slash. *)
Lemma digits_token (s : string) : digits s = true -> token s = true.
Proof.
  intros [Hne Hd]%digits_inv. apply token_intro; [exact Hne |].
  clear Hne. induction s as [|x s IH]; [reflexivity |].
  cbn [forallb_str] in *. apply andb_true_iff in Hd as [Hx Hd].
  rewrite (IH Hd), andb_true_r. unfold not_slash.
  destruct (Ascii.eqb x "/") eqn:E; [| reflexivity].
  apply Ascii.eqb_eq in E. subst x. discriminate.
Qed.

(** The end of the pattern after a greedy last segment is the end of the
    string. *)
Lemma at_end_after_run (r : string) :
  at_end r = Some tt ->
  match r with EmptyString => True | String c _ => not_slash c = false end ->
  r = EmptyString.
Proof.
  destruct r as [|c r]; [reflexivity |]. unfold at_end.
  destruct (String.eqb (String c r) (String "010" EmptyString)) eqn:E;
    [| now rewrite orb_false_r].
  apply String.eqb_eq in E. injection E as -> ->. discriminate.
Qed.

End ResolverInversion.

Section ResolverResults.
Import Py Urls Spec Extra.

Lemma standard_pattern_inv (p : string) (info : DocumentInfo) :
  STANDARD_PATTERN p = Some info ->
  authority info = None
  /\ category info ∈ ["act"; "judgment"; "doc"]
  /\ token (document_type info) = true /\ digits (year info) = true
  /\ token (number info) = true /\ token (lang_and_version info) = true
  /\ p = "/akn/fi/" +:+ category info +:+ "/" +:+ document_type info +:+ "/"
         +:+ year info +:+ "/" +:+ number info +:+ "/" +:+ lang_and_version info.
Proof.
  unfold STANDARD_PATTERN. intros H.
  destruct (lit "/akn/fi/" p) as [r0|] eqn:E0; [| discriminate]. cbn [mbind option_bind] in H.
  destruct (alt _ r0) as [[cat r1]|] eqn:E1; [| discriminate]. cbn [mbind option_bind] in H.
  destruct (lit "/" r1) as [r2|] eqn:E2; [| discriminate]. cbn [mbind option_bind] in H.
  destruct (plus not_slash r2) as [[ty r3]|] eqn:E3; [| discriminate].
  cbn [mbind option_bind] in H.
  destruct (lit "/" r3) as [r4|] eqn:E4; [| discriminate]. cbn [mbind option_bind] in H.
  destruct (plus is_digit r4) as [[yr r5]|] eqn:E5; [| discriminate].
  cbn [mbind option_bind] in H.
  destruct (lit "/" r5) as [r6|] eqn:E6; [| discriminate]. cbn [mbind option_bind] in H.
  destruct (plus not_slash r6) as [[num r7]|] eqn:E7; [| discriminate].
  cbn [mbind option_bind] in H.
  destruct (lit "/" r7) as [r8|] eqn:E8; [| discriminate]. cbn [mbind option_bind] in H.
  destruct (plus not_slash r8) as [[lang r9]|] eqn:E9; [| discriminate].
  cbn [mbind option_bind] in H.
  destruct (at_end r9) as [[]|] eqn:E10; [| discriminate]. cbn [mbind option_bind] in H.
  injection H as <-. cbn [authority category document_type year number lang_and_version].
  apply lit_inv in E0, E2, E4, E6, E8. apply alt_inv in E1 as [Hcat E1].
  apply plus_inv in E3 as (E3 & T1 & T2 & _), E5 as (E5 & Y1 & Y2 & _),
    E7 as (E7 & N1 & N2 & _), E9 as (E9 & L1 & L2 & L3).
  apply (at_end_after_run r9 E10) in L3. subst.
  repeat split; try assumption; try (now apply token_intro); try (now apply digits_intro).
  now rewrite append_empty_r.
Qed.

Lemma authority_pattern_inv (p : string) (info : DocumentInfo) :
  AUTHORITY_PATTERN p = Some info ->
  exists a, authority info = Some a /\ token a = true
  /\ category info = "doc" /\ document_type info = "authority-regulation"
  /\ digits (year info) = true
  /\ token (number info) = true /\ token (lang_and_version info) = true
  /\ p = "/akn/fi/doc/authority-regulation/" +:+ a +:+ "/"
         +:+ year info +:+ "/" +:+ number info +:+ "/" +:+ lang_and_version info.
Proof.
  unfold AUTHORITY_PATTERN. intros H.
  destruct (lit _ p) as [r0|] eqn:E0; [| discriminate]. cbn [mbind option_bind] in H.
  destruct (plus not_slash r0) as [[auth r3]|] eqn:E3; [| discriminate].
  cbn [mbind option_bind] in H.
  destruct (lit "/" r3) as [r4|] eqn:E4; [| discriminate]. cbn [mbind option_bind] in H.
  destruct (plus is_digit r4) as [[yr r5]|] eqn:E5; [| discriminate].
  cbn [mbind option_bind] in H.
  destruct (lit "/" r5) as [r6|] eqn:E6; [| discriminate]. cbn [mbind option_bind] in H.
  destruct (plus not_slash r6) as [[num r7]|] eqn:E7; [| discriminate].
  cbn [mbind option_bind] in H.
  destruct (lit "/" r7) as [r8|] eqn:E8; [| discriminate]. cbn [mbind option_bind] in H.
  destruct (plus not_slash r8) as [[lang r9]|] eqn:E9; [| discriminate].
  cbn [mbind option_bind] in H.
  destruct (at_end r9) as [[]|] eqn:E10; [| discriminate]. cbn [mbind option_bind] in H.
  injection H as <-. cbn [authority category document_type year number lang_and_version].
  apply lit_inv in E0, E4, E6, E8.
  apply plus_inv in E3 as (E3 & T1 & T2 & _), E5 as (E5 & Y1 & Y2 & _),
    E7 as (E7 & N1 & N2 & _), E9 as (E9 & L1 & L2 & L3).
  apply (at_end_after_run r9 E10) in L3. subst.
  exists auth.
  repeat split; try assumption; try (now apply token_intro); try (now apply digits_intro).
  now rewrite append_empty_r.
Qed.

End ResolverResults.

Section ResolverTheorems.
Import Py Urls Spec Extra.

(** The resolver loses nothing: the API path built from the coordinates it
    returns is the path it matched. *)
Lemma match_path_build (p : string) (info : DocumentInfo) :
  match_path p = Some info -> build_api_path info = p.
Proof.
  unfold match_path. destruct (AUTHORITY_PATTERN p) as [info'|] eqn:E.
  - intros [= <-].
    destruct (authority_pattern_inv p info' E) as (a & Ha & Ta & Hc & Hty & _ & _ & _ & ->).
    unfold build_api_path. rewrite Ha, (truthy_token a Ta), Hc, Hty. reflexivity.
  - intros H. destruct (standard_pattern_inv p info H) as (Ha & _ & _ & _ & _ & _ & ->).
    unfold build_api_path. rewrite Ha. reflexivity.
Qed.




(** X2: the API path built from resolved coordinates is the path that was
    matched: for a bare path, the percent-decoded uri. *)
Theorem resolved_path_is_rebuilt (uri : string) (info : DocumentInfo) :
  parse_akn_uri uri = Returns (Some info) ->
  path_of_uri uri = Returns (build_api_path info)
  /\ (startswith "http" uri = false -> build_api_path info = Urllib.unquote uri).
Proof.
  unfold parse_akn_uri. destruct (path_of_uri uri) as [p | e] eqn:E; [| discriminate].
  intros [= H]. apply match_path_build in H. subst p. split; [reflexivity |].
  intros Hb. unfold path_of_uri in E. rewrite Hb in E. now injection E.
Qed.

Lemma resolved_path_is_rebuilt_witness :
  build_api_path {| category := "act"; document_type := "statute"; year := "2024";
                    number := "123"; lang_and_version := "fin@"; authority := None |}
  = Urllib.unquote "/akn/fi/act/statute/2024/123/fin%40".
Proof.
  exact (proj2 (resolved_path_is_rebuilt "/akn/fi/act/statute/2024/123/fin%40" _ eq_refl)
           eq_refl).
Defined.

End ResolverTheorems.

Section UrlRoundTrip.
Import Py Urls Spec Extra.

Lemma forallb_str_append (f : ascii -> bool) (a b : string) :
  forallb_str f (a +:+ b) = forallb_str f a && forallb_str f b.
Proof.
  induction a as [|x a IH]; [reflexivity |].
  rewrite append_cons. cbn [forallb_str]. now rewrite IH, andb_assoc.
Qed.

Lemma filter_str_all (f : ascii -> bool) (s : string) :
  forallb_str f s = true -> filter_str f s = s.
Proof.
  induction s as [|x s IH]; [reflexivity |]. cbn [forallb_str filter_str].
  intros [-> H]%andb_true_iff. now rewrite (IH H).
Qed.

Lemma cut_at_absent (c : ascii) (s : string) :
  forallb_str (fun d => negb (Ascii.eqb c d)) s = true -> cut_at c s = None.
Proof.
  induction s as [|x s IH]; [reflexivity |]. cbn [forallb_str cut_at].
  intros [Hx H]%andb_true_iff. apply negb_true_iff in Hx. now rewrite Hx, (IH H).
Qed.

Lemma before_absent (c : ascii) (s : string) :
  forallb_str (fun d => negb (Ascii.eqb c d)) s = true -> Urllib.before c s = s.
Proof. intros H. unfold Urllib.before. now rewrite (cut_at_absent c s H). Qed.

Lemma contains_char_absent (c : ascii) (s : string) :
  forallb_str (fun d => negb (Ascii.eqb c d)) s = true ->
  contains (String c EmptyString) s = false.
Proof.
  induction s as [|x s IH]; [reflexivity |]. cbn [forallb_str].
  intros [Hx H]%andb_true_iff. apply negb_true_iff in Hx.
  now rewrite contains_char_cons, Hx, (IH H).
Qed.

(** A string free of some characters is free of each of them. *)
Lemma free_of_mark (m : ascii) (chars : list ascii) (s : string) :
  In m chars -> free_of chars s = true ->
  forallb_str (fun d => negb (Ascii.eqb m d)) s = true.
Proof.
  intros Hm. unfold free_of. induction s as [|x s IH]; [reflexivity |].
  cbn [forallb_str]. intros [Hx H]%andb_true_iff. rewrite (IH H), andb_true_r.
  apply negb_true_iff in Hx. apply negb_true_iff.
  destruct (Ascii.eqb m x) eqn:E; [| reflexivity].
  apply Ascii.eqb_eq in E. subst x.
  assert (existsb (Ascii.eqb m) chars = true) as E'; [| congruence].
  apply existsb_exists. exists m. split; [exact Hm | apply Ascii.eqb_refl].
Qed.

Lemma forallb_str_impl (f g : ascii -> bool) (s : string) :
  (forall c, f c = true -> g c = true) -> forallb_str f s = true -> forallb_str g s = true.
Proof.
  intros Hfg. induction s as [|x s IH]; [reflexivity |]. cbn [forallb_str].
  intros [Hx H]%andb_true_iff. now rewrite (Hfg x Hx), (IH H).
Qed.

(** The last segment keeps its parameters when it has no semicolon. *)
Lemma splitparams_last_segment (a lang : string) :
  forallb_str not_slash lang = true ->
  forallb_str (fun d => negb (Ascii.eqb ";" d)) lang = true ->
  Urllib.splitparams (a +:+ String "/" lang) = a +:+ String "/" lang.
Proof.
  intros Hs Hp.
  assert (contains "/" lang = false) as Hno.
  { apply contains_char_absent. revert Hs. apply forallb_str_impl.
    intros c Hc. unfold not_slash in Hc. now rewrite Ascii.eqb_sym. }
  induction a as [|x a IH].
  - rewrite append_nil. cbn [Urllib.splitparams]. rewrite Hno.
    apply before_absent. cbn [forallb_str]. now rewrite Hp.
  - rewrite append_cons. cbn [Urllib.splitparams].
    rewrite contains_char_append.
    replace (contains "/" (String "/" lang)) with true by reflexivity.
    rewrite orb_true_r. now rewrite IH.
Qed.

(** Passing over an occurrence of the separator. *)
Lemma split_go_skip (sep a s cur : string) :
  split_go sep (a +:+ s) (String.length a) cur = split_go sep s O cur.
Proof.
  induction a as [|x a IH]; [reflexivity |].
  rewrite append_cons. exact IH.
Qed.

Lemma split_go_absent (sep s cur : string) :
  contains sep s = false -> split_go sep s O cur = [cur +:+ s].
Proof.
  revert cur. induction s as [|x s IH]; intros cur H.
  - cbn. now rewrite append_empty_r.
  - cbn [contains] in H. apply orb_false_iff in H as [H1 H2].
    cbn [split_go]. rewrite H1, (IH _ H2), append_assoc. reflexivity.
Qed.

(** A pattern [p/q] at the start of [seg/rest]: the segments agree and [q]
    starts the rest. *)
Lemma startswith_segment_more (p q seg rest : string) :
  forallb_str not_slash p = true -> forallb_str not_slash seg = true ->
  startswith (p +:+ String "/" q) (seg +:+ String "/" rest) = true ->
  seg = p /\ startswith q rest = true.
Proof.
  revert seg. induction p as [|x p IH]; intros seg Hp Hseg H.
  - rewrite append_nil in H. destruct seg as [|y seg].
    + rewrite append_nil in H.
      change (Ascii.eqb "/" "/" && startswith q rest = true) in H.
      now apply andb_true_iff in H as [_ H].
    + rewrite append_cons in H.
      change (Ascii.eqb "/" y && startswith q (seg +:+ String "/" rest) = true) in H.
      apply andb_true_iff in H as [H _]. cbn [forallb_str] in Hseg.
      apply andb_true_iff in Hseg as [Hy _]. unfold not_slash in Hy.
      rewrite Ascii.eqb_sym in H. now rewrite H in Hy.
  - cbn [forallb_str] in Hp. apply andb_true_iff in Hp as [Hx Hp].
    rewrite append_cons in H. destruct seg as [|y seg].
    + rewrite append_nil in H.
      change (Ascii.eqb x "/" && startswith (p +:+ String "/" q) rest = true) in H.
      apply andb_true_iff in H as [H _]. unfold not_slash in Hx. now rewrite H in Hx.
    + rewrite append_cons in H.
      change (Ascii.eqb x y
              && startswith (p +:+ String "/" q) (seg +:+ String "/" rest) = true) in H.
      apply andb_true_iff in H as [->%Ascii.eqb_eq H].
      cbn [forallb_str] in Hseg. apply andb_true_iff in Hseg as [_ Hseg].
      destruct (IH seg Hp Hseg H) as [-> H']. now split.
Qed.

(** A pattern with a slash does not start a string without one. *)
Lemma startswith_slash_free (p q s : string) :
  forallb_str not_slash s = true -> startswith (p +:+ String "/" q) s = false.
Proof.
  revert s. induction p as [|x p IH]; intros s Hs.
  - rewrite append_nil. destruct s as [|y s]; [reflexivity |].
    cbn [forallb_str] in Hs. apply andb_true_iff in Hs as [Hy _].
    unfold not_slash in Hy. apply negb_true_iff in Hy.
    change (Ascii.eqb "/" y && startswith q s = false).
    now rewrite Ascii.eqb_sym, Hy.
  - rewrite append_cons. destruct s as [|y s]; [reflexivity |].
    cbn [forallb_str] in Hs. apply andb_true_iff in Hs as [_ Hs].
    change (Ascii.eqb x y && startswith (p +:+ String "/" q) s = false).
    now rewrite (IH s Hs), andb_false_r.
Qed.

(** A pattern that starts with a slash occurs in [seg/rest], [seg] without
    slash, at the slash or in the rest. *)
Lemma contains_skip_segment (sep' seg rest : string) :
  forallb_str not_slash seg = true ->
  contains (String "/" sep') (seg +:+ String "/" rest)
  = startswith sep' rest || contains (String "/" sep') rest.
Proof.
  induction seg as [|y seg IH]; intros Hseg.
  - rewrite append_nil. reflexivity.
  - cbn [forallb_str] in Hseg. apply andb_true_iff in Hseg as [Hy Hseg].
    unfold not_slash in Hy. apply negb_true_iff in Hy.
    rewrite append_cons.
    change (contains (String "/" sep') (String y (seg +:+ String "/" rest)))
      with (Ascii.eqb "/" y && startswith sep' (seg +:+ String "/" rest)
            || contains (String "/" sep') (seg +:+ String "/" rest)).
    now rewrite Ascii.eqb_sym, Hy, (IH Hseg).
Qed.

Lemma contains_slash_free (sep' s : string) :
  forallb_str not_slash s = true -> contains (String "/" sep') s = false.
Proof.
  induction s as [|y s IH]; [reflexivity |]. cbn [forallb_str].
  intros [Hy Hs]%andb_true_iff. unfold not_slash in Hy. apply negb_true_iff in Hy.
  change (contains (String "/" sep') (String y s))
    with (Ascii.eqb "/" y && startswith sep' s || contains (String "/" sep') s).
  now rewrite Ascii.eqb_sym, Hy, (IH Hs).
Qed.

Lemma digits_not (s lit : string) :
  digits s = true -> forallb_str is_digit lit = false -> s <> lit.
Proof. intros [_ H]%digits_inv Hl ->. congruence. Qed.

(** The base path does not occur in the tail [type/year/number/lang] of an
    API path, nor in [authority/year/number/lang]. *)
Lemma base_not_in_tail (ty yr num lang : string) :
  token ty = true -> digits yr = true -> token num = true -> token lang = true ->
  startswith "finlex/avoindata/v1" (ty +:+ String "/" (yr +:+ String "/"
                                      (num +:+ String "/" lang))) = false
  /\ contains "/finlex/avoindata/v1" (ty +:+ String "/" (yr +:+ String "/"
                                        (num +:+ String "/" lang))) = false.
Proof.
  intros [_ Hty]%token_inv Hyr [_ Hnum]%token_inv [_ Hlang]%token_inv.
  pose proof (proj2 (token_inv yr (digits_token yr Hyr))) as Hyr'.
  assert (forall rest, startswith "finlex/avoindata/v1" (yr +:+ String "/" rest) = false) as Y1.
  { intros rest. destruct (startswith _ _) eqn:E; [| reflexivity].
    apply (startswith_segment_more "finlex" "avoindata/v1") in E as [E _];
      [| reflexivity | exact Hyr'].
    now apply (digits_not yr "finlex") in Hyr. }
  assert (forall rest, startswith "avoindata/v1" (yr +:+ String "/" rest) = false) as Y2.
  { intros rest. destruct (startswith _ _) eqn:E; [| reflexivity].
    apply (startswith_segment_more "avoindata" "v1") in E as [E _];
      [| reflexivity | exact Hyr'].
    now apply (digits_not yr "avoindata") in Hyr. }
  assert (startswith "finlex/avoindata/v1" (num +:+ String "/" lang) = false) as N1.
  { destruct (startswith _ _) eqn:E; [| reflexivity].
    apply (startswith_segment_more "finlex" "avoindata/v1") in E as [_ E];
      [| reflexivity | exact Hnum].
    now rewrite (startswith_slash_free "avoindata" "v1" lang Hlang
                 : startswith "avoindata/v1" lang = false) in E. }
  split.
  - destruct (startswith "finlex/avoindata/v1" (ty +:+ _)) eqn:E; [| reflexivity].
    apply (startswith_segment_more "finlex" "avoindata/v1") in E as [_ E];
      [| reflexivity | exact Hty].
    now rewrite Y2 in E.
  - rewrite (contains_skip_segment _ ty _ Hty), Y1.
    rewrite (contains_skip_segment _ yr _ Hyr'), N1.
    rewrite (contains_skip_segment _ num _ Hnum).
    rewrite (startswith_slash_free "finlex" "avoindata/v1" lang Hlang
             : startswith "finlex/avoindata/v1" lang = false).
    now rewrite (contains_slash_free _ lang Hlang).
Qed.

(** [urlparse] on the address of a clean path: the path under the base. *)
Lemma urlparse_base (a lang : string) :
  forallb_str (fun c => negb (Urllib.is_tab_or_newline c)) (a +:+ String "/" lang) = true ->
  forallb_str (fun d => negb (Ascii.eqb "#" d)) (a +:+ String "/" lang) = true ->
  forallb_str (fun d => negb (Ascii.eqb "?" d)) (a +:+ String "/" lang) = true ->
  forallb_str not_slash lang = true ->
  forallb_str (fun d => negb (Ascii.eqb ";" d)) lang = true ->
  Urllib.urlparse_path (Http.BASE_URL +:+ a +:+ String "/" lang)
  = Returns ("/finlex/avoindata/v1" +:+ a +:+ String "/" lang).
Proof.
  intros Hclean Hfrag Hquery Hlang Hsemi. set (path := a +:+ String "/" lang) in *.
  unfold Urllib.urlparse_path.
  change (Urllib.lstrip Urllib.is_c0_or_space (Http.BASE_URL +:+ path))
    with (Http.BASE_URL +:+ path).
  rewrite (filter_str_all _ (Http.BASE_URL +:+ path))
    by (now rewrite forallb_str_append, Hclean).
  change (Urllib.split_scheme (Http.BASE_URL +:+ path))
    with ("https", "//opendata.finlex.fi/finlex/avoindata/v1" +:+ path).
  cbv iota beta.
  change (startswith "//" ("//opendata.finlex.fi/finlex/avoindata/v1" +:+ path)) with true.
  cbv iota.
  change (span (fun c => negb (Urllib.is_netloc_end c))
            (drop_str 2 ("//opendata.finlex.fi/finlex/avoindata/v1" +:+ path)))
    with ("opendata.finlex.fi", "/finlex/avoindata/v1" +:+ path).
  cbv iota beta.
  change (xorb (contains "[" "opendata.finlex.fi") (contains "]" "opendata.finlex.fi"))
    with false.
  cbv iota.
  rewrite (before_absent "#") by (now rewrite forallb_str_append, Hfrag).
  rewrite (before_absent "?") by (now rewrite forallb_str_append, Hquery).
  change (bool_decide ("https" ∈ Urllib.uses_params)) with true. cbv iota.
  f_equal. unfold path. rewrite <- append_assoc.
  now apply splitparams_last_segment.
Qed.

Lemma contains_prefix (sep s : string) : contains sep (sep +:+ s) = true.
Proof.
  pose proof (startswith_append sep s) as H.
  destruct (sep +:+ s); cbn [contains]; now rewrite H.
Qed.

(** The address of a clean path resolves to the path. *)
Lemma path_of_address (a lang : string) :
  forallb_str (fun c => negb (existsb (Ascii.eqb c) url_marks)) (a +:+ String "/" lang)
  = true ->
  forallb_str not_slash lang = true ->
  forallb_str (fun d => negb (Ascii.eqb ";" d)) lang = true ->
  contains "/finlex/avoindata/v1" (a +:+ String "/" lang) = false ->
  path_of_uri (Http.BASE_URL +:+ a +:+ String "/" lang) = Returns (a +:+ String "/" lang).
Proof.
  intros Hmarks Hlang Hsemi Hbase.
  assert (forall m, In m url_marks ->
            forallb_str (fun d => negb (Ascii.eqb m d)) (a +:+ String "/" lang) = true) as Hm.
  { intros m Hin. now apply (free_of_mark m url_marks). }
  unfold path_of_uri.
  change (startswith "http" (Http.BASE_URL +:+ a +:+ String "/" lang)) with true. cbv iota.
  rewrite urlparse_base; try assumption.
  - set (path := a +:+ String "/" lang) in *.
    assert (contains "%" ("/finlex/avoindata/v1" +:+ path) = false) as Hpct.
    { rewrite contains_char_append. apply orb_false_iff. split; [reflexivity |].
      apply contains_char_absent, Hm. cbn. tauto. }
    rewrite (unquote_percent_free _ Hpct).
    assert (contains "/finlex/avoindata/v1" ("/finlex/avoindata/v1" +:+ path) = true) as ->.
    { apply contains_prefix. }
    f_equal. unfold split.
    change (split_go "/finlex/avoindata/v1" ("/finlex/avoindata/v1" +:+ path) 0 EmptyString)
      with (EmptyString
            :: split_go "/finlex/avoindata/v1" ("finlex/avoindata/v1" +:+ path)
                 (String.length "finlex/avoindata/v1") EmptyString).
    rewrite split_go_skip, (split_go_absent _ _ _ Hbase). reflexivity.
  - revert Hmarks. apply forallb_str_impl. intros c Hc.
    apply negb_true_iff in Hc. cbn [existsb url_marks] in Hc.
    repeat (apply orb_false_iff in Hc as [? Hc]).
    unfold Urllib.is_tab_or_newline. apply negb_true_iff.
    repeat (apply orb_false_iff; split); assumption.
  - apply Hm. cbn. tauto.
  - apply Hm. cbn. tauto.
Qed.

End UrlRoundTrip.

Section AddressRoundTrip.
Import Py Urls Spec Extra.

(** The grammar match of a built path. *)
Lemma match_built_path (c : DocumentInfo) :
  valid_coords c = true ->
  (is_Some (authority c) -> category c = "doc") ->
  match_path (build_api_path c) = Some c.
Proof.
  intros Hv Hdoc. destruct c as [cat ty yr num lang auth].
  unfold valid_coords, well_formed in Hv.
  cbn [category document_type year number lang_and_version authority] in *.
  repeat (apply andb_true_iff in Hv as [Hv ?]).
  match goal with H : bool_decide _ = true |- _ => apply bool_decide_eq_true in H end.
  unfold match_path, build_api_path. cbn [authority category document_type year number
                                           lang_and_version].
  destruct auth as [a|].
  - match goal with H : _ && _ = true |- _ => apply andb_true_iff in H as [Ha Hty] end.
    apply String.eqb_eq in Hty as ->.
    rewrite (Hdoc (mk_is_Some _ _ eq_refl)).
    rewrite (truthy_token a Ha).
    now rewrite authority_match.
  - cbn [truthy].
    match goal with H : negb _ = true |- _ =>
      apply negb_true_iff, String.eqb_neq in H; rename H into Hty end.
    change ("/akn/fi/" +:+ cat +:+ "/" +:+ ty +:+ "/" +:+ yr +:+ "/" +:+ num +:+ "/" +:+ lang)
      with ("/akn/fi/" +:+ cat +:+ "/" +:+ ty +:+ "/" +:+ (yr +:+ "/" +:+ num +:+ "/" +:+ lang))
      at 1.
    rewrite authority_no_match by assumption.
    now apply standard_match.
Qed.

(** A property of the characters of the literal parts and of every field
    is a property of the built path. *)
Lemma build_api_path_forallb (P : ascii -> bool) (c : DocumentInfo) :
  forallb_str P "/akn/fi/" = true ->
  forallb (forallb_str P) (fields c) = true ->
  forallb_str P (build_api_path c) = true.
Proof.
  intros Hlit. assert (forallb_str P "/" = true) as Hslash.
  { cbn [forallb_str] in *. apply andb_true_iff in Hlit as [-> _]. reflexivity. }
  destruct c as [cat ty yr num lang auth]. unfold fields, build_api_path.
  destruct auth as [a|];
    cbn [category document_type year number lang_and_version authority option_list
         app forallb truthy];
    intros H; repeat (apply andb_true_iff in H as [? H]);
    try destruct (String.eqb a EmptyString);
    rewrite !forallb_str_append;
    repeat match goal with E : _ = true |- _ => rewrite E; clear E end;
    reflexivity.
Qed.

(** The base path does not occur in a built path. *)
Lemma base_not_in_api_path (c : DocumentInfo) :
  valid_coords c = true ->
  contains "/finlex/avoindata/v1" (build_api_path c) = false.
Proof.
  intros Hv. destruct c as [cat ty yr num lang auth].
  unfold valid_coords, well_formed in Hv.
  cbn [category document_type year number lang_and_version authority] in *.
  assert (token cat = true) as Tcat
    by (do 7 (apply andb_true_iff in Hv as [Hv _]); exact Hv).
  repeat (apply andb_true_iff in Hv as [Hv ?]).
  match goal with H : bool_decide _ = true |- _ =>
    apply bool_decide_eq_true in H; rename H into Hcat end.
  assert (forall seg T, token seg = true ->
            startswith "finlex/avoindata/v1" T = false ->
            contains "/finlex/avoindata/v1" T = false ->
            startswith "finlex/avoindata/v1" (seg +:+ String "/" T) = false ->
            contains "/finlex/avoindata/v1"
              ("/akn/fi/" +:+ seg +:+ String "/" T) = false) as Hpre.
  { intros seg T [_ Hseg]%token_inv S1 S2 S3.
    change ("/akn/fi/" +:+ seg +:+ String "/" T)
      with (String "/" ("akn" +:+ String "/" ("fi" +:+ String "/" (seg +:+ String "/" T)))).
    change (contains "/finlex/avoindata/v1" (String "/" ?x))
      with (startswith "finlex/avoindata/v1" x || contains "/finlex/avoindata/v1" x).
    rewrite (contains_skip_segment _ "akn") by reflexivity.
    rewrite (contains_skip_segment _ "fi") by reflexivity.
    rewrite (contains_skip_segment _ seg) by assumption.
    rewrite S1, S2, S3. reflexivity. }
  unfold build_api_path. cbn [authority category document_type year number lang_and_version].
  destruct auth as [a|].
  - match goal with H : _ && _ = true |- _ => apply andb_true_iff in H as [Ha Hty] end.
    rewrite (truthy_token a Ha).
    apply String.eqb_eq in Hty. subst ty.
    destruct (base_not_in_tail a yr num lang) as [B1 B2]; try assumption.
    apply (Hpre cat ("authority-regulation" +:+ String "/"
                       (a +:+ String "/" (yr +:+ String "/" (num +:+ String "/" lang))))).
    + assumption.
    + reflexivity.
    + rewrite (contains_skip_segment _ "authority-regulation") by reflexivity.
      now rewrite B1, B2.
    + repeat (apply elem_of_cons in Hcat as [-> | Hcat]); try reflexivity.
      now apply elem_of_nil in Hcat.
  - cbn [truthy].
    destruct (base_not_in_tail ty yr num lang) as [B1 B2]; try assumption.
    apply (Hpre cat (ty +:+ String "/" (yr +:+ String "/" (num +:+ String "/" lang))));
      try assumption.
    repeat (apply elem_of_cons in Hcat as [-> | Hcat]); try reflexivity.
    now apply elem_of_nil in Hcat.
Qed.

(** X3: the address under which the client fetches a document resolves back
    to the document: for valid coordinates whose fields have none of the
    marks [% ? #], tab, newline or carriage return, whose language has no
    semicolon, and whose category is [doc] when they carry an authority,
    [parse_akn_uri] of the base address followed by the API path returns the
    coordinates. *)
Theorem address_roundtrip (c : DocumentInfo) :
  valid_coords c = true ->
  (is_Some (authority c) -> category c = "doc") ->
  survives_url c = true ->
  parse_akn_uri (Http.url_of (build_api_path c)) = Returns (Some c).
Proof.
  intros Hv Hdoc [Hmarks Hsemi]%andb_true_iff.
  assert (Http.url_of (build_api_path c) = Http.BASE_URL +:+ build_api_path c) as ->.
  { unfold Http.url_of, build_api_path. now destruct (truthy (authority c)). }
  assert (token (lang_and_version c) = true) as Hlang.
  { unfold valid_coords, well_formed in Hv.
    repeat (apply andb_true_iff in Hv as [Hv ?]). assumption. }
  apply token_inv in Hlang as [_ Hlang].
  assert (exists a, build_api_path c = a +:+ String "/" (lang_and_version c)) as [a Ea].
  { unfold build_api_path. destruct (truthy (authority c)) as [au|].
    - exists ("/akn/fi/" +:+ category c +:+ "/" +:+ document_type c +:+ "/" +:+ au +:+ "/"
              +:+ year c +:+ "/" +:+ number c).
      rewrite !append_assoc. reflexivity.
    - exists ("/akn/fi/" +:+ category c +:+ "/" +:+ document_type c +:+ "/"
              +:+ year c +:+ "/" +:+ number c).
      rewrite !append_assoc. reflexivity. }
  unfold parse_akn_uri.
  pose proof (base_not_in_api_path c Hv) as Hbase.
  pose proof (build_api_path_forallb
                (fun ch => negb (existsb (Ascii.eqb ch) url_marks)) c eq_refl Hmarks) as Hm.
  rewrite Ea in Hbase, Hm |- *.
  rewrite (path_of_address a (lang_and_version c) Hm Hlang); [| | exact Hbase].
  - rewrite <- Ea. now rewrite (match_built_path c Hv Hdoc).
  - revert Hsemi. unfold free_of. apply forallb_str_impl. intros ch Hch.
    cbn [existsb] in Hch. rewrite orb_false_r in Hch. now rewrite Ascii.eqb_sym.
Qed.

Lemma address_roundtrip_witness :
  let c := {| category := "doc"; document_type := "authority-regulation"; year := "1996";
              number := "32082"; lang_and_version := "fin@";
              authority := Some "metsahallitus" |} in
  Http.url_of (build_api_path c)
  =
      "https://opendata.finlex.fi/finlex/avoindata/v1/akn/fi/doc/authority-regulation/metsahallitus/1996/32082/fin@"
  /\ parse_akn_uri (Http.url_of (build_api_path c)) = Returns (Some c).
Proof.
  intros c. split; [reflexivity |].
  apply address_roundtrip; [reflexivity | intros _; reflexivity | reflexivity].
Defined.

End AddressRoundTrip.

(** ** More on the lister *)

Section ListerTrace.
Import Py Client Listing Spec Extra.





End ListerTrace.

Section ListerBounds.
Import Py Client Listing Spec Extra.

(** With [max_pages] set to [m], the loop from page [p] stops within
    [m - p + 1] pages. *)
Lemma list_loop_within_max_pages (fuel : nat) (t : Transport) (config : ListConfig)
    (path : string) (m p : Z) (sent : list Request) (items : list ListItem) :
  max_pages config = Some m -> 0 < m -> 1 <= p <= m + 1 ->
  (Z.to_nat (m - p + 1) < fuel)%nat ->
  let run := list_loop fuel t config path p sent items in
  ending run <> StillRunning
  /\ (length (Listing.log run) <= length sent + Z.to_nat (m - p + 1))%nat.
Proof.
  intros Hm Hpos. cbv zeta. revert p sent items.
  assert (forall q, past_max_pages config q = (m <? q)) as Hpast.
  { intros q. unfold past_max_pages, truthy_int. rewrite Hm.
    destruct (m =? 0) eqn:E; [apply Z.eqb_eq in E; lia | reflexivity]. }
  induction fuel as [|fuel IH]; intros p sent items Hp Hfuel; [lia |].
  cbn [list_loop]. rewrite Hpast. destruct (m <? p) eqn:E.
  - cbn. split; [discriminate | lia].
  - apply Z.ltb_ge in E. unfold get_json, get. cbv zeta.
    assert (Z.to_nat (m - p + 1) = S (Z.to_nat (m - (p + 1) + 1))) as En by lia.
    destruct (t sent _) as [response | e];
      [| cbn; rewrite length_app; cbn; split; [discriminate | lia]].
    destruct (negb (status_code response =? 200));
      [cbn; rewrite length_app; cbn; split; [discriminate | lia] |].
    destruct (json response) as [[|item rest] |];
      try (cbn; rewrite length_app; cbn; split; [discriminate | lia]).
    destruct (Z.of_nat (length (item :: rest)) <? limit config);
      [cbn [ending Listing.log]; rewrite length_app; cbn [length]; split;
       [discriminate | lia] |].
    match goal with
    | |- context [list_loop fuel t config path (p + 1) ?s ?i] =>
        destruct (IH (p + 1) s i) as [H1 H2]; [lia | lia |]
    end.
    split; [exact H1 |]. rewrite length_app in H2. cbn [length] in H2. lia.
Qed.

(** X6: with [max_pages] set to a positive [m], the lister comes to an end
    after at most [m] requests, whatever the transport answers: a loop of
    more than [m] turns never runs out of turns. *)
Theorem lister_stops_at_max_pages (fuel : nat) (t : Transport) (sent : list Request)
    (config : ListConfig) (m : Z) :
  max_pages config = Some m -> 0 < m -> (Z.to_nat m < fuel)%nat ->
  ending (list_documents fuel t sent config) <> StillRunning
  /\ (length (Listing.log (list_documents fuel t sent config))
      <= length sent + Z.to_nat m)%nat.
Proof.
  intros Hm Hpos Hfuel. unfold list_documents.
  destruct (list_loop_within_max_pages fuel t config
              (Urls.build_list_path (category config) (document_type config))
              m 1 sent [] Hm Hpos) as [H1 H2]; [lia | |].
  - replace (m - 1 + 1) with m by lia. exact Hfuel.
  - replace (m - 1 + 1) with m in H2 by lia. now split.
Qed.

Lemma lister_stops_at_max_pages_witness :
  let item : gmap string string := {["akn_uri" := "/akn/fi/act/statute/2024/1/fin@"]} in
  let config := {| category := "act"; document_type := "statute";
                   lang_and_version := "fin@"; start_year := None; end_year := None;
                   limit := 2; max_pages := Some 3 |} in
  let run := list_documents 4 (same_page [item; item]) [] config in
  ending run = PageLimitReached /\ length (yielded run) = 6%nat
  /\ ending run <> StillRunning /\ (length (Listing.log run) <= 0 + 3)%nat.
Proof.
  intros item config run. split; [reflexivity | split; [reflexivity |]].
  apply (lister_stops_at_max_pages 4 (same_page [item; item]) [] config 3);
    [reflexivity | lia | cbn; lia].
Defined.

Lemma list_loop_max_pages_zero (fuel : nat) (t : Transport) (config : ListConfig)
    (path : string) (p : Z) (sent : list Request) (items : list ListItem) :
  list_loop fuel t (with_max_pages (Some 0) config) path p sent items
  = list_loop fuel t (with_max_pages None config) path p sent items.
Proof.
  revert p sent items. induction fuel as [|fuel IH]; intros p sent items; [reflexivity |].
  cbn [list_loop].
  change (past_max_pages (with_max_pages (Some 0) config) p) with false.
  change (past_max_pages (with_max_pages None config) p) with false.
  cbv iota.
  change (page_params (with_max_pages (Some 0) config) p)
    with (page_params (with_max_pages None config) p).
  destruct (get_json t sent path _) as [[response | e] sent']; [| reflexivity].
  destruct (negb (status_code response =? 200)); [reflexivity |].
  destruct (json response) as [[|item rest] |]; try reflexivity.
  change (limit (with_max_pages (Some 0) config)) with (limit (with_max_pages None config)).
  destruct (_ <? _); [reflexivity | apply IH].
Qed.

(** X7: [max_pages] is read by its truth value: a [max_pages] of 0 does not
    mean "no page" but runs exactly like no [max_pages] at all; a negative
    [max_pages] ends the listing before the first request. *)
Theorem lister_max_pages_zero_and_negative :
  (forall fuel t sent config,
      list_documents fuel t sent (with_max_pages (Some 0) config)
      = list_documents fuel t sent (with_max_pages None config))
  /\ (forall fuel t sent config m, m < 0 ->
         list_documents (S fuel) t sent (with_max_pages (Some m) config)
         = {| yielded := []; Listing.log := sent; ending := PageLimitReached |}).
Proof.
  split.
  - intros. apply list_loop_max_pages_zero.
  - intros fuel t sent config m Hm. unfold list_documents. cbn [list_loop].
    assert (past_max_pages (with_max_pages (Some m) config) 1 = true) as ->; [| reflexivity].
    unfold past_max_pages, truthy_int. cbn [max_pages with_max_pages].
    destruct (m =? 0) eqn:E; [apply Z.eqb_eq in E; lia |]. apply Z.ltb_lt. lia.
Qed.

End ListerBounds.

(** ** More on the downloader *)

Section DownloaderRequests.
Import Py Pathlib Client Fs Etree Downloader Spec Extra.

Context (F : FileSystem) (t : Transport) (fromstring : string -> option Element).

Lemma fetch_into_sent (accept url : string) (dest : PurePath) (w : World F)
    (files : list string) :
  sent (fst (fetch_into F t accept url dest w files))
  = sent w ++ [{| req_path := url; req_params := None; req_accept := accept |}].
Proof.
  unfold fetch_into, get. cbv zeta.
  destruct (t (sent w) _) as [response | e]; [| reflexivity].
  destruct (status_code response =? 200); [| reflexivity].
  now destruct (write_bytes F (disk w) dest (content response)) as [[e|] d].
Qed.

Lemma below_append (path rest accept : string) :
  below path {| req_path := path +:+ "/" +:+ rest; req_params := None;
                req_accept := accept |} = true.
Proof.
  unfold below. cbn [req_path]. rewrite <- append_assoc. apply startswith_append.
Qed.

Lemma fetch_media_links_sent (api_path : string) (media_dir : PurePath)
    (links : list string) (w : World F) (files : list string) :
  exists more,
    sent (fst (fetch_media_links F t api_path media_dir links w files)) = sent w ++ more
    /\ forallb (below api_path) more = true
    /\ length more = length links.
Proof.
  unfold fetch_media_links. revert w files.
  induction links as [|link links IH]; intros w files.
  - exists []. now rewrite app_nil_r.
  - cbn [fold_left].
    pose proof (fetch_into_sent "application/xml" (api_path +:+ "/" +:+ link)
                  (joinpath media_dir (parse_arg (name (parse_arg link)))) w files) as E.
    destruct (fetch_into F t _ _ _ w files) as [w1 files1]. cbn [fst] in E.
    destruct (IH w1 files1) as (more & Emore & Hbelow & Hlen).
    eexists (_ :: more). rewrite Emore, E, <- app_assoc. split; [reflexivity |].
    cbn [forallb length]. now rewrite below_append, Hbelow, Hlen.
Qed.

(** The requests of the companions lie below the address of the document,
    and there is at most one for the PDF, one for the package, and one for
    each media link. *)
Lemma fetch_companions_sent (options : DownloadOptions) (api_path : string)
    (doc_dir : PurePath) (xml : string) (w : World F) (files : list string) :
  exists more,
    sent (snd (fetch_companions F t fromstring options api_path doc_dir xml w files))
    = sent w ++ more
    /\ forallb (below api_path) more = true
    /\ (length more <= 2 + length (extract_media_links fromstring xml))%nat.
Proof.
  unfold fetch_companions.
  assert (exists more1 w1 files1,
             (if fetch_pdf options
              then fetch_into F t "application/pdf" (api_path +:+ "/main.pdf")
                     (joinpath doc_dir (parse_arg "main.pdf")) w files
              else (w, files)) = (w1, files1)
             /\ sent w1 = sent w ++ more1 /\ forallb (below api_path) more1 = true
             /\ (length more1 <= 1)%nat) as (more1 & w1 & files1 & -> & E1 & B1 & L1).
  { destruct (fetch_pdf options).
    - pose proof (fetch_into_sent "application/pdf" (api_path +:+ "/main.pdf")
                    (joinpath doc_dir (parse_arg "main.pdf")) w files) as E.
      destruct (fetch_into F t _ _ _ w files) as [w1 files1]. cbn [fst] in E.
      eexists [_], w1, files1. split; [reflexivity |]. split; [exact E |].
      split; [| cbn; lia].
      cbn [forallb]. now rewrite (below_append api_path "main.pdf").
    - exists [], w, files. rewrite app_nil_r. repeat split; cbn; lia. }
  assert (exists more2 w2 files2,
             (if fetch_zip options
              then fetch_into F t "application/zip" (api_path +:+ "/main.akn")
                     (joinpath doc_dir (parse_arg "main.zip")) w1 files1
              else (w1, files1)) = (w2, files2)
             /\ sent w2 = sent w1 ++ more2 /\ forallb (below api_path) more2 = true
             /\ (length more2 <= 1)%nat) as (more2 & w2 & files2 & -> & E2 & B2 & L2).
  { destruct (fetch_zip options).
    - pose proof (fetch_into_sent "application/zip" (api_path +:+ "/main.akn")
                    (joinpath doc_dir (parse_arg "main.zip")) w1 files1) as E.
      destruct (fetch_into F t _ _ _ w1 files1) as [w2 files2]. cbn [fst] in E.
      eexists [_], w2, files2. split; [reflexivity |]. split; [exact E |].
      split; [| cbn; lia].
      cbn [forallb]. now rewrite (below_append api_path "main.akn").
    - exists [], w1, files1. rewrite app_nil_r. repeat split; cbn; lia. }
  assert (sent w2 = sent w ++ (more1 ++ more2)) as E12
    by now rewrite E2, E1, <- app_assoc.
  assert (forallb (below api_path) (more1 ++ more2) = true) as B12
    by now rewrite forallb_app, B1, B2.
  assert (length (more1 ++ more2) <= 2)%nat as L12 by (rewrite length_app; lia).
  destruct (fetch_media options);
    [| exists (more1 ++ more2); cbn [snd]; repeat split; [assumption .. | lia]].
  destruct (extract_media_links fromstring xml) as [|link links] eqn:Elinks;
    [exists (more1 ++ more2); cbn [snd]; repeat split; [assumption .. | lia] |].
  destruct (mkdir F (disk w2) _ false true) as [[e|] d].
  - exists (more1 ++ more2). cbn [snd sent]. repeat split; [assumption .. | lia].
  - destruct (fetch_media_links_sent api_path (joinpath doc_dir (parse_arg "media"))
                (link :: links) (Build_World F d (sent w2)) files2)
      as (more3 & E3 & B3 & L3).
    destruct (fetch_media_links F t _ _ _ _ files2) as [w3 files3].
    cbn [fst snd sent] in *. exists ((more1 ++ more2) ++ more3).
    rewrite E3, E12, <- app_assoc. split; [reflexivity |].
    rewrite forallb_app, B12, B3. split; [reflexivity |].
    rewrite length_app, L3. lia.
Qed.

(** A download only adds to the requests sent. *)
Lemma download_sent_extends (now uri : string) (options : DownloadOptions) (w : World F) :
  exists new,
    sent (snd (download_document F t fromstring now uri options w)) = sent w ++ new.
Proof.
  unfold download_document.
  destruct (Urls.parse_akn_uri uri) as [[info|] | e];
    [| exists []; now rewrite app_nil_r ..].
  destruct (_ && _); [exists []; now rewrite app_nil_r |].
  destruct (dry_run options); [exists []; now rewrite app_nil_r |].
  destruct (mkdir F (disk w) _ true true) as [[e|] d];
    [exists []; cbn [snd sent]; now rewrite app_nil_r |].
  unfold get_xml, get. cbv zeta.
  destruct (t (sent w) _) as [response | e]; [| now eexists [_]].
  destruct (negb (status_code response =? 200)); [now eexists [_] |].
  destruct (write_bytes F d _ (content response)) as [[e|] d']; [now eexists [_] |].
  match goal with
  | |- context [fetch_companions F t fromstring options ?a ?dd ?x ?ww ?ff] =>
      destruct (fetch_companions_sent options a dd x ww ff) as (more & E & _);
      destruct (fetch_companions F t fromstring options a dd x ww ff) as [[files | e] w']
  end; cbn [snd sent] in *; eexists (_ :: more); now rewrite E, <- app_assoc.
Qed.

(** X8: the requests of a download are added to those sent before; there is
    none at all unless the address resolves, and then either none or the
    one for the document itself, without parameters, followed by requests
    below its address only. *)
Theorem requests_stay_below_document (now uri : string) (options : DownloadOptions)
    (w : World F) :
  exists new,
    sent (snd (download_document F t fromstring now uri options w)) = sent w ++ new
    /\ match Urls.parse_akn_uri uri with
       | Returns (Some info) =>
           new = []
           \/ exists more, new = primary_request info :: more
                           /\ forallb (below (Urls.build_api_path info)) more = true
       | _ => new = []
       end.
Proof.
  unfold download_document.
  destruct (Urls.parse_akn_uri uri) as [[info|] | e];
    [| exists []; now rewrite app_nil_r ..].
  destruct (_ && _); [exists []; rewrite app_nil_r; now split; [| left] |].
  destruct (dry_run options); [exists []; rewrite app_nil_r; now split; [| left] |].
  destruct (mkdir F (disk w) _ true true) as [[e|] d];
    [exists []; cbn [snd sent]; rewrite app_nil_r; now split; [| left] |].
  unfold get_xml, get. cbv zeta. fold (primary_request info).
  destruct (t (sent w) (primary_request info)) as [response | e];
    [| exists [primary_request info]; cbn [snd sent]; split;
       [reflexivity | right; now exists []]].
  destruct (negb (status_code response =? 200));
    [exists [primary_request info]; cbn [snd sent]; split;
     [reflexivity | right; now exists []] |].
  destruct (write_bytes F d _ (content response)) as [[e|] d'];
    [exists [primary_request info]; cbn [snd sent]; split;
     [reflexivity | right; now exists []] |].
  match goal with
  | |- context [fetch_companions F t fromstring options ?a ?dd ?x ?ww ?ff] =>
      destruct (fetch_companions_sent options a dd x ww ff) as (more & E & B & _);
      destruct (fetch_companions F t fromstring options a dd x ww ff) as [[files | e] w']
  end; cbn [snd sent] in *; exists (primary_request info :: more);
    (split; [now rewrite E, <- app_assoc | right; now exists more]).
Qed.

End DownloaderRequests.

Section DownloaderOutcomes.
Import Py Pathlib Client Fs Etree Downloader Spec Extra.

Context (F : FileSystem) (t : Transport) (fromstring : string -> option Element).

(** The three kinds of result. *)
Lemma download_result_cases (now uri : string) (options : DownloadOptions)
    (w : World F) (r : DownloadResult) :
  fst (download_document F t fromstring now uri options w) = Returns r ->
  akn_uri r = uri /\ timestamp r = now
  /\ (status r = "error" /\ is_Some (error r) /\ files r = []
      \/ status r = "dry-run" /\ error r = None /\ files r = []
      \/ (status r = "skipped" \/ status r = "success")
         /\ error r = None /\ files r <> []).
Proof.
  unfold download_document.
  destruct (Urls.parse_akn_uri uri) as [[info|] | e]; [| | cbn [fst]; discriminate].
  2: { cbn [fst]. intros [= <-]. cbn. eauto 7. }
  destruct (_ && _).
  { cbn [fst]. intros [= <-]. cbn. do 2 (split; [reflexivity |]). right. right. now auto. }
  destruct (dry_run options).
  { cbn [fst]. intros [= <-]. cbn. now auto 7. }
  destruct (mkdir F (disk w) _ true true) as [[e|] d]; [cbn [fst]; discriminate |].
  destruct (get_xml t (sent w) _) as [[response | e] sent'].
  2: { cbn [fst]. intros [= <-]. cbn. eauto 7. }
  destruct (negb (status_code response =? 200)).
  { cbn [fst]. intros [= <-]. cbn. eauto 7. }
  destruct (write_bytes F d _ (content response)) as [[e|] d'].
  { cbn [fst]. intros [= <-]. cbn. eauto 7. }
  match goal with
  | |- context [fetch_companions F t fromstring options ?a ?dd ?x ?ww ?ff] =>
      destruct (fetch_companions_cases F t fromstring options a dd x ww ff)
        as [(extra & w' & ->) | (_ & e & d0 & w' & _ & ->)]
  end; [| cbn [fst]; discriminate].
  cbn [fst]. intros [= <-]. cbn. do 2 (split; [reflexivity |]). right. right. now auto.
Qed.

(** X9: a result that [download_document] returns carries the address and
    the time it was given and one of the four statuses; it has an error
    message exactly when the status is [error]; it names no file under
    [error] and [dry-run], and at least the primary one otherwise. *)
Theorem download_result_is_coherent (now uri : string) (options : DownloadOptions)
    (w : World F) (r : DownloadResult) :
  fst (download_document F t fromstring now uri options w) = Returns r ->
  akn_uri r = uri /\ timestamp r = now
  /\ In (status r) outcomes
  /\ (is_Some (error r) <-> status r = "error")
  /\ (files r = [] <-> status r = "error" \/ status r = "dry-run").
Proof.
  intros H. destruct (download_result_cases now uri options w r H) as (Hu & Hn & Hs).
  split; [exact Hu |]. split; [exact Hn |]. unfold outcomes.
  destruct Hs as [(Es & He & Ef) | [(Es & Ee & Ef) | (Hs & Ee & Hf)]].
  - rewrite Es, Ef. cbn. split; [auto 6 |]. split; tauto.
  - rewrite Es, Ee, Ef. cbn. split; [auto 6 |]. split; [| tauto].
    split; [intros [x Hx]; discriminate | discriminate].
  - rewrite Ee. split; [destruct Hs as [-> | ->]; cbn; auto 6 |].
    split; [split; [intros [x Hx]; discriminate
                   | intros E; rewrite E in Hs; destruct Hs; discriminate] |].
    split; [tauto | intros [E | E]; rewrite E in Hs; destruct Hs; discriminate].
Qed.


End DownloaderOutcomes.

Section DownloaderConverse.
Import Py Pathlib Client Fs Etree Downloader Spec Extra.

Context (F : FileSystem) (t : Transport) (fromstring : string -> option Element).

(** X11: the status [success] is given only after the primary document has
    been stored: the address resolved, the directory could be made, the
    request for the document was answered with status 200, the body was
    written to [main.xml], and that file is the first one named. *)
Theorem success_means_primary_stored (now uri : string) (options : DownloadOptions)
    (w : World F) (r : DownloadResult) :
  fst (download_document F t fromstring now uri options w) = Returns r ->
  status r = "success" ->
  exists info response d1 d2 extra,
    Urls.parse_akn_uri uri = Returns (Some info)
    /\ dry_run options = false
    /\ mkdir F (disk w) (joinpath (output_dir options) (Urls.folder_path info)) true true
       = (None, d1)
    /\ t (sent w) (primary_request info) = Returns response
    /\ status_code response = 200
    /\ write_bytes F d1 (primary_path options info) (content response) = (None, d2)
    /\ files r = Pathlib.str (primary_path options info) :: extra.
Proof.
  unfold download_document.
  destruct (Urls.parse_akn_uri uri) as [[info|] | e];
    [| cbn [fst]; intros [= <-]; discriminate | cbn [fst]; discriminate].
  destruct (_ && _); [cbn [fst]; intros [= <-]; discriminate |].
  destruct (dry_run options); [cbn [fst]; intros [= <-]; discriminate |].
  destruct (mkdir F (disk w) _ true true) as [[e|] d1] eqn:Emk; [cbn [fst]; discriminate |].
  unfold get_xml, get. cbv zeta. fold (primary_request info).
  destruct (t (sent w) (primary_request info)) as [response | e] eqn:Et;
    [| cbn [fst]; intros [= <-]; discriminate].
  destruct (status_code response =? 200) eqn:Estatus; cbn [negb];
    [| cbn [fst]; intros [= <-]; discriminate].
  fold (primary_path options info).
  destruct (write_bytes F d1 (primary_path options info) (content response))
    as [[e|] d2] eqn:Ewr; [cbn [fst]; intros [= <-]; discriminate |].
  match goal with
  | |- context [fetch_companions F t fromstring options ?a ?dd ?x ?ww ?ff] =>
      destruct (fetch_companions_cases F t fromstring options a dd x ww ff)
        as [(extra & w' & ->) | (_ & e & d0 & w' & _ & ->)]
  end; [| cbn [fst]; discriminate].
  cbn [fst]. intros [= <-] _. exists info, response, d1, d2, extra.
  apply Z.eqb_eq in Estatus. now repeat split.
Qed.

(** X12: a result with status [error] names no file, and by then at most one
    request has been sent: after a primary document that could not be
    fetched or stored, no companion is asked for. *)
Theorem error_result_stops_after_primary (now uri : string) (options : DownloadOptions)
    (w : World F) (r : DownloadResult) :
  fst (download_document F t fromstring now uri options w) = Returns r ->
  status r = "error" ->
  files r = []
  /\ (sent (snd (download_document F t fromstring now uri options w)) = sent w
      \/ exists info,
          Urls.parse_akn_uri uri = Returns (Some info)
          /\ sent (snd (download_document F t fromstring now uri options w))
             = sent w ++ [primary_request info]).
Proof.
  unfold download_document.
  destruct (Urls.parse_akn_uri uri) as [[info|] | e];
    [| cbn; intros [= <-] _; now auto | cbn [fst]; discriminate].
  destruct (_ && _); [cbn [fst]; intros [= <-]; discriminate |].
  destruct (dry_run options); [cbn [fst]; intros [= <-]; discriminate |].
  destruct (mkdir F (disk w) _ true true) as [[e|] d1]; [cbn [fst]; discriminate |].
  unfold get_xml, get. cbv zeta. fold (primary_request info).
  destruct (t (sent w) (primary_request info)) as [response | e];
    [| cbn; intros [= <-] _; split; [reflexivity | right; now exists info]].
  destruct (negb (status_code response =? 200));
    [cbn; intros [= <-] _; split; [reflexivity | right; now exists info] |].
  destruct (write_bytes F d1 _ (content response)) as [[e|] d2];
    [cbn; intros [= <-] _; split; [reflexivity | right; now exists info] |].
  match goal with
  | |- context [fetch_companions F t fromstring options ?a ?dd ?x ?ww ?ff] =>
      destruct (fetch_companions_cases F t fromstring options a dd x ww ff)
        as [(extra & w' & ->) | (_ & e & d0 & w' & _ & ->)]
  end; cbn [fst]; [intros [= <-]; discriminate | discriminate].
Qed.

End DownloaderConverse.

Section DownloaderWitnesses.
Import Py Pathlib Client Fs Etree Downloader Spec Extra.

Lemma download_result_is_coherent_witness :
  let options := {| output_dir := parse_arg "out"; fetch_pdf := true; fetch_zip := false;
                    fetch_media := false; force := false; dry_run := false |} in
  let w : World MemFs := Build_World MemFs (∅ : gmap string (option string)) [] in
  let uri := "/akn/fi/act/statute/2024/123/fin@" in
  let r := {| akn_uri := uri; status := "success"; timestamp := "2026-01-01T00:00:00";
              files := ["out/act/statute/2024/123/fin@/main.xml";
                        "out/act/statute/2024/123/fin@/main.pdf"];
              error := None |} in
  akn_uri r = uri /\ timestamp r = "2026-01-01T00:00:00"
  /\ In (status r) outcomes
  /\ (is_Some (error r) <-> status r = "error")
  /\ (files r = [] <-> status r = "error" \/ status r = "dry-run").
Proof.
  intros options w uri r.
  apply (download_result_is_coherent MemFs (always 200 "<akomaNtoso/>") no_parser
           "2026-01-01T00:00:00" uri options w r).
  reflexivity.
Defined.


Lemma success_means_primary_stored_witness :
  let options := {| output_dir := parse_arg "out"; fetch_pdf := false; fetch_zip := true;
                    fetch_media := false; force := true; dry_run := false |} in
  let w : World MemFs := Build_World MemFs (∅ : gmap string (option string)) [] in
  let uri := "/akn/fi/act/statute/2024/123/fin@" in
  let r := {| akn_uri := uri; status := "success"; timestamp := "2026-01-01T00:00:00";
              files := ["out/act/statute/2024/123/fin@/main.xml";
                        "out/act/statute/2024/123/fin@/main.zip"];
              error := None |} in
  let t := always 200 "<akomaNtoso/>" in
  exists info response d1 d2 extra,
    Urls.parse_akn_uri uri = Returns (Some info)
    /\ dry_run options = false
    /\ mkdir MemFs (disk w) (joinpath (output_dir options) (Urls.folder_path info)) true true
       = (None, d1)
    /\ t (sent w) (primary_request info) = Returns response
    /\ status_code response = 200
    /\ write_bytes MemFs d1 (primary_path options info) (content response) = (None, d2)
    /\ files r = Pathlib.str (primary_path options info) :: extra.
Proof.
  intros options w uri r t.
  apply (success_means_primary_stored MemFs t no_parser "2026-01-01T00:00:00" uri
           options w r); reflexivity.
Defined.

Lemma error_result_stops_after_primary_witness :
  let options := {| output_dir := parse_arg "out"; fetch_pdf := true; fetch_zip := true;
                    fetch_media := true; force := false; dry_run := false |} in
  let w : World MemFs := Build_World MemFs (∅ : gmap string (option string)) [] in
  let uri := "/akn/fi/act/statute/2024/123/fin@" in
  let r := {| akn_uri := uri; status := "error"; timestamp := "2026-01-01T00:00:00";
              files := []; error := Some "HTTP 404 fetching XML" |} in
  let run := download_document MemFs (always 404 "") sample_parser
               "2026-01-01T00:00:00" uri options w in
  files r = []
  /\ (sent (snd run) = sent w
      \/ exists info,
          Urls.parse_akn_uri uri = Returns (Some info)
          /\ sent (snd run) = sent w ++ [primary_request info]).
Proof.
  intros options w uri r run.
  apply (error_result_stops_after_primary MemFs (always 404 "") sample_parser
           "2026-01-01T00:00:00" uri options w r); reflexivity.
Defined.

End DownloaderWitnesses.

(** ** More on the checkpoint *)

Section CheckpointOps.
Import Py Pathlib Fs State Extra.

Context (F : FileSystem) (dumps : gmap string Json -> string).

Local Ltac sets_agree :=
  apply set_eq; intros ?;
  rewrite ?elem_of_union, ?elem_of_list_to_set, ?elem_of_app, ?elem_of_union,
    ?elem_of_list_to_set, ?list_elem_of_singleton, ?elem_of_singleton, ?elem_of_nil,
    ?elem_of_empty;
  tauto.

Lemma save_fields (now : string) (self : StateManager) (d : Fs.state F) :
  let self' := snd (fst (save F dumps now self d)) in
  state_file self' = state_file self
  /\ completed_uris (state self') = completed_uris (state self)
  /\ started_at (state self') = started_at (state self)
  /\ current_page (state self') = current_page (state self)
  /\ current_category (state self') = current_category (state self)
  /\ current_document_type (state self') = current_document_type (state self)
  /\ last_uri (state self') = last_uri (state self)
  /\ updated_at (state self') = Some now.
Proof.
  unfold save. cbn.
  destruct (mkdir F d _ true true) as [[e|] d']; [now repeat split |].
  destruct (write_bytes F d' _ _). now repeat split.
Qed.

Lemma apply_op_fields (now : string) (op : Op) (self : StateManager) (d : Fs.state F) :
  let self' := snd (fst (apply_op F dumps now op self d)) in
  state_file self' = state_file self
  /\ completed_uris (state self')
     = list_to_set (marked [op]) ∪ completed_uris (state self)
  /\ started_at (state self')
     = match started_at (state self), op with
       | None, StartSession _ _ => Some now
       | a, _ => a
       end.
Proof.
  destruct op as [uri | page | category document_type |]; cbn [apply_op marked omap].
  - unfold mark_completed.
    destruct (save_fields now
                (with_state self
                   {| current_category := current_category (state self);
                      current_document_type := current_document_type (state self);
                      current_page := current_page (state self); last_uri := Some uri;
                      completed_uris := {[uri]} ∪ completed_uris (state self);
                      started_at := started_at (state self);
                      updated_at := updated_at (state self) |}) d)
      as (H1 & H2 & H3 & _).
    cbv zeta in *. rewrite H1, H2, H3. cbn. split; [reflexivity |]. split.
    + sets_agree.
    + now destruct (started_at (state self)).
  - unfold set_page.
    match goal with
    | |- context [save F dumps now ?s d] =>
        destruct (save_fields now s d) as (H1 & H2 & H3 & _)
    end.
    cbv zeta in *. rewrite H1, H2, H3. cbn. split; [reflexivity |]. split.
    + sets_agree.
    + now destruct (started_at (state self)).
  - unfold start_session.
    match goal with
    | |- context [save F dumps now ?s d] =>
        destruct (save_fields now s d) as (H1 & H2 & H3 & _)
    end.
    cbv zeta in *. rewrite H1, H2, H3. cbn. split; [reflexivity |]. split.
    + sets_agree.
    + now destruct (started_at (state self)).
  - destruct (save_fields now self d) as (H1 & H2 & H3 & _).
    cbv zeta in *. rewrite H1, H2, H3. cbn. split; [reflexivity |]. split.
    + sets_agree.
    + now destruct (started_at (state self)).
Qed.

Lemma marked_cons (op : Op) (ops : list Op) : marked (op :: ops) = marked [op] ++ marked ops.
Proof. unfold marked. cbn [omap]. now destruct op. Qed.

(** X13: whatever the operations on the checkpoint and whether or not they
    could be saved, the file stays the same, the completed addresses are
    those there before and those marked (none is ever removed), and the
    start time, once set, is kept. *)
Theorem checkpoint_only_grows (clock : nat -> string) (k : nat) (ops : list Op)
    (self : StateManager) (d : Fs.state F) :
  let self' := fst (apply_ops F dumps clock k ops self d) in
  state_file self' = state_file self
  /\ completed_uris (state self') = completed_uris (state self) ∪ list_to_set (marked ops)
  /\ match started_at (state self) with
     | Some a => started_at (state self') = Some a
     | None => True
     end.
Proof.
  cbv zeta. revert k self d. induction ops as [|op ops IH]; intros k self d.
  - cbn [apply_ops fst marked omap]. split; [reflexivity |]. split.
    + sets_agree.
    + now destruct (started_at (state self)).
  - cbn [apply_ops]. pose proof (apply_op_fields (clock k) op self d) as H.
    destruct (apply_op F dumps (clock k) op self d) as [[e self1] d1].
    cbv zeta in H. cbn [fst snd] in H. destruct H as (H1 & H2 & H3).
    destruct (IH (S k) self1 d1) as (I1 & I2 & I3).
    rewrite I1, H1, I2, H2, (marked_cons op ops). split; [reflexivity |]. split.
    + sets_agree.
    + destruct (started_at (state self)) as [a|]; [| exact I].
      rewrite H3 in I3. exact I3.
Qed.

(** X14: [start_session] does not touch the page: right after it the resume
    page of the session is the page stored before, by whichever session;
    after [set_page(p)] the resume page of the session is [p], and that of
    every other category or type is 1. *)
Theorem resume_page_follows_session (now1 now2 category document_type : string)
    (p : Z) (self : StateManager) (d : Fs.state F) :
  let started := start_session F dumps now1 category document_type self d in
  let paged := set_page F dumps now2 p (snd (fst started)) (snd started) in
  get_resume_page (snd (fst started)) category document_type = current_page (state self)
  /\ get_resume_page (snd (fst paged)) category document_type = p
  /\ (forall c t, get_resume_page (snd (fst paged)) c t
                  = if bool_decide (c = category /\ t = document_type) then p else 1).
Proof.
  cbv zeta. unfold start_session.
  match goal with
  | |- context [save F dumps now1 ?s d] =>
      destruct (save_fields now1 s d) as (_ & _ & _ & Hp & Hc & Ht & _);
      destruct (save F dumps now1 s d) as [[e1 self1] d1]
  end.
  cbv zeta in *. cbn [fst snd state with_state current_page current_category
                      current_document_type] in *.
  unfold set_page.
  match goal with
  | |- context [save F dumps now2 ?s d1] =>
      destruct (save_fields now2 s d1) as (_ & _ & _ & Hp2 & Hc2 & Ht2 & _);
      destruct (save F dumps now2 s d1) as [[e2 self2] d2]
  end.
  cbv zeta in *. cbn [fst snd state with_state current_page current_category
                      current_document_type] in *.
  assert (forall c t, get_resume_page self2 c t
                      = if bool_decide (c = category /\ t = document_type) then p else 1)
    as Hall.
  { intros c t. unfold get_resume_page. rewrite Hp2, Hc2, Ht2, Hc, Ht.
    destruct (decide (c = category)) as [-> | Hn];
      [destruct (decide (t = document_type)) as [-> | Hm] |].
    - now rewrite !bool_decide_eq_true_2 by (reflexivity || tauto).
    - rewrite (bool_decide_eq_false_2 (Some document_type = Some t)) by congruence.
      rewrite (bool_decide_eq_false_2 (category = category /\ t = document_type)) by tauto.
      now rewrite andb_false_r.
    - rewrite (bool_decide_eq_false_2 (Some category = Some c)) by congruence.
      now rewrite (bool_decide_eq_false_2 (c = category /\ t = document_type)) by tauto. }
  split; [| split; [| exact Hall]].
  - unfold get_resume_page. rewrite Hp, Hc, Ht.
    now rewrite !bool_decide_eq_true_2 by reflexivity.
  - rewrite Hall. now rewrite bool_decide_eq_true_2 by tauto.
Qed.

End CheckpointOps.

Section CheckpointOnDisk.
Import Py Pathlib Fs State Disk Reload Extra.

(** The disk in memory reads back what was written and forgets what was
    removed. *)
Lemma MemFs_reads_back : reads_back MemFs MemReader.
Proof.
  split.
  - intros d p data d'. cbn [write_bytes MemFs path_exists read_text MemReader].
    unfold mem_write_bytes, mem_read, is_dir, is_file.
    destruct (parts p) as [|x l] eqn:Eparts; [discriminate |].
    match goal with |- (if ?b then _ else _) = _ -> _ => destruct b end;
      [discriminate |].
    match goal with |- (if ?b then _ else _) = _ -> _ => destruct b end;
      [| discriminate].
    intros [= <-]. rewrite lookup_insert_eq. split; [apply orb_true_r | reflexivity].
  - intros d p d'. cbn [unlink MemReader path_exists MemFs]. unfold mem_unlink.
    destruct (is_file d p) eqn:Efile; [| discriminate]. intros [= <-].
    unfold is_dir, is_file in *. destruct (parts p) as [|x l]; [discriminate |].
    rewrite lookup_delete_eq. reflexivity.
Qed.

Context (F : FileSystem) (R : Reader F).
Context (dumps : gmap string Json -> string) (loads : string -> option (gmap string Json)).

Lemma save_manager (now : string) (self : StateManager) (d : Fs.state F) :
  snd (fst (save F dumps now self d))
  = with_state self
      {| current_category := current_category (state self);
         current_document_type := current_document_type (state self);
         current_page := current_page (state self); last_uri := last_uri (state self);
         completed_uris := completed_uris (state self);
         started_at := started_at (state self); updated_at := Some now |}.
Proof.
  unfold save. cbn [with_state state state_file].
  destruct (mkdir F d _ true true) as [[e|] d']; [reflexivity |].
  now destruct (write_bytes F d' _ _).
Qed.

(** X15: a checkpoint that could be written is read back as it was saved:
    on a disk that reads back what was written, with a reader that
    understands what the writer wrote, [load] on the same file after a
    [save] whose directory could be made and whose file could be written
    returns true and has the saved state, time stamp included. *)
Theorem saved_checkpoint_loads_back (now : string) (self other : StateManager)
    (d d1 : Fs.state F) :
  let saved := snd (fst (save F dumps now self d)) in
  reads_back F R ->
  loads (dumps (to_dict (state saved))) = Some (to_dict (state saved)) ->
  mkdir F d (parent (state_file self)) true true = (None, d1) ->
  fst (write_bytes F d1 (state_file self) (dumps (to_dict (state saved)))) = None ->
  state_file other = state_file self ->
  fst (fst (save F dumps now self d)) = None
  /\ load F R loads other (snd (save F dumps now self d))
     = LoadReturns true (with_state other (state saved))
  /\ completed_uris (state saved) = completed_uris (state self)
  /\ updated_at (state saved) = Some now.
Proof.
  cbv zeta. intros [Hread _] Hcodec Hmk Hwr Hfile.
  rewrite save_manager in Hcodec, Hwr |- *. cbn [state with_state] in Hcodec, Hwr |- *.
  unfold save. cbn [with_state state state_file]. rewrite Hmk.
  destruct (write_bytes F d1 (state_file self) _) as [e d2] eqn:Ewr.
  cbn [fst snd] in Hwr |- *. subst e.
  destruct (Hread _ _ _ _ Ewr) as [Hex Hrd].
  split; [reflexivity |]. split; [| now split].
  unfold load. rewrite Hfile, Hex. cbn [negb]. rewrite Hrd, Hcodec.
  unfold to_dict. rewrite dict_roundtrip; [reflexivity |]. intros u. apply elem_of_elements.
Qed.

(** X16: after [reset] nothing counts as completed, the manager is the one
    of a new start, and, when removing the file raised nothing on a disk
    that forgets what was removed, a [load] finds no checkpoint. *)
Theorem reset_forgets (self : StateManager) (d : Fs.state F) (uri : string) :
  reads_back F R ->
  let '(e, self', d') := reset F R self d in
  self' = new_manager (state_file self)
  /\ is_completed self' uri = false
  /\ (e = None -> load F R loads self' d' = LoadReturns false self').
Proof.
  intros [_ Hgone]. unfold reset. cbn [with_state state_file].
  destruct (path_exists F d (state_file self)) eqn:Eex.
  - destruct (unlink R d (state_file self)) as [e d'] eqn:Eun.
    split; [reflexivity |]. split; [reflexivity |]. intros ->.
    unfold load. cbn [state_file with_state]. now rewrite (Hgone _ _ _ Eun).
  - split; [reflexivity |]. split; [reflexivity |]. intros _.
    unfold load. cbn [state_file with_state]. now rewrite Eex.
Qed.

End CheckpointOnDisk.

Section CheckpointOnDiskWitnesses.
Import Py Pathlib Fs State Disk Reload Extra.

Lemma saved_checkpoint_loads_back_witness :
  let self := snd (fst (mark_completed MemFs (fun _ => "") "2026-01-01T00:00:00"
                          "/akn/fi/act/statute/2024/1/fin@"
                          (new_manager (parse_arg "out/.state.json"))
                          (∅ : gmap string (option string)))) in
  let other := new_manager (parse_arg "out/.state.json") in
  let now := "2026-01-02T00:00:00" in
  let data := to_dict (state (snd (fst (save MemFs (fun _ => "") now self
                                          (∅ : gmap string (option string)))))) in
  let dumps := sample_dumps data in
  let saved := snd (fst (save MemFs dumps now self (∅ : gmap string (option string)))) in
  fst (fst (save MemFs dumps now self (∅ : gmap string (option string)))) = None
  /\ load MemFs MemReader (sample_loads data) other
       (snd (save MemFs dumps now self (∅ : gmap string (option string))))
     = LoadReturns true (with_state other (state saved))
  /\ completed_uris (state saved) = completed_uris (state self)
  /\ updated_at (state saved) = Some now.
Proof.
  intros self other now data dumps saved.
  apply (saved_checkpoint_loads_back MemFs MemReader dumps (sample_loads data) now self other
           (∅ : gmap string (option string))
           ({[ "out" := None ]} : gmap string (option string)));
    [exact MemFs_reads_back | vm_compute; reflexivity | reflexivity | reflexivity
    | reflexivity].
Defined.

Lemma reset_forgets_witness :
  let d : gmap string (option string) :=
    {[ "out" := None; "out/.state.json" := Some "{}" ]} in
  let self := snd (fst (mark_completed MemFs (fun _ => "{}") "2026-01-01T00:00:00"
                          "/akn/fi/act/statute/2024/1/fin@"
                          (new_manager (parse_arg "out/.state.json")) d)) in
  let '(e, self', d') := reset MemFs MemReader self d in
  self' = new_manager (state_file self)
  /\ is_completed self' "/akn/fi/act/statute/2024/1/fin@" = false
  /\ (e = None -> load MemFs MemReader (fun _ => Some ∅) self' d' = LoadReturns false self').
Proof.
  intros d self.
  exact (reset_forgets MemFs MemReader (fun _ => Some ∅) self d
           "/akn/fi/act/statute/2024/1/fin@" MemFs_reads_back).
Defined.

End CheckpointOnDiskWitnesses.

(** ** The manifest *)

Section ManifestFacts.
Import Py Pathlib Fs Disk Manifest Extra.

Lemma count_status_cons (s : string) (e : ManifestEntry) (l : list ManifestEntry) :
  count_status s (e :: l)
  = ((if String.eqb (status e) s then 1 else 0) + count_status s l)%nat.
Proof. unfold count_status. cbn [List.filter]. now destruct (String.eqb (status e) s). Qed.

(** X17: the three counts of the summary never count an entry twice, and
    they add up to the total exactly when every entry says [success],
    [skipped] or [error]: an entry with another status, such as [dry-run],
    is in the total only. *)
Theorem summary_counts_by_status (self : ManifestManager) :
  (success (summary self) + skipped (summary self) + errors (summary self)
   <= total (summary self))%nat
  /\ ((success (summary self) + skipped (summary self) + errors (summary self)
       = total (summary self))%nat
      <-> Forall (fun e => In (status e) ["success"; "skipped"; "error"]) (entries self)).
Proof.
  unfold summary. cbn [success skipped errors total].
  induction (entries self) as [|e l [IH1 IH2]].
  - cbn. split; [lia |]. split; [constructor | reflexivity].
  - rewrite !count_status_cons. cbn [length].
    assert (status e = "success" \/ status e = "skipped" \/ status e = "error"
            \/ ~ In (status e) ["success"; "skipped"; "error"]) as Hs.
    { destruct (String.eqb_spec (status e) "success"); [now left |].
      destruct (String.eqb_spec (status e) "skipped"); [now right; left |].
      destruct (String.eqb_spec (status e) "error"); [now right; right; left |].
      right; right; right. cbn. intuition congruence. }
    rewrite Forall_cons.
    destruct Hs as [-> | [-> | [-> | Hn]]]; cbn [String.eqb Ascii.eqb Bool.eqb];
      try (split; [lia |]; rewrite <- IH2; cbn; split; [intros; split; [tauto | lia] | lia]).
    assert (String.eqb (status e) "success" = false) as ->
      by (apply String.eqb_neq; intros E; apply Hn; rewrite E; cbn; tauto).
    assert (String.eqb (status e) "skipped" = false) as ->
      by (apply String.eqb_neq; intros E; apply Hn; rewrite E; cbn; tauto).
    assert (String.eqb (status e) "error" = false) as ->
      by (apply String.eqb_neq; intros E; apply Hn; rewrite E; cbn; tauto).
    split; [lia |]. split; [lia | tauto].
Qed.

Context (F : FileSystem) (R : Reader F).
Context (dumps : Document -> string) (load_entries : string -> option (list ManifestEntry)).

(** X18: a manifest that could be written is read back as it was saved:
    when the directory could be made and the file written, on a disk that
    reads back what was written and with a reader that understands what the
    writer wrote, [add] raises nothing and has appended the entry, and a
    manifest manager made for the same file afterwards starts with exactly
    the entries of the one that saved. *)
Theorem saved_manifest_loads_back (now : string) (entry : ManifestEntry)
    (self : ManifestManager) (d d1 : Fs.state F) :
  let added := add F dumps now entry self d in
  let doc := document now (snd (fst added)) in
  reads_back F R ->
  load_entries (dumps doc) = Some (doc_entries doc) ->
  mkdir F d (parent (manifest_file self)) true true = (None, d1) ->
  fst (write_bytes F d1 (manifest_file self) (dumps doc)) = None ->
  fst (fst added) = None
  /\ entries (snd (fst added)) = entries self ++ [entry]
  /\ new_manifest F R load_entries (manifest_file self) (snd added) = snd (fst added).
Proof.
  cbv zeta. intros [Hread _].
  assert (snd (fst (add F dumps now entry self d))
          = {| manifest_file := manifest_file self; entries := entries self ++ [entry] |})
    as Eadded.
  { unfold add. now destruct (save F dumps now _ d). }
  rewrite Eadded. intros Hcodec Hmk Hwr.
  unfold add, save. cbn [manifest_file]. rewrite Hmk.
  destruct (write_bytes F d1 (manifest_file self) _) as [e d2] eqn:Ewr.
  cbn [fst snd entries] in Hwr |- *. subst e.
  destruct (Hread _ _ _ _ Ewr) as [Hex Hrd].
  split; [reflexivity |]. split; [reflexivity |].
  unfold new_manifest. now rewrite Hex, Hrd, Hcodec.
Qed.

End ManifestFacts.

Section ManifestWitnesses.
Import Py Pathlib Fs Disk Manifest Extra.

Lemma saved_manifest_loads_back_witness :
  let entry := {| akn_uri := "/akn/fi/act/statute/2024/1/fin@"; status := "dry-run";
                  timestamp := "2026-01-01T00:00:00"; files := []; error := None |} in
  let self := {| manifest_file := parse_arg "out/manifest.json"; entries := [] |} in
  let d : gmap string (option string) := ∅ in
  let dumps : Document -> string := fun doc =>
    String.concat ";" (List.map (fun e => akn_uri e +:+ " " +:+ status e) (doc_entries doc)) in
  let load_entries : string -> option (list ManifestEntry) := fun text =>
    if String.eqb text "/akn/fi/act/statute/2024/1/fin@ dry-run" then Some [entry] else None in
  let added := add MemFs dumps "2026-01-01T00:00:01" entry self d in
  fst (fst added) = None
  /\ entries (snd (fst added)) = entries self ++ [entry]
  /\ new_manifest MemFs MemReader load_entries (manifest_file self) (snd added)
     = snd (fst added).
Proof.
  intros entry self d dumps load_entries added.
  apply (saved_manifest_loads_back MemFs MemReader dumps load_entries
           "2026-01-01T00:00:01" entry self d
           ({[ "out" := None ]} : gmap string (option string)));
    [exact MemFs_reads_back | reflexivity | reflexivity | reflexivity].
Defined.

End ManifestWitnesses.

(** ** The year window *)

Section YearFacts.
Import Years.

(** X19: an override of the years for a category is used when it is given
    and not 0, negative values included; an override of 0, like none, falls
    back to [--years]; the window then ends with the current year and has as
    many years as that number says, so it is empty or inverted when the
    number is not positive. *)
Theorem years_override_and_window (args : Args) (category : string) (current_year : Z) :
  let n := get_years_for_type args category in
  (n = match override args category with
       | Some 0 | None => years args
       | Some m => m
       end)
  /\ (In category ["act"; "judgment"; "doc"; "authority-regulation"]
      \/ override args category = None)
  /\ snd (get_year_range current_year n) = current_year
  /\ snd (get_year_range current_year n) - fst (get_year_range current_year n) + 1 = n.
Proof.
  cbv zeta. split; [| split; [| split]].
  - unfold get_years_for_type, Listing.truthy_int.
    destruct (override args category) as [m|]; [| reflexivity].
    destruct (Z.eqb_spec m 0) as [-> | Hm]; [reflexivity |]. now destruct m.
  - unfold override.
    destruct (String.eqb_spec category "act") as [-> | _]; [left; cbn; tauto |].
    destruct (String.eqb_spec category "judgment") as [-> | _]; [left; cbn; tauto |].
    destruct (String.eqb_spec category "doc") as [-> | _]; [left; cbn; tauto |].
    destruct (String.eqb_spec category "authority-regulation") as [-> | _];
      [left; cbn; tauto | now right].
  - reflexivity.
  - unfold get_year_range. cbn [fst snd]. lia.
Qed.

End YearFacts.

(** ** The loop of [run_download] *)

Section LoopFacts.
Import Py Pathlib Client Fs Extra Orchestrator.

Context (F : FileSystem) (t : Transport) (fromstring : string -> option Etree.Element).
Context (dumps_state : gmap string State.Json -> string).
Context (dumps_manifest : Manifest.Document -> string).
Context (clock : nat -> string).

Lemma advances_refl (r : Run F) : advances r r.
Proof.
  exists [], []. rewrite !app_nil_r. repeat split; auto.
Qed.

Lemma advances_trans (r1 r2 r3 : Run F) : advances r1 r2 -> advances r2 r3 -> advances r1 r3.
Proof.
  intros (new1 & reqs1 & E1 & S1 & O1 & K1 & N1) (new2 & reqs2 & E2 & S2 & O2 & K2 & N2).
  exists (new1 ++ new2), (reqs1 ++ reqs2).
  rewrite E2, E1, S2, S1, <- !app_assoc. repeat split; auto.
  - apply Forall_app. now split.
  - intros u Hu. destruct (N2 u Hu) as [H | (e & He & Hue & Hd)].
    + destruct (N1 u H) as [H' | (e & He & Hue & Hd)]; [now left |].
      right. exists e. rewrite in_app_iff. now auto.
    + right. exists e. rewrite in_app_iff. now auto.
Qed.

(** A run that differs in the requests sent, the disk and the clock
    only. *)
Lemma advances_world (r : Run F) (w : Downloader.World F) (k : nat)
    (reqs : list Request) :
  Downloader.sent w = Downloader.sent (world r) ++ reqs ->
  advances r {| state_manager := state_manager r; manifest_manager := manifest_manager r;
                world := w; ticks := k |}.
Proof.
  intros E. exists [], reqs. cbn [state_manager manifest_manager world].
  rewrite app_nil_r. repeat split; auto.
Qed.

Lemma add_entries (now : string) (entry : Manifest.ManifestEntry)
    (self : Manifest.ManifestManager) (d : Fs.state F) :
  Manifest.entries (snd (fst (Manifest.add F dumps_manifest now entry self d)))
  = Manifest.entries self ++ [entry].
Proof. unfold Manifest.add. now destruct (Manifest.save F dumps_manifest now _ d). Qed.

Lemma set_page_fields (now : string) (page : Z) (self : State.StateManager)
    (d : Fs.state F) :
  State.completed_uris (State.state (snd (fst (State.set_page F dumps_state now page self d))))
  = State.completed_uris (State.state self)
  /\ State.current_page (State.state (snd (fst (State.set_page F dumps_state now page self d))))
     = page.
Proof.
  unfold State.set_page.
  match goal with
  | |- context [State.save F dumps_state now ?s d] =>
      destruct (save_fields F dumps_state now s d) as (_ & H2 & _ & H4 & _)
  end.
  cbv zeta in *. now rewrite H2, H4.
Qed.

(** One item: either it is completed already and nothing happens, or the
    run advances; when no exception ends it, the page stored is the
    counter. *)
Lemma process_item_spec (options : Downloader.DownloadOptions) (item : Listing.ListItem)
    (page : Z) (r : Run F) :
  let out :=
    process_item F t fromstring dumps_state dumps_manifest clock options item page r in
  advances r (snd out)
  /\ (State.is_completed (state_manager r) (Listing.akn_uri item) = true -> out = (None, r))
  /\ (State.is_completed (state_manager r) (Listing.akn_uri item) = false ->
      fst out = None ->
      State.current_page (State.state (state_manager (snd out))) = page).
Proof.
  cbv zeta. unfold Orchestrator.process_item.
  destruct (State.is_completed (state_manager r) (Listing.akn_uri item)) eqn:Edone.
  { split; [apply advances_refl |]. split; [reflexivity | discriminate]. }
  split; [| split; [discriminate | intros _]].
  - destruct (download_sent_extends F t fromstring (clock (ticks r)) (Listing.akn_uri item)
                options (world r)) as (reqs & Esent).
    pose proof (download_result_cases F t fromstring (clock (ticks r))
                  (Listing.akn_uri item) options (world r)) as Hres.
    destruct (Downloader.download_document F t fromstring _ _ options (world r))
      as [[result | e] w]; cbn [fst snd] in *;
      [| now apply advances_world with (reqs := reqs)].
    destruct (Hres result eq_refl) as (Huri & _ & Hstatus).
    assert (In (Manifest.status (entry_of result)) outcomes) as Hout.
    { unfold entry_of, outcomes. cbn [Manifest.status].
      destruct Hstatus as [(-> & _) | [(-> & _) | ([-> | ->] & _)]]; cbn; auto 6. }
    pose proof (add_entries (clock (S (ticks r))) (entry_of result) (manifest_manager r)
                  (Downloader.disk w)) as Eadd.
    destruct (Manifest.add F dumps_manifest _ (entry_of result) (manifest_manager r)
                (Downloader.disk w)) as [[e mm] d]. cbn [fst snd] in Eadd.
    assert (forall sm d' k,
               (forall u, State.is_completed (state_manager r) u = true ->
                          State.is_completed sm u = true) ->
               (forall u, State.is_completed sm u = true ->
                          State.is_completed (state_manager r) u = true
                          \/ (u = Listing.akn_uri item
                              /\ counts_as_done (Downloader.status result) = true)) ->
               advances r {| state_manager := sm; manifest_manager := mm;
                             world := {| Downloader.disk := d';
                                         Downloader.sent := Downloader.sent w |};
                             ticks := k |}) as Hadv.
    { intros sm d' k Hkeep Hnew. exists [entry_of result], reqs.
      cbn [state_manager manifest_manager world Downloader.sent].
      repeat split; auto.
      intros u Hu. destruct (Hnew u Hu) as [H | [-> Hd]]; [now left |].
      right. exists (entry_of result). cbn. now auto. }
    destruct e as [e|]; [apply Hadv; now auto |].
    destruct (counts_as_done (Downloader.status result)) eqn:Ecounts.
    + pose proof (mark_completed_completed F dumps_state (clock (S (S (ticks r))))
                    (Listing.akn_uri item) (state_manager r) d) as Emark.
      destruct (State.mark_completed F dumps_state _ _ (state_manager r) d)
        as [[e sm] d1]. cbn [fst snd] in Emark.
      assert (forall u, State.is_completed sm u = true <->
                        u = Listing.akn_uri item
                        \/ State.is_completed (state_manager r) u = true) as Hsm.
      { intros u. unfold State.is_completed. rewrite !bool_decide_eq_true, Emark,
          elem_of_union, elem_of_singleton. reflexivity. }
      destruct e as [e|].
      * apply Hadv; intros u Hu; [apply Hsm; now right |].
        apply Hsm in Hu. destruct Hu; now auto.
      * destruct (set_page_fields (clock (S (S (S (ticks r))))) page sm d1) as [Eset _].
        destruct (State.set_page F dumps_state _ page sm d1) as [[e sm2] d2].
        cbn [fst snd] in Eset |- *.
        assert (forall u, State.is_completed sm2 u = State.is_completed sm u) as Hsm2
          by (intros u; unfold State.is_completed; now rewrite Eset).
        apply Hadv; intros u; rewrite Hsm2, Hsm; intros Hu; [now right |].
        destruct Hu; now auto.
    + destruct (set_page_fields (clock (S (S (ticks r)))) page (state_manager r) d)
        as [Eset _].
      destruct (State.set_page F dumps_state _ page (state_manager r) d) as [[e sm2] d2].
      cbn [fst snd] in Eset |- *.
      assert (forall u, State.is_completed sm2 u = State.is_completed (state_manager r) u)
        as Hsm2 by (intros u; unfold State.is_completed; now rewrite Eset).
      apply Hadv; intros u; rewrite Hsm2; now auto.
  - destruct (Downloader.download_document F t fromstring _ _ options (world r))
      as [[result | e] w]; [| discriminate].
    destruct (Manifest.add F dumps_manifest _ (entry_of result) (manifest_manager r)
                (Downloader.disk w)) as [[[e|] mm] d]; [discriminate |].
    destruct (counts_as_done (Downloader.status result)).
    + destruct (State.mark_completed F dumps_state _ _ (state_manager r) d)
        as [[[e|] sm] d1]; [discriminate |].
      destruct (set_page_fields (clock (S (S (S (ticks r))))) page sm d1) as [_ Epage].
      destruct (State.set_page F dumps_state _ page sm d1) as [[e sm2] d2].
      now cbn [fst snd state_manager] in *.
    + destruct (set_page_fields (clock (S (S (ticks r)))) page (state_manager r) d)
        as [_ Epage].
      destruct (State.set_page F dumps_state _ page (state_manager r) d) as [[e sm2] d2].
      now cbn [fst snd state_manager] in *.
Qed.

Lemma process_items_advances (options : Downloader.DownloadOptions)
    (items : list Listing.ListItem) (page : Z) (r : Run F) :
  advances r
    (snd (process_items F t fromstring dumps_state dumps_manifest clock
            options items page r)).
Proof.
  revert page r. induction items as [|item items IH]; intros page r.
  - apply advances_refl.
  - cbn [Orchestrator.process_items].
    destruct (process_item_spec options item (page + 1) r) as (Hadv & _).
    cbv zeta in Hadv.
    destruct (process_item F t fromstring dumps_state dumps_manifest clock
                options item (page + 1) r) as [[e|] r1]; [exact Hadv |].
    cbn [snd] in Hadv. apply (advances_trans r r1); [exact Hadv | apply IH].
Qed.

Lemma consume_advances (fuel : nat) (config : Listing.ListConfig)
    (options : Downloader.DownloadOptions) (path : string) (listed page : Z) (r : Run F) :
  advances r
    (snd (consume F t fromstring dumps_state dumps_manifest clock
            fuel config options path listed page r)).
Proof.
  revert listed page r. induction fuel as [|fuel IH]; intros listed page r.
  - apply advances_refl.
  - cbn [Orchestrator.consume].
    destruct (Listing.past_max_pages config listed); [apply advances_refl |].
    unfold get_json, get. cbv zeta.
    match goal with
    | |- context [t (Downloader.sent (world r)) ?q] => set (req := q)
    end.
    set (r1 := {| state_manager := state_manager r; manifest_manager := manifest_manager r;
                  world := {| Downloader.disk := Downloader.disk (world r);
                              Downloader.sent := Downloader.sent (world r) ++ [req] |};
                  ticks := ticks r |}).
    assert (advances r r1) as H1 by now apply advances_world with (reqs := [req]).
    destruct (t (Downloader.sent (world r)) req) as [response | e]; [| exact H1].
    destruct (negb (status_code response =? 200)); [exact H1 |].
    destruct (json response) as [[|item rest] |]; [exact H1 | | exact H1].
    pose proof (process_items_advances options
                  (List.map Listing.item_of (item :: rest)) page r1) as H2.
    destruct (process_items F t fromstring dumps_state dumps_manifest clock
                options (List.map Listing.item_of (item :: rest)) page r1)
      as [[[e|] page'] r2]; cbn [snd] in H2; [exact (advances_trans _ _ _ H1 H2) |].
    destruct (_ <? _); [exact (advances_trans _ _ _ H1 H2) |].
    apply (advances_trans r r2); [exact (advances_trans _ _ _ H1 H2) | apply IH].
Qed.

(** X20: one turn of the loop over a document type, however it ends, only
    adds to the manifest and to the requests sent; nothing completed is
    forgotten, every new manifest entry has one of the four outcomes, and an
    address is completed afterwards only if it was before or the turn added
    a manifest entry for it that says [success] or [skipped]. *)
Theorem document_type_turn_advances (fuel : nat) (args : Cli.Args)
    (options : Downloader.DownloadOptions) (actual_category doc_type : string)
    (start_year end_year : Z) (r : Run F) :
  advances r
    (snd (run_document_type F t fromstring dumps_state dumps_manifest clock
            fuel args options actual_category doc_type
            start_year end_year r)).
Proof.
  unfold Orchestrator.run_document_type. cbv zeta.
  pose proof (apply_op_fields F dumps_state (clock (ticks r))
                (StartSession actual_category doc_type) (state_manager r)
                (Downloader.disk (world r))) as (_ & Hc & _).
  cbn [apply_op] in Hc.
  destruct (State.start_session F dumps_state _ actual_category doc_type (state_manager r)
              (Downloader.disk (world r))) as [[e sm] d]. cbn [fst snd] in Hc.
  assert (forall u, State.is_completed sm u = State.is_completed (state_manager r) u)
    as Hsm.
  { intros u. unfold State.is_completed. rewrite Hc. apply bool_decide_ext.
    rewrite elem_of_union. cbn. rewrite elem_of_empty. tauto. }
  set (r1 := {| state_manager := sm; manifest_manager := manifest_manager r;
                world := {| Downloader.disk := d;
                            Downloader.sent := Downloader.sent (world r) |};
                ticks := S (ticks r) |}).
  assert (advances r r1) as H1.
  { exists [], []. cbn [r1 state_manager manifest_manager world Downloader.sent].
    rewrite !app_nil_r. repeat split; auto; intros u; rewrite Hsm; auto. }
  destruct e as [e|]; [exact H1 |].
  apply (advances_trans r r1); [exact H1 | apply consume_advances].
Qed.

(** X21: the number that the loop stores as the current page counts items,
    not pages: when the items of a listing page are gone through without an
    exception, the counter has moved on by their number, and the page stored
    afterwards is the one stored before (every item was completed already)
    or the counter at one of these items. *)
Theorem stored_page_counts_items (options : Downloader.DownloadOptions)
    (items : list Listing.ListItem) (page : Z) (r : Run F) :
  let out :=
    process_items F t fromstring dumps_state dumps_manifest clock options items page r in
  let r' := snd out in
  fst (fst out) = None ->
  snd (fst out) = page + Z.of_nat (length items)
  /\ (State.current_page (State.state (state_manager r'))
      = State.current_page (State.state (state_manager r))
      \/ page < State.current_page (State.state (state_manager r'))
         <= page + Z.of_nat (length items)).
Proof.
  cbv zeta. revert page r. induction items as [|item items IH]; intros page r.
  - cbn. intros _. split; [lia | now left].
  - cbn [Orchestrator.process_items].
    destruct (process_item_spec options item (page + 1) r) as (_ & Hdone & Hfresh).
    cbv zeta in Hdone, Hfresh.
    destruct (process_item F t fromstring dumps_state dumps_manifest clock
                options item (page + 1) r) as [[e|] r1] eqn:E; [discriminate |].
    intros Hnone. destruct (IH (page + 1) r1 Hnone) as [Hcount Hpage].
    cbn [length]. split; [lia |].
    destruct (State.is_completed (state_manager r) (Listing.akn_uri item)) eqn:Ec.
    + specialize (Hdone eq_refl). injection Hdone as <-.
      destruct Hpage as [Hp | Hp]; [now left | right; lia].
    + specialize (Hfresh eq_refl eq_refl). cbn [snd] in Hfresh. right.
      destruct Hpage as [Hp | Hp]; lia.
Qed.

(** The answers and the ending of the lister do not depend on the items
    gathered. *)
Lemma list_loop_items_irrelevant (fuel : nat) (config : Listing.ListConfig) (path : string)
    (p : Z) (sent : list Request) (items1 items2 : list Listing.ListItem) :
  Listing.log (Listing.list_loop fuel t config path p sent items1)
  = Listing.log (Listing.list_loop fuel t config path p sent items2)
  /\ Listing.ending (Listing.list_loop fuel t config path p sent items1)
     = Listing.ending (Listing.list_loop fuel t config path p sent items2).
Proof.
  revert p sent items1 items2. induction fuel as [|fuel IH]; intros p sent items1 items2.
  - now split.
  - cbn [Listing.list_loop]. destruct (Listing.past_max_pages config p); [now split |].
    destruct (get_json t sent path _) as [[response | e] sent']; [| now split].
    destruct (negb (status_code response =? 200)); [now split |].
    destruct (json response) as [[|item rest] |]; [now split | | now split].
    destruct (_ <? _); [now split | apply IH].
Qed.

Lemma process_items_completed (options : Downloader.DownloadOptions)
    (items : list Listing.ListItem) (page : Z) (r : Run F) :
  Forall (fun i => State.is_completed (state_manager r) (Listing.akn_uri i) = true) items ->
  process_items F t fromstring dumps_state dumps_manifest clock options items page r
  = (None, page + Z.of_nat (length items), r).
Proof.
  revert page. induction items as [|item items IH]; intros page Hall.
  - cbn. now rewrite Z.add_0_r.
  - apply Forall_cons in Hall as [Hitem Hall]. cbn [Orchestrator.process_items].
    destruct (process_item_spec options item (page + 1) r) as (_ & Hdone & _).
    cbv zeta in Hdone. rewrite (Hdone Hitem), (IH (page + 1) Hall).
    cbn [length]. replace (page + Z.of_nat (S (length items)))
      with (page + 1 + Z.of_nat (length items)) by lia.
    reflexivity.
Qed.

(** X22: when every address the listing serves is completed already, the
    loop downloads nothing: it sends the requests of the lister and no
    other, ends as the lister does, and leaves the checkpoint, the manifest,
    the disk and the clock as they were. *)
Theorem completed_items_are_passed_over (fuel : nat) (config : Listing.ListConfig)
    (options : Downloader.DownloadOptions) (path : string) (listed page : Z) (r : Run F) :
  (forall log req response items,
      t log req = Returns response -> json response = Some items ->
      Forall (fun i => State.is_completed (state_manager r)
                         (Listing.akn_uri (Listing.item_of i)) = true) items) ->
  let listing :=
    Listing.list_loop fuel t config path listed (Downloader.sent (world r)) [] in
  consume F t fromstring dumps_state dumps_manifest clock
    fuel config options path listed page r
  = (Listing.ending listing, with_sent (Listing.log listing) r).
Proof.
  intros Hall. cbv zeta. revert listed page r Hall.
  induction fuel as [|fuel IH]; intros listed page r Hall.
  - cbn. now destruct r as [sm mm [d s] k].
  - cbn [Orchestrator.consume Listing.list_loop].
    destruct (Listing.past_max_pages config listed);
      [cbn; now destruct r as [sm mm [d s] k] |].
    unfold get_json, get. cbv zeta.
    match goal with
    | |- context [t (Downloader.sent (world r)) ?q] => set (req := q)
    end.
    destruct (t (Downloader.sent (world r)) req) as [response | e] eqn:Et;
      [| reflexivity].
    destruct (negb (status_code response =? 200)); [reflexivity |].
    destruct (json response) as [[|item rest] |] eqn:Ejson;
      [reflexivity | | reflexivity].
    set (r1 := {| state_manager := state_manager r; manifest_manager := manifest_manager r;
                  world := {| Downloader.disk := Downloader.disk (world r);
                              Downloader.sent := Downloader.sent (world r) ++ [req] |};
                  ticks := ticks r |}).
    rewrite (process_items_completed options
               (List.map Listing.item_of (item :: rest)) page r1)
      by (apply Forall_map; exact (Hall _ _ _ _ Et Ejson)).
    destruct (_ <? _); [reflexivity |].
    rewrite (IH (listed + 1) _ r1 Hall). cbn [r1 world Downloader.sent].
    destruct (list_loop_items_irrelevant fuel config path (listed + 1)
                (Downloader.sent (world r) ++ [req]) []
                ([] ++ List.map Listing.item_of (item :: rest))) as [-> ->].
    reflexivity.
Qed.

End LoopFacts.

Section LoopWitnesses.
Import Py Pathlib Client Fs Spec Extra Orchestrator.

Lemma stored_page_counts_items_witness :
  let options := {| Downloader.output_dir := parse_arg "out"; Downloader.fetch_pdf := false;
                    Downloader.fetch_zip := false; Downloader.fetch_media := false;
                    Downloader.force := false; Downloader.dry_run := false |} in
  let items := [ {| Listing.akn_uri := "/akn/fi/act/statute/2024/1/fin@";
                    Listing.status := "NEW" |};
                 {| Listing.akn_uri := "/akn/fi/act/statute/2024/2/fin@";
                    Listing.status := "NEW" |} ] in
  let r : Run MemFs :=
    {| state_manager := State.new_manager (parse_arg "out/.state.json");
       manifest_manager := {| Manifest.manifest_file := parse_arg "out/manifest.json";
                              Manifest.entries := [] |};
       world := Downloader.Build_World MemFs (∅ : gmap string (option string)) [];
       ticks := 0 |} in
  let out := process_items MemFs (always 200 "<akomaNtoso/>") no_parser
               (fun _ => "{}") (fun _ => "{}") (fun _ => "2026-01-01T00:00:00")
               options items 7 r in
  State.current_page (State.state (state_manager (snd out))) = 9
  /\ snd (fst out) = 7 + Z.of_nat (length items)
  /\ (State.current_page (State.state (state_manager (snd out)))
      = State.current_page (State.state (state_manager r))
      \/ 7 < State.current_page (State.state (state_manager (snd out)))
         <= 7 + Z.of_nat (length items)).
Proof.
  intros options items r out. split; [reflexivity |].
  apply (stored_page_counts_items MemFs (always 200 "<akomaNtoso/>") no_parser
           (fun _ => "{}") (fun _ => "{}") (fun _ => "2026-01-01T00:00:00")
           options items 7 r).
  reflexivity.
Defined.

Lemma completed_items_are_passed_over_witness :
  let uri := "/akn/fi/act/statute/2024/1/fin@" in
  let item : gmap string string := {[ "akn_uri" := uri ]} in
  let t := same_page [item] in
  let config := {| Listing.category := "act"; Listing.document_type := "statute";
                   Listing.lang_and_version := "fin@"; Listing.start_year := None;
                   Listing.end_year := None; Listing.limit := 10;
                   Listing.max_pages := None |} in
  let options := {| Downloader.output_dir := parse_arg "out"; Downloader.fetch_pdf := true;
                    Downloader.fetch_zip := true; Downloader.fetch_media := true;
                    Downloader.force := true; Downloader.dry_run := false |} in
  let r : Run MemFs :=
    {| state_manager :=
         snd (fst (State.mark_completed MemFs (fun _ => "{}") "2026-01-01T00:00:00" uri
                     (State.new_manager (parse_arg "out/.state.json"))
                     (∅ : gmap string (option string))));
       manifest_manager := {| Manifest.manifest_file := parse_arg "out/manifest.json";
                              Manifest.entries := [] |};
       world := Downloader.Build_World MemFs (∅ : gmap string (option string)) [];
       ticks := 0 |} in
  let listing := Listing.list_loop 5 t config "/akn/fi/act/statute/list" 1 [] [] in
  Listing.ending listing = Listing.ShortPage
  /\ consume MemFs t no_parser (fun _ => "{}") (fun _ => "{}")
       (fun _ => "2026-01-02T00:00:00") 5 config options "/akn/fi/act/statute/list" 1 0 r
     = (Listing.ending listing, with_sent (Listing.log listing) r).
Proof.
  intros uri item t config options r listing. split; [reflexivity |].
  apply (completed_items_are_passed_over MemFs t no_parser (fun _ => "{}") (fun _ => "{}")
           (fun _ => "2026-01-02T00:00:00") 5 config options "/akn/fi/act/statute/list"
           1 0 r).
  intros sent req response items [= <-] [= <-].
  constructor; [vm_compute; reflexivity | constructor].
Defined.

End LoopWitnesses.

Section ExitCode.
Import Py Pathlib Client Fs Spec Extra Orchestrator.

Lemma exit_code_spec (mm : Manifest.ManifestManager) :
  exit_code mm = 1
  <-> Exists (fun e => Manifest.status e = "error") (Manifest.entries mm).
Proof.
  unfold exit_code, Manifest.summary, Manifest.count_status. cbn [Manifest.errors].
  induction (Manifest.entries mm) as [|e l IH].
  - cbn. split; [discriminate | intros H; inversion H].
  - cbn [List.filter]. rewrite Exists_cons.
    destruct (String.eqb_spec (Manifest.status e) "error") as [E | E].
    + cbn. tauto.
    + rewrite IH. tauto.
Qed.

(** X23: the exit code is read off the whole manifest, and a turn of the loop
    never takes an entry away: once the manifest holds an entry with status
    [error], from this run or from the file of an earlier one, the exit code
    is 1, and it is 1 after every further turn, whatever is downloaded. *)
Theorem error_entry_keeps_exit_code (F : FileSystem) (t : Transport)
    (fromstring : string -> option Etree.Element)
    (dumps_state : gmap string State.Json -> string)
    (dumps_manifest : Manifest.Document -> string) (clock : nat -> string)
    (fuel : nat) (args : Cli.Args) (options : Downloader.DownloadOptions)
    (actual_category doc_type : string) (start_year end_year : Z) (r : Run F) :
  Exists (fun e => Manifest.status e = "error") (Manifest.entries (manifest_manager r)) ->
  exit_code (manifest_manager r) = 1
  /\ exit_code
       (manifest_manager
          (snd (run_document_type F t fromstring dumps_state dumps_manifest clock
                  fuel args options actual_category doc_type start_year end_year r)))
     = 1.
Proof.
  intros Herr. split; [now apply exit_code_spec |]. apply exit_code_spec.
  unfold run_document_type. cbv zeta.
  destruct (State.start_session F dumps_state _ actual_category doc_type (state_manager r)
              (Downloader.disk (world r))) as [[[e|] sm] d]; [exact Herr |].
  match goal with
  | |- context [consume _ _ _ _ _ _ ?f ?c ?o ?p ?l ?g ?r1] =>
      destruct (consume_advances F t fromstring dumps_state dumps_manifest clock
                  f c o p l g r1) as (new & _ & -> & _)
  end.
  cbn [manifest_manager]. apply Exists_app. now left.
Qed.

Lemma error_entry_keeps_exit_code_witness :
  let uri := "/akn/fi/act/statute/2024/1/fin@" in
  let old := {| Manifest.akn_uri := "/akn/fi/act/statute/2023/9/fin@";
                Manifest.status := "error"; Manifest.timestamp := "2025-12-31T00:00:00";
                Manifest.files := []; Manifest.error := Some "HTTP 500 fetching XML" |} in
  let item : gmap string string := {[ "akn_uri" := uri ]} in
  let options := {| Downloader.output_dir := parse_arg "out"; Downloader.fetch_pdf := false;
                    Downloader.fetch_zip := false; Downloader.fetch_media := false;
                    Downloader.force := false; Downloader.dry_run := true |} in
  let r : Run MemFs :=
    {| state_manager := State.new_manager (parse_arg "out/.state.json");
       manifest_manager := {| Manifest.manifest_file := parse_arg "out/manifest.json";
                              Manifest.entries := [old] |};
       world := Downloader.Build_World MemFs (∅ : gmap string (option string)) [];
       ticks := 0 |} in
  let args := {| Cli.lang := "fin@"; Cli.limit := 10; Cli.max_pages := Some 1 |} in
  let out := run_document_type MemFs (same_page [item]) no_parser (fun _ => "{}")
               (fun _ => "{}") (fun _ => "2026-01-01T00:00:00") 3 args options
               "act" "statute" 2026 2026 r in
  List.map Manifest.status (Manifest.entries (manifest_manager (snd out)))
  = ["error"; "dry-run"]
  /\ exit_code (manifest_manager r) = 1
  /\ exit_code (manifest_manager (snd out)) = 1.
Proof.
  intros uri old item options r args out. split; [reflexivity |].
  apply (error_entry_keeps_exit_code MemFs (same_page [item]) no_parser (fun _ => "{}")
           (fun _ => "{}") (fun _ => "2026-01-01T00:00:00") 3 args options
           "act" "statute" 2026 2026 r).
  constructor. reflexivity.
Defined.

End ExitCode.
